(** * VeggiTrade: the trading core of [src/App.tsx] and [src/components/TradePanel.tsx]

    A shallow embedding of the price simulation, the limit-order matching
    loop, the trade and cancel handlers and the trade form's validation,
    together with the properties the design document states about them.

    Number model.  A JavaScript [number] is modelled as a canonical rational
    [Qc]: arithmetic is exact, there is no rounding, no NaN and no infinity.
    The statements proved on this model compare stored numbers, follow the
    structure of the ledger, or name the very expressions the code computes,
    so they read the same on doubles.  Where the rounding of doubles decides
    a statement (placing and cancelling an order, the average cost of a
    purchase), [handleTrade] and [handleCancelOrder] are embedded a second
    time on IEEE-754 binary64 numbers, in the module [Binary64], and the
    statement is settled there.

    Effects.  [Math.random()], [Date.now()] and the number formatting
    builtins are read from an explicit [World]; React state setters, the
    persistence call and the toast notifications are collected in an
    [Effects] record returned by each handler. *)

From Stdlib Require Import QArith Qcanon Qround Lqa.
From Stdlib Require Floats.SpecFloat.
From stdpp Require Import base decidable option list numbers strings gmap.

Local Open Scope Qc_scope.

(** ** JavaScript numbers and the runtime *)

(** A decimal literal such as [0.02] is [dec 2 100]. *)
Definition dec (n : Z) (d : positive) : Qc := Q2Qc (n # d).

Definition Math_max (a b : Qc) : Qc := if bool_decide (a < b) then b else a.

Definition Math_floor (x : Qc) : Qc := Qc_of_Z (Qfloor x).

(** [JSON.parse(JSON.stringify(x))]: a deep copy.  Values are immutable here,
    so the copy is the value itself; what matters is that the handlers
    mutate the copy and never the state they were given. *)
Definition JSON_clone {A : Type} (x : A) : A := x.

(** The part of the JavaScript environment the handlers read.  [random n] is
    the result of the [n]-th call of [Math.random()], [drawn] counts the
    calls made so far, [now] is [Date.now()], and the two formatting
    functions are [Number.prototype.toString(radix)] and
    [Number.prototype.toFixed(digits)].  [store_ok] tells whether the remote
    document write of [updatePortfolio] succeeds or throws. *)
Record World := mkWorld {
  random : nat → Qc;
  drawn : nat;
  now : Qc;
  toString : Z → Qc → string;
  toFixed : Z → Qc → string;
  store_ok : bool
}.

Definition Math_random (w : World) : Qc * World :=
  (random w (drawn w),
   mkWorld (random w) (S (drawn w)) (now w) (toString w) (toFixed w) (store_ok w)).

Definition Date_now (w : World) : Qc := now w.

(** [s.substr(2)] *)
Definition substr2 (s : string) : string :=
  String.substring 2 (String.length s - 2) s.

(** [const generateId = () => Date.now().toString(36) + Math.random().toString(36).substr(2)] *)
Definition generateId (w : World) : string * World :=
  let t := toString w 36 (Date_now w) in
  let '(r, w) := Math_random w in
  (t +:+ substr2 (toString w 36 r), w).

(** [Array.prototype.map] with a callback that reads the world. *)
Fixpoint mapW {A B : Type} (f : A → World → B * World) (l : list A) (w : World)
  : list B * World :=
  match l with
  | [] => ([], w)
  | x :: l' =>
      let '(y, w) := f x w in
      let '(ys, w) := mapW f l' w in
      (y :: ys, w)
  end.

(** ** Data model ([src/types.ts]) *)

Inductive Side := BUY | SELL.
Inductive OrderType := MARKET | LIMIT.

Global Instance Side_eq_dec : EqDecision Side.
Proof. solve_decision. Defined.
Global Instance OrderType_eq_dec : EqDecision OrderType.
Proof. solve_decision. Defined.

Definition Side_name (s : Side) : string :=
  match s with BUY => "BUY" | SELL => "SELL" end.

Module HistoryPoint.
Record t := mk { time : Qc; price : Qc; volume : Qc }.
End HistoryPoint.

Module Asset.
Record t := mk {
  id : string;
  name : string;
  icon : string;
  initial_price : Qc;
  current_price : Qc;
  history : list HistoryPoint.t;
  change24h : Qc
}.
End Asset.

Module Holding.
Record t := mk { quantity : Qc; avgCost : Qc }.
End Holding.

Module Transaction.
Record t := mk {
  id : string;
  type : Side;
  assetId : string;
  assetName : string;
  quantity : Qc;
  price : Qc;
  timestamp : Qc;
  orderType : OrderType
}.
End Transaction.

Module LimitOrder.
Record t := mk {
  id : string;
  assetId : string;
  type : Side;
  quantity : Qc;
  targetPrice : Qc;
  timestamp : Qc
}.
End LimitOrder.

Module Portfolio.
Record t := mk {
  cashBalance : Qc;
  holdings : gmap string Holding.t;
  transactions : list Transaction.t;
  openOrders : list LimitOrder.t
}.

Definition set_cashBalance (c : Qc) (p : t) : t :=
  mk c (holdings p) (transactions p) (openOrders p).
Definition set_holding (k : string) (h : Holding.t) (p : t) : t :=
  mk (cashBalance p) (<[k := h]> (holdings p)) (transactions p) (openOrders p).
Definition push_transaction (x : Transaction.t) (p : t) : t :=
  mk (cashBalance p) (holdings p) (transactions p ++ [x]) (openOrders p).
Definition push_openOrder (o : LimitOrder.t) (p : t) : t :=
  mk (cashBalance p) (holdings p) (transactions p) (openOrders p ++ [o]).
Definition set_openOrders (os : list LimitOrder.t) (p : t) : t :=
  mk (cashBalance p) (holdings p) (transactions p) os.

(** [holdings[k] || { quantity: 0, avgCost: 0 }] *)
Definition holding_or_zero (k : string) (p : t) : Holding.t :=
  default (Holding.mk 0 0) (holdings p !! k).
End Portfolio.

(** The authenticated Firebase user; only [uid] is read. *)
Record User := mkUser { uid : string }.

(** ** Constants ([src/constants.ts]) *)

Record AssetSeed := mkSeed {
  seed_id : string; seed_name : string; seed_icon : string; seed_initial_price : Qc
}.

Definition INITIAL_ASSETS : list AssetSeed :=
  [ mkSeed "TOM" "Tomato" "🍅" (dec 1050 100);
    mkSeed "CAR" "Carrot" "🥕" (dec 4520 100);
    mkSeed "BRO" "Broccoli" "🥦" (dec 780 100);
    mkSeed "POT" "Potato" "🥔" (dec 2200 100);
    mkSeed "PEP" "Pepper" "🌶️" (dec 3190 100) ].

Definition SIMULATION_INTERVAL_MS : Qc := Qc_of_Z 1500.
Definition HISTORY_POINTS : nat := 50.
Definition INITIAL_CASH : Qc := Qc_of_Z 10000.

Definition DEFAULT_PORTFOLIO_DATA : Portfolio.t :=
  Portfolio.mk INITIAL_CASH
    (<["TOM" := Holding.mk 0 0]>
     (<["CAR" := Holding.mk 0 0]>
      (<["BRO" := Holding.mk 0 0]>
       (<["POT" := Holding.mk 0 0]>
        (<["PEP" := Holding.mk 0 0]> ∅)))))
    [] [].

(** ** Effects of a handler *)

Inductive Severity := success | info.

Record Notification := mkNotification {
  n_id : string; n_message : string; n_type : Severity
}.

(** What one run of a handler asks of its surroundings: [window.alert]
    calls, the argument of its [setPortfolio] call (none when it does not
    call it), the [updatePortfolio(uid, p)] persistence writes it issues, and
    the toasts it adds. *)
Record Effects := mkEffects {
  alerts : list string;
  setPortfolio : option Portfolio.t;
  writes : list (string * Portfolio.t);
  notifications : list Notification
}.

Definition no_effects : Effects := mkEffects [] None [] [].

(** The ledger after a handler ran on ledger [p]. *)
Definition commit (p : Portfolio.t) (e : Effects) : Portfolio.t :=
  default p (setPortfolio e).

(** [addNotification(message, type)]: draws an id and appends the toast (its
    removal after 4000 ms is a display concern). *)
Definition addNotification (message : string) (type : Severity) (w : World)
  : Notification * World :=
  let '(id, w) := generateId w in
  (mkNotification id message type, w).

(** The validation messages of the code, under the design document's names. *)
Definition InsufficientFunds : string := "Insufficient funds".
Definition InsufficientHoldings : string := "Insufficient holdings".
Definition InvalidQuantity : string := "Enter a valid quantity".
Definition InvalidPrice : string := "Enter a valid price".

(** ** The simulation tick ([App.tsx], the [setInterval] callback) *)

Definition find_asset (k : string) (assets : list Asset.t) : option Asset.t :=
  List.find (λ a, bool_decide (Asset.id a = k)) assets.

(** The callback of [prevAssets.map]: one step of the random walk. *)
Definition advanceAsset (asset : Asset.t) (w : World) : Asset.t * World :=
  let volatility := dec 2 100 in
  let '(r, w) := Math_random w in
  let change := r * (volatility * 2) - volatility in
  let newPrice := Math_max (dec 1 100) (Asset.current_price asset * (1 + change)) in
  let '(r, w) := Math_random w in
  let newVolume := Math_floor (r * Qc_of_Z 2000) + Qc_of_Z 100 in
  let newHistoryPoint := HistoryPoint.mk (Date_now w) newPrice newVolume in
  let newHistory := drop 1 (Asset.history asset) ++ [newHistoryPoint] in
  let startPrice := HistoryPoint.price (hd newHistoryPoint newHistory) in
  let priceChange := ((newPrice - startPrice) / startPrice) * Qc_of_Z 100 in
  (Asset.mk (Asset.id asset) (Asset.name asset) (Asset.icon asset)
     (Asset.initial_price asset) newPrice newHistory priceChange, w).

Definition advance (prevAssets : list Asset.t) (w : World) : list Asset.t * World :=
  mapW advanceAsset prevAssets w.

(** The variables the [forEach] over the open orders updates. *)
Record MatchState := mkMatch {
  newPortfolio : Portfolio.t;
  remainingOrders : list LimitOrder.t;
  portfolioChanged : bool;
  toasts : list Notification;
  world : World
}.

(** The body of [newPortfolio.openOrders.forEach(order => ...)]. *)
Definition matchOrder (newAssets : list Asset.t) (st : MatchState)
  (order : LimitOrder.t) : MatchState :=
  let np := newPortfolio st in
  match find_asset (LimitOrder.assetId order) newAssets with
  | None =>
      mkMatch np (remainingOrders st ++ [order]) (portfolioChanged st)
        (toasts st) (world st)
  | Some asset =>
      let '(executed, np) :=
        if bool_decide (LimitOrder.type order = BUY)
           && bool_decide (Asset.current_price asset ≤ LimitOrder.targetPrice order)
        then
          let cost := LimitOrder.quantity order * LimitOrder.targetPrice order in
          let currentHolding := Portfolio.holding_or_zero (Asset.id asset) np in
          let oldTotalVal :=
            Holding.quantity currentHolding * Holding.avgCost currentHolding in
          let newTotalVal := oldTotalVal + cost in
          let newQty := Holding.quantity currentHolding + LimitOrder.quantity order in
          (true,
           Portfolio.set_holding (Asset.id asset)
             (Holding.mk newQty (newTotalVal / newQty)) np)
        else if bool_decide (LimitOrder.type order = SELL)
                && bool_decide (LimitOrder.targetPrice order ≤ Asset.current_price asset)
        then
          let revenue := LimitOrder.quantity order * LimitOrder.targetPrice order in
          (true, Portfolio.set_cashBalance (Portfolio.cashBalance np + revenue) np)
        else (false, np) in
      if executed then
        let w := world st in
        let '(id, w) := generateId w in
        let np :=
          Portfolio.push_transaction
            (Transaction.mk id (LimitOrder.type order) (Asset.id asset)
               (Asset.name asset) (LimitOrder.quantity order)
               (LimitOrder.targetPrice order) (Date_now w) LIMIT) np in
        let '(n, w) :=
          addNotification
            ("Limit " +:+ Side_name (LimitOrder.type order) +:+ " filled: "
             +:+ toString w 10 (LimitOrder.quantity order) +:+ " "
             +:+ Asset.name asset +:+ " @ $"
             +:+ toFixed w 2 (LimitOrder.targetPrice order)) success w in
        mkMatch np (remainingOrders st) true (toasts st ++ [n]) w
      else
        mkMatch np (remainingOrders st ++ [order]) (portfolioChanged st)
          (toasts st) (world st)
  end.

(** One run of the interval callback: [user] is the value captured by the
    effect, [currentPortfolio] is [portfolioRef.current], [prevAssets] the
    argument of the [setAssets] updater.  Returns the new assets, the effects
    on the ledger and the world after the draws. *)
Definition tick (user : option User) (currentPortfolio : Portfolio.t)
  (prevAssets : list Asset.t) (w : World) : list Asset.t * Effects * World :=
  let '(newAssets, w) := advance prevAssets w in
  match user with
  | Some user =>
      if bool_decide (0 < length (Portfolio.openOrders currentPortfolio))%nat then
        let np := JSON_clone currentPortfolio in
        let st :=
          fold_left (matchOrder newAssets) (Portfolio.openOrders np)
            (mkMatch np [] false [] w) in
        if portfolioChanged st then
          let np := Portfolio.set_openOrders (remainingOrders st) (newPortfolio st) in
          (newAssets,
           mkEffects [] (Some np) [(uid user, np)] (toasts st), world st)
        else (newAssets, mkEffects [] None [] (toasts st), world st)
      else (newAssets, no_effects, w)
  | None => (newAssets, no_effects, w)
  end.

(** ** The trade handler ([App.tsx], [handleTrade])

    The [isTrading] flag the handler sets and clears only disables the
    form's button; it is left out. *)

(** The [try { setPortfolio; await updatePortfolio; toast } catch { toast }]
    tail shared by the successful paths of [handleTrade]. *)
Definition commitTrade (user : User) (np : Portfolio.t) (orderType : OrderType)
  (w : World) : Effects * World :=
  let '(n, w) :=
    if store_ok w then
      addNotification
        ((match orderType with MARKET => "Trade executed" | LIMIT => "Order placed" end)
         +:+ " successfully") success w
    else addNotification "Trade failed" info w in
  (mkEffects [] (Some np) [(uid user, np)] [n], w).

Definition handleTrade (user : option User) (assets : list Asset.t)
  (selectedAssetId : string) (portfolio : Portfolio.t)
  (type : Side) (quantity : Qc) (orderType : OrderType) (limitPrice : option Qc)
  (w : World) : Effects * World :=
  match user with
  | None => (mkEffects ["Authentication required."] None [] [], w)
  | Some user =>
  match find_asset selectedAssetId assets with
  | None => (no_effects, w)
  | Some asset =>
      let price :=
        match orderType with
        | LIMIT => default 0 limitPrice
        | MARKET => Asset.current_price asset
        end in
      let cost := price * quantity in
      let np := JSON_clone portfolio in
      let currentHolding := Portfolio.holding_or_zero selectedAssetId np in
      let addTransaction (np : Portfolio.t) (w : World) : Portfolio.t * World :=
        match orderType with
        | MARKET =>
            let '(id, w) := generateId w in
            (Portfolio.push_transaction
               (Transaction.mk id type selectedAssetId (Asset.name asset) quantity
                  price (Date_now w) MARKET) np, w)
        | LIMIT => (np, w)
        end in
      match type with
      | BUY =>
          if bool_decide (Portfolio.cashBalance np < cost) then
            let '(n, w) := addNotification InsufficientFunds info w in
            (mkEffects [] None [] [n], w)
          else
            let np := Portfolio.set_cashBalance (Portfolio.cashBalance np - cost) np in
            let '(np, w) :=
              match orderType with
              | MARKET =>
                  let oldTotalValue :=
                    Holding.quantity currentHolding * Holding.avgCost currentHolding in
                  let newTotalValue := oldTotalValue + cost in
                  let newQuantity := Holding.quantity currentHolding + quantity in
                  (Portfolio.set_holding selectedAssetId
                     (Holding.mk newQuantity (newTotalValue / newQuantity)) np, w)
              | LIMIT =>
                  let '(id, w) := generateId w in
                  (Portfolio.push_openOrder
                     (LimitOrder.mk id selectedAssetId BUY quantity price (Date_now w))
                     np, w)
              end in
            let '(np, w) := addTransaction np w in
            commitTrade user np orderType w
      | SELL =>
          if bool_decide (Holding.quantity currentHolding < quantity) then
            let '(n, w) := addNotification InsufficientHoldings info w in
            (mkEffects [] None [] [n], w)
          else
            let np :=
              Portfolio.set_holding selectedAssetId
                (Holding.mk (Holding.quantity currentHolding - quantity)
                   (Holding.avgCost currentHolding)) np in
            let '(np, w) :=
              match orderType with
              | MARKET =>
                  (Portfolio.set_cashBalance (Portfolio.cashBalance np + cost) np, w)
              | LIMIT =>
                  let '(id, w) := generateId w in
                  (Portfolio.push_openOrder
                     (LimitOrder.mk id selectedAssetId SELL quantity price (Date_now w))
                     np, w)
              end in
            let '(np, w) := addTransaction np w in
            commitTrade user np orderType w
      end
  end
  end.

(** ** Cancelling an order ([App.tsx], [handleCancelOrder]) *)

Definition handleCancelOrder (user : option User) (portfolio : Portfolio.t)
  (orderId : string) (w : World) : Effects * World :=
  match user with
  | None => (no_effects, w)
  | Some user =>
      let np := JSON_clone portfolio in
      match list_find (λ o, LimitOrder.id o = orderId) (Portfolio.openOrders np) with
      | None => (no_effects, w)
      | Some (orderIndex, order) =>
          let np :=
            match LimitOrder.type order with
            | BUY =>
                Portfolio.set_cashBalance
                  (Portfolio.cashBalance np
                   + LimitOrder.quantity order * LimitOrder.targetPrice order) np
            | SELL =>
                let holding := Portfolio.holding_or_zero (LimitOrder.assetId order) np in
                Portfolio.set_holding (LimitOrder.assetId order)
                  (Holding.mk (Holding.quantity holding + LimitOrder.quantity order)
                     (Holding.avgCost holding)) np
            end in
          let np :=
            Portfolio.set_openOrders (delete orderIndex (Portfolio.openOrders np)) np in
          if store_ok w then
            let '(n, w) := addNotification "Order cancelled" info w in
            (mkEffects [] (Some np) [(uid user, np)] [n], w)
          else (mkEffects [] (Some np) [(uid user, np)] [], w)
      end
  end.

(** ** The trade form ([TradePanel.tsx], [handleSubmit]) *)

(** The form's state.  The two text fields are kept as the results of
    [parseInt(quantity)] and [parseFloat(limitPrice)], with [None] for NaN. *)
Record TradeForm := mkForm {
  mode : Side;
  orderType : OrderType;
  quantity : option Z;
  limitPrice : option Qc
}.

(** [handleSubmit] for the props [asset], [portfolio] and [onTrade].  Returns
    the argument of its [setError] call ([None] for [null]) and the effects
    of the [onTrade] call, if it makes one. *)
Definition handleSubmit (asset : Asset.t) (portfolio : Portfolio.t)
  (onTrade : Side → Qc → OrderType → option Qc → World → Effects * World)
  (f : TradeForm) (w : World) : option string * Effects * World :=
  let holding := Portfolio.holding_or_zero (Asset.id asset) portfolio in
  let numericQty := Qc_of_Z (default 0%Z (quantity f)) in
  let numericLimitPrice := default 0 (limitPrice f) in
  let executionPrice :=
    match orderType f with
    | MARKET => Asset.current_price asset
    | LIMIT => numericLimitPrice
    end in
  let totalCost := numericQty * executionPrice in
  let canBuy := bool_decide (totalCost ≤ Portfolio.cashBalance portfolio) in
  let canSell := bool_decide (numericQty ≤ Holding.quantity holding) in
  if bool_decide (numericQty ≤ 0) then (Some InvalidQuantity, no_effects, w)
  else if bool_decide (orderType f = LIMIT) && bool_decide (numericLimitPrice ≤ 0)
  then (Some InvalidPrice, no_effects, w)
  else if bool_decide (mode f = BUY) && negb canBuy
  then (Some InsufficientFunds, no_effects, w)
  else if bool_decide (mode f = SELL) && negb canSell
  then (Some InsufficientHoldings, no_effects, w)
  else
    let '(e, w) :=
      onTrade (mode f) numericQty (orderType f)
        (match orderType f with LIMIT => Some numericLimitPrice | MARKET => None end) w in
    (None, e, w).

(** ** The application state ([App.tsx]) *)

(** The [useState] initializer of [assets]. *)
Definition initialHistory (a : AssetSeed) (w : World) : list HistoryPoint.t * World :=
  mapW (λ (i : nat) w,
          let t := Date_now w
                   - (Qc_of_Z (Z.of_nat HISTORY_POINTS) - Qc_of_Z (Z.of_nat i))
                     * Qc_of_Z 1000 in
          let '(r, w) := Math_random w in
          (HistoryPoint.mk t (seed_initial_price a) (Math_floor (r * Qc_of_Z 1000)), w))
       (seq 0 HISTORY_POINTS) w.

Definition initialAssets (w : World) : list Asset.t * World :=
  mapW (λ a w,
          let '(h, w) := initialHistory a w in
          (Asset.mk (seed_id a) (seed_name a) (seed_icon a) (seed_initial_price a)
             (seed_initial_price a) h 0, w))
       INITIAL_ASSETS w.

Record AppState := mkApp {
  assets : list Asset.t;
  selectedAssetId : string;
  portfolio : Portfolio.t;
  user : option User
}.

(** [assets.find(a => a.id === selectedAssetId) || assets[0]] *)
Definition selectedAsset (s : AppState) : option Asset.t :=
  match find_asset (selectedAssetId s) (assets s) with
  | Some a => Some a
  | None => head (assets s)
  end.

(** [onTrade={handleTrade}] as the form sees it in state [s]. *)
Definition onTrade (s : AppState) :=
  handleTrade (user s) (assets s) (selectedAssetId s) (portfolio s).

(** The transitions of the application: an interval tick, a submitted trade
    form, a click on an order's cancel button, and the selection of another
    asset in the list.  The world of each transition is arbitrary. *)
Inductive step : AppState → AppState → Prop :=
| step_tick s w :
    step s
      (mkApp (tick (user s) (portfolio s) (assets s) w).1.1 (selectedAssetId s)
         (commit (portfolio s) (tick (user s) (portfolio s) (assets s) w).1.2)
         (user s))
| step_submit s asset f w :
    selectedAsset s = Some asset →
    step s
      (mkApp (assets s) (selectedAssetId s)
         (commit (portfolio s)
            (handleSubmit asset (portfolio s) (onTrade s) f w).1.2)
         (user s))
| step_cancel s orderId w :
    step s
      (mkApp (assets s) (selectedAssetId s)
         (commit (portfolio s) (handleCancelOrder (user s) (portfolio s) orderId w).1)
         (user s))
| step_select s a :
    a ∈ assets s →
    step s (mkApp (assets s) (Asset.id a) (portfolio s) (user s)).

(** [Math.random()] returns a number in the half-open unit interval. *)
Definition unit_random (w : World) : Prop := ∀ n, 0 ≤ random w n ∧ random w n < 1.

(** The assets after a sequence of ticks; each tick sees the ledger of its
    moment and its own world. *)
Definition run_ticks (user : option User) (inputs : list (Portfolio.t * World))
  (a0 : list Asset.t) : list Asset.t :=
  fold_left (λ a pw, (tick user pw.1 a pw.2).1.1) inputs a0.

(** ** The design document's matcher and fill, in its own words

    These two definitions follow §4.2 and §4.3 of the design document, not
    the code; the theorems below compare the code with them. *)

(** §4.3: a BUY executes when the asset's price is at most the target, a SELL
    when it is at least the target; an order without an asset stays open. *)
Definition executes (assets : list Asset.t) (order : LimitOrder.t) : bool :=
  match find_asset (LimitOrder.assetId order) assets with
  | None => false
  | Some asset =>
      match LimitOrder.type order with
      | BUY => bool_decide (Asset.current_price asset ≤ LimitOrder.targetPrice order)
      | SELL => bool_decide (LimitOrder.targetPrice order ≤ Asset.current_price asset)
      end
  end.

(** §4.2 [applyFill] on the cash balance and the holdings: a filled BUY joins
    the units into the holding at the target price (cash was escrowed at
    placement), a filled SELL credits the cash (units were escrowed). *)
Definition applyFill (ledger : Qc * gmap string Holding.t) (order : LimitOrder.t)
  : Qc * gmap string Holding.t :=
  let '(cash, holdings) := ledger in
  let qty := LimitOrder.quantity order in
  let targetPrice := LimitOrder.targetPrice order in
  match LimitOrder.type order with
  | BUY =>
      let h := default (Holding.mk 0 0) (holdings !! LimitOrder.assetId order) in
      let oldQty := Holding.quantity h in
      let oldAvgCost := Holding.avgCost h in
      (cash,
       <[LimitOrder.assetId order :=
           Holding.mk (oldQty + qty)
             ((oldQty * oldAvgCost + qty * targetPrice) / (oldQty + qty))]> holdings)
  | SELL => (cash + qty * targetPrice, holdings)
  end.

(** The quantities the averages of a sequence of fills divide by: for each
    BUY, the quantity held when it is applied plus the quantity bought. *)
Fixpoint fill_divisors (ledger : Qc * gmap string Holding.t)
  (orders : list LimitOrder.t) : list Qc :=
  match orders with
  | [] => []
  | order :: orders' =>
      match LimitOrder.type order with
      | BUY =>
          [Holding.quantity
             (default (Holding.mk 0 0) (ledger.2 !! LimitOrder.assetId order))
           + LimitOrder.quantity order]
      | SELL => []
      end ++ fill_divisors (applyFill ledger order) orders'
  end.

(** The transaction a fill of [order] records. *)
Definition fill_record (assets : list Asset.t) (order : LimitOrder.t)
  (x : Transaction.t) : Prop :=
  Transaction.orderType x = LIMIT
  ∧ Transaction.type x = LimitOrder.type order
  ∧ Transaction.assetId x = LimitOrder.assetId order
  ∧ Transaction.quantity x = LimitOrder.quantity order
  ∧ Transaction.price x = LimitOrder.targetPrice order
  ∧ Some (Transaction.assetName x)
    = Asset.name <$> find_asset (LimitOrder.assetId order) assets.

(** ** Well-formed data, as §3 of the design document describes it *)

(** A resting order has a positive quantity and a positive target price. *)
Definition wf_order (o : LimitOrder.t) : Prop :=
  0 < LimitOrder.quantity o ∧ 0 < LimitOrder.targetPrice o.

(** A holding never has a negative quantity. *)
Definition wf_holdings (p : Portfolio.t) : Prop :=
  ∀ k h, Portfolio.holdings p !! k = Some h → 0 ≤ Holding.quantity h.

(** Asset prices are positive. *)
Definition wf_assets (l : list Asset.t) : Prop :=
  Forall (λ a, 0 < Asset.current_price a) l.

(** ** Relations used in the statements *)

(** One step of the walk, as a relation between an asset and its successor. *)
Definition walk_step (old new : Asset.t) : Prop :=
  (∃ δ, - dec 2 100 ≤ δ ∧ δ ≤ dec 2 100
        ∧ Asset.current_price new
          = Math_max (dec 1 100) (Asset.current_price old * (1 + δ)))
  ∧ dec 1 100 ≤ Asset.current_price new
  ∧ HistoryPoint.price <$> last (Asset.history new) = Some (Asset.current_price new).

(** A tick drops the oldest history point and appends one. *)
Definition history_shift (old new : Asset.t) : Prop :=
  ∃ pt, Asset.history new = drop 1 (Asset.history old) ++ [pt].

(** The price a request trades at: the limit price of a LIMIT request
    ([limitPrice || 0]), the asset's current price otherwise. *)
Definition trade_price (asset : Asset.t) (ot : OrderType) (lp : option Qc) : Qc :=
  match ot with
  | LIMIT => default 0 lp
  | MARKET => Asset.current_price asset
  end.

(** The messages of the toasts a handler added. *)
Definition messages (e : Effects) : list string := n_message <$> notifications e.

(** The invariant of the ledger and the market: cash is not negative, every
    open order is well formed, every asset has a positive price. *)
Definition ledger_ok (s : AppState) : Prop :=
  0 ≤ Portfolio.cashBalance (portfolio s)
  ∧ Forall wf_order (Portfolio.openOrders (portfolio s))
  ∧ wf_assets (assets s).

(** ** Concrete data for the examples *)

(** A world whose [Math.random()] always returns one half. *)
Definition demo_world : World :=
  mkWorld (λ _, dec 1 2) 0 (Qc_of_Z 1700000000000)
    (λ _ _, "0.abc") (λ _ _, "1.00") true.

Definition demo_user : User := mkUser "u1".

(** One asset priced at 10, with a one-point history. *)
Definition demo_asset : Asset.t :=
  Asset.mk "TOM" "Tomato" "🍅" (dec 1050 100) (Qc_of_Z 10)
    [HistoryPoint.mk (Qc_of_Z 1699999999000) (Qc_of_Z 10) (Qc_of_Z 500)] 0.

(** A LIMIT form for 3 units at price 0. *)
Definition form_price_zero : TradeForm := mkForm BUY LIMIT (Some 3%Z) (Some 0).

(** A session with one asset, and the state after a market BUY of 3 units. *)
Definition demo_state : AppState :=
  mkApp [demo_asset] "TOM" DEFAULT_PORTFOLIO_DATA (Some demo_user).

Definition form_buy_3 : TradeForm := mkForm BUY MARKET (Some 3%Z) None.

Definition demo_state_after_buy : AppState :=
  mkApp (assets demo_state) (selectedAssetId demo_state)
    (commit (portfolio demo_state)
       (handleSubmit demo_asset (portfolio demo_state) (onTrade demo_state)
          form_buy_3 demo_world).1.2)
    (user demo_state).

(** A ledger holding 5 units bought at 8, with a resting BUY of 10 units at 11
    and a resting SELL of 5 units at 12; the asset trades at 10. *)
Definition buy_order : LimitOrder.t :=
  LimitOrder.mk "o1" "TOM" BUY (Qc_of_Z 10) (Qc_of_Z 11) (Qc_of_Z 1699999990000).

Definition sell_order : LimitOrder.t :=
  LimitOrder.mk "o2" "TOM" SELL (Qc_of_Z 5) (Qc_of_Z 12) (Qc_of_Z 1699999991000).

Definition demo_ledger : Portfolio.t :=
  Portfolio.mk (Qc_of_Z 1000) {["TOM" := Holding.mk (Qc_of_Z 5) (Qc_of_Z 8)]} []
    [buy_order; sell_order].

(** The same ledger with the SELL order only. *)
Definition quiet_ledger : Portfolio.t :=
  Portfolio.mk (Qc_of_Z 1000) {["TOM" := Holding.mk (Qc_of_Z 5) (Qc_of_Z 8)]} []
    [sell_order].

(** The scenario of §8 of the design document: from the default ledger and
    an asset at 10, a market BUY of 100 units, a limit SELL of 50 units at
    12, then a tick that finds the asset at 12.50. *)
Definition demo_asset_1250 : Asset.t :=
  Asset.mk "TOM" "Tomato" "🍅" (dec 1050 100) (dec 1250 100)
    [HistoryPoint.mk (Qc_of_Z 1699999999000) (dec 1250 100) (Qc_of_Z 500)] 0.

Definition scenario_bought : Portfolio.t :=
  commit DEFAULT_PORTFOLIO_DATA
    (handleTrade (Some demo_user) [demo_asset] "TOM" DEFAULT_PORTFOLIO_DATA
       BUY (Qc_of_Z 100) MARKET None demo_world).1.

Definition scenario_resting : Portfolio.t :=
  commit scenario_bought
    (handleTrade (Some demo_user) [demo_asset] "TOM" scenario_bought
       SELL (Qc_of_Z 50) LIMIT (Some (Qc_of_Z 12)) demo_world).1.

Definition scenario_filled : Portfolio.t :=
  commit scenario_resting
    (tick (Some demo_user) scenario_resting [demo_asset_1250] demo_world).1.2.

(** ** The handlers on IEEE-754 binary64

    The rational model abstracts from the rounding of JavaScript's doubles.
    Where a statement depends on that rounding (an amount that is taken and
    given back, a total that is divided again) the two handlers are embedded
    a second time, on binary64 numbers: the Standard Library's executable
    specification of IEEE-754 arithmetic, with 53 bits of precision and
    round-to-nearest-even, as JavaScript has it.  Timestamps are whole
    millisecond counts that the handlers only copy; they keep the type of
    [Date_now]. *)
Module Binary64.
Import SpecFloat.

Definition prec : Z := 53.
Definition emax : Z := 1024.

Definition of_Z (n : Z) : spec_float := binary_normalize prec emax n 0 false.
Definition add := SFadd prec emax.
Definition sub := SFsub prec emax.
Definition mul := SFmul prec emax.
Definition div := SFdiv prec emax.
Definition ltb : spec_float → spec_float → bool := SFltb.
Definition zero : spec_float := S754_zero false.

(** The double a decimal literal [n/100] denotes. *)
Definition cents (n : Z) : spec_float := div (of_Z n) (of_Z 100).

(** [limitPrice || 0]: [undefined], [0], [-0] and [NaN] are falsy. *)
Definition or_zero (x : option spec_float) : spec_float :=
  match x with
  | None | Some (S754_zero _) | Some S754_nan => zero
  | Some x => x
  end.

(** [JSON.parse(JSON.stringify(x))] on a number: a finite number comes back
    as it is, [-0] comes back as [0], and [NaN] and the infinities come back
    as [null], which the arithmetic and the comparisons of the handlers read
    as [0]. *)
Definition JSON_number (x : spec_float) : spec_float :=
  match x with
  | S754_finite _ _ _ => x
  | _ => zero
  end.

Module HistoryPoint.
Record t := mk { time : Qc; price : spec_float; volume : spec_float }.
End HistoryPoint.

Module Asset.
Record t := mk {
  id : string;
  name : string;
  icon : string;
  initial_price : spec_float;
  current_price : spec_float;
  history : list HistoryPoint.t;
  change24h : spec_float
}.
End Asset.

Module Holding.
Record t := mk { quantity : spec_float; avgCost : spec_float }.

Definition JSON_clone (h : t) : t :=
  mk (JSON_number (quantity h)) (JSON_number (avgCost h)).
End Holding.

Module Transaction.
Record t := mk {
  id : string;
  type : Side;
  assetId : string;
  assetName : string;
  quantity : spec_float;
  price : spec_float;
  timestamp : Qc;
  orderType : OrderType
}.

Definition JSON_clone (x : t) : t :=
  mk (id x) (type x) (assetId x) (assetName x) (JSON_number (quantity x))
    (JSON_number (price x)) (timestamp x) (orderType x).
End Transaction.

Module LimitOrder.
Record t := mk {
  id : string;
  assetId : string;
  type : Side;
  quantity : spec_float;
  targetPrice : spec_float;
  timestamp : Qc
}.

Definition JSON_clone (o : t) : t :=
  mk (id o) (assetId o) (type o) (JSON_number (quantity o))
    (JSON_number (targetPrice o)) (timestamp o).
End LimitOrder.

Module Portfolio.
Record t := mk {
  cashBalance : spec_float;
  holdings : gmap string Holding.t;
  transactions : list Transaction.t;
  openOrders : list LimitOrder.t
}.

Definition set_cashBalance (c : spec_float) (p : t) : t :=
  mk c (holdings p) (transactions p) (openOrders p).
Definition set_holding (k : string) (h : Holding.t) (p : t) : t :=
  mk (cashBalance p) (<[k := h]> (holdings p)) (transactions p) (openOrders p).
Definition push_transaction (x : Transaction.t) (p : t) : t :=
  mk (cashBalance p) (holdings p) (transactions p ++ [x]) (openOrders p).
Definition push_openOrder (o : LimitOrder.t) (p : t) : t :=
  mk (cashBalance p) (holdings p) (transactions p) (openOrders p ++ [o]).
Definition set_openOrders (os : list LimitOrder.t) (p : t) : t :=
  mk (cashBalance p) (holdings p) (transactions p) os.

(** [holdings[k] || { quantity: 0, avgCost: 0 }] *)
Definition holding_or_zero (k : string) (p : t) : Holding.t :=
  default (Holding.mk zero zero) (holdings p !! k).

(** [JSON.parse(JSON.stringify(portfolio))] *)
Definition JSON_clone (p : t) : t :=
  mk (JSON_number (cashBalance p)) (Holding.JSON_clone <$> holdings p)
    (Transaction.JSON_clone <$> transactions p)
    (LimitOrder.JSON_clone <$> openOrders p).
End Portfolio.

Record Effects := mkEffects {
  alerts : list string;
  setPortfolio : option Portfolio.t;
  writes : list (string * Portfolio.t);
  notifications : list Notification
}.

Definition no_effects : Effects := mkEffects [] None [] [].

Definition find_asset (k : string) (assets : list Asset.t) : option Asset.t :=
  List.find (λ a, bool_decide (Asset.id a = k)) assets.

(** The [try { setPortfolio; await updatePortfolio; toast } catch { toast }]
    tail of [handleTrade]. *)
Definition commitTrade (user : User) (np : Portfolio.t) (orderType : OrderType)
  (w : World) : Effects * World :=
  let '(n, w) :=
    if store_ok w then
      addNotification
        ((match orderType with MARKET => "Trade executed" | LIMIT => "Order placed" end)
         +:+ " successfully") success w
    else addNotification "Trade failed" info w in
  (mkEffects [] (Some np) [(uid user, np)] [n], w).

(** [handleTrade] ([App.tsx]), with the arithmetic of doubles. *)
Definition handleTrade (user : option User) (assets : list Asset.t)
  (selectedAssetId : string) (portfolio : Portfolio.t)
  (type : Side) (quantity : spec_float) (orderType : OrderType)
  (limitPrice : option spec_float) (w : World) : Effects * World :=
  match user with
  | None => (mkEffects ["Authentication required."] None [] [], w)
  | Some user =>
  match find_asset selectedAssetId assets with
  | None => (no_effects, w)
  | Some asset =>
      let price :=
        match orderType with
        | LIMIT => or_zero limitPrice
        | MARKET => Asset.current_price asset
        end in
      let cost := mul price quantity in
      let np := Portfolio.JSON_clone portfolio in
      let currentHolding := Portfolio.holding_or_zero selectedAssetId np in
      let addTransaction (np : Portfolio.t) (w : World) : Portfolio.t * World :=
        match orderType with
        | MARKET =>
            let '(id, w) := generateId w in
            (Portfolio.push_transaction
               (Transaction.mk id type selectedAssetId (Asset.name asset) quantity
                  price (Date_now w) MARKET) np, w)
        | LIMIT => (np, w)
        end in
      match type with
      | BUY =>
          if ltb (Portfolio.cashBalance np) cost then
            let '(n, w) := addNotification InsufficientFunds info w in
            (mkEffects [] None [] [n], w)
          else
            let np := Portfolio.set_cashBalance (sub (Portfolio.cashBalance np) cost) np in
            let '(np, w) :=
              match orderType with
              | MARKET =>
                  let oldTotalValue :=
                    mul (Holding.quantity currentHolding) (Holding.avgCost currentHolding) in
                  let newTotalValue := add oldTotalValue cost in
                  let newQuantity := add (Holding.quantity currentHolding) quantity in
                  (Portfolio.set_holding selectedAssetId
                     (Holding.mk newQuantity (div newTotalValue newQuantity)) np, w)
              | LIMIT =>
                  let '(id, w) := generateId w in
                  (Portfolio.push_openOrder
                     (LimitOrder.mk id selectedAssetId BUY quantity price (Date_now w))
                     np, w)
              end in
            let '(np, w) := addTransaction np w in
            commitTrade user np orderType w
      | SELL =>
          if ltb (Holding.quantity currentHolding) quantity then
            let '(n, w) := addNotification InsufficientHoldings info w in
            (mkEffects [] None [] [n], w)
          else
            let np :=
              Portfolio.set_holding selectedAssetId
                (Holding.mk (sub (Holding.quantity currentHolding) quantity)
                   (Holding.avgCost currentHolding)) np in
            let '(np, w) :=
              match orderType with
              | MARKET =>
                  (Portfolio.set_cashBalance (add (Portfolio.cashBalance np) cost) np, w)
              | LIMIT =>
                  let '(id, w) := generateId w in
                  (Portfolio.push_openOrder
                     (LimitOrder.mk id selectedAssetId SELL quantity price (Date_now w))
                     np, w)
              end in
            let '(np, w) := addTransaction np w in
            commitTrade user np orderType w
      end
  end
  end.

(** [handleCancelOrder] ([App.tsx]), with the arithmetic of doubles. *)
Definition handleCancelOrder (user : option User) (portfolio : Portfolio.t)
  (orderId : string) (w : World) : Effects * World :=
  match user with
  | None => (no_effects, w)
  | Some user =>
      let np := Portfolio.JSON_clone portfolio in
      match list_find (λ o, LimitOrder.id o = orderId) (Portfolio.openOrders np) with
      | None => (no_effects, w)
      | Some (orderIndex, order) =>
          let np :=
            match LimitOrder.type order with
            | BUY =>
                Portfolio.set_cashBalance
                  (add (Portfolio.cashBalance np)
                     (mul (LimitOrder.quantity order) (LimitOrder.targetPrice order))) np
            | SELL =>
                let holding := Portfolio.holding_or_zero (LimitOrder.assetId order) np in
                Portfolio.set_holding (LimitOrder.assetId order)
                  (Holding.mk (add (Holding.quantity holding) (LimitOrder.quantity order))
                     (Holding.avgCost holding)) np
            end in
          let np :=
            Portfolio.set_openOrders (delete orderIndex (Portfolio.openOrders np)) np in
          if store_ok w then
            let '(n, w) := addNotification "Order cancelled" info w in
            (mkEffects [] (Some np) [(uid user, np)] [n], w)
          else (mkEffects [] (Some np) [(uid user, np)] [], w)
      end
  end.

(** The default ledger of [constants.ts]. *)
Definition DEFAULT_PORTFOLIO_DATA : Portfolio.t :=
  Portfolio.mk (of_Z 10000)
    (<["TOM" := Holding.mk zero zero]>
     (<["CAR" := Holding.mk zero zero]>
      (<["BRO" := Holding.mk zero zero]>
       (<["POT" := Holding.mk zero zero]>
        (<["PEP" := Holding.mk zero zero]> ∅)))))
    [] [].

(** The carrot at its initial price of 45.20, and at 10 and 20. *)
Definition carrot (price : spec_float) : Asset.t :=
  Asset.mk "CAR" "Carrot" "🥕" (cents 4520) price [] zero.


End Binary64.

(** ** Tactics *)

(** Turn an order statement on [Qc] into one on [Q], where [lra] works. *)
Ltac qc_to_q :=
  unfold Qcle, Qclt, Qcminus, Qcplus, Qcopp, Qcmult, dec in *;
  cbn [this Q2Qc] in *;
  rewrite ?Qred_correct in *.

Ltac qc_lra := qc_to_q; lra.

(** Closed facts about concrete rationals, by evaluation. *)
Ltac qc_eval := refine (bool_decide_unpack _ _); vm_compute; exact I.

Ltac qc_same := apply Qc_is_canon; vm_compute; reflexivity.


(** ** The portfolio panel ([src/components/Portfolio.tsx]) *)

(** One row of the holdings tab; [None] where the callback returns [null].
    The quotient by a cost basis of 0 (an infinity or NaN in JavaScript) is 0
    here; no statement below is about [gainLossPercent]. *)
Record HoldingRow := mkRow {
  currentValue : Qc;
  costBasis : Qc;
  gainLoss : Qc;
  gainLossPercent : Qc;
  isGain : bool
}.

Definition holdingRow (assets : list Asset.t) (id : string) (holding : Holding.t)
  : option HoldingRow :=
  if bool_decide (Holding.quantity holding = 0) then None
  else
    match find_asset id assets with
    | None => None
    | Some asset =>
        let currentValue := Holding.quantity holding * Asset.current_price asset in
        let costBasis := Holding.quantity holding * Holding.avgCost holding in
        let gainLoss := currentValue - costBasis in
        let gainLossPercent := (gainLoss / costBasis) * Qc_of_Z 100 in
        let isGain := bool_decide (0 ≤ gainLoss) in
        Some (mkRow currentValue costBasis gainLoss gainLossPercent isGain)
    end.

(** ** The trade panel's order book ([src/components/TradePanel.tsx]) *)

Record BookLevel := mkLevel { level_price : Qc; level_size : Qc }.

(** [Array.from({ length: 5 }, (_, i) => ({ price: price * (1 + 0.005 * (5 - i)),
    size: Math.floor(Math.random() * 100) + 10 })).reverse()] *)
Definition OrderBook_asks (price : Qc) (w : World) : list BookLevel * World :=
  let '(l, w) :=
    mapW (λ (i : nat) w,
            let '(r, w) := Math_random w in
            (mkLevel
               (price * (1 + dec 5 1000 * (Qc_of_Z 5 - Qc_of_Z (Z.of_nat i))))
               (Math_floor (r * Qc_of_Z 100) + Qc_of_Z 10), w))
         (seq 0 5) w in
  (reverse l, w).

(** [Array.from({ length: 5 }, (_, i) => ({ price: price * (1 - 0.005 * (i + 1)),
    size: Math.floor(Math.random() * 100) + 10 }))] *)
Definition OrderBook_bids (price : Qc) (w : World) : list BookLevel * World :=
  mapW (λ (i : nat) w,
          let '(r, w) := Math_random w in
          (mkLevel
             (price * (1 - dec 5 1000 * (Qc_of_Z (Z.of_nat i) + 1)))
             (Math_floor (r * Qc_of_Z 100) + Qc_of_Z 10), w))
       (seq 0 5) w.

(** ** The chart ([src/unnamed/part_000]) *)

Record SmaPoint := mkSma { sma_entry : HistoryPoint.t; sma : option Qc }.

(** [data.slice(a, b)] for [0 <= a]. *)
Definition slice {A : Type} (a b : nat) (data : list A) : list A :=
  take (b - a) (drop a data).

(** [calculateSMA(data, window)]; [sma: null] is [None]. *)
Definition calculateSMA (data : list HistoryPoint.t) (window : nat) : list SmaPoint :=
  imap (λ index entry,
          if bool_decide (index < window - 1)%nat then mkSma entry None
          else
            let slice := slice (index + 1 - window) (index + 1) data in
            let sum := fold_left (λ acc curr, acc + HistoryPoint.price curr) slice 0 in
            mkSma entry (Some (sum / Qc_of_Z (Z.of_nat window))))
       data.

Definition Math_min (a b : Qc) : Qc := if bool_decide (b < a) then b else a.

(** [Math.min(...prices)] and [Math.max(...prices)]; [None] stands for the
    infinities they return on an empty list. *)
Definition Math_min_list (prices : list Qc) : option Qc :=
  match prices with
  | [] => None
  | x :: l => Some (fold_left Math_min l x)
  end.

Definition Math_max_list (prices : list Qc) : option Qc :=
  match prices with
  | [] => None
  | x :: l => Some (fold_left Math_max l x)
  end.

(** The vertical domain of the chart: [Math.min(...prices) * 0.99] and
    [Math.max(...prices) * 1.01]. *)
Definition chartDomain (asset : Asset.t) : option (Qc * Qc) :=
  let prices := HistoryPoint.price <$> Asset.history asset in
  match Math_min_list prices, Math_max_list prices with
  | Some lo, Some hi => Some (lo * dec 99 100, hi * dec 101 100)
  | _, _ => None
  end.

(** ** Further concrete data *)

Definition guest_state : AppState :=
  mkApp [demo_asset] "TOM" DEFAULT_PORTFOLIO_DATA None.

Definition guest_state_after_tick : AppState :=
  mkApp (tick (user guest_state) (portfolio guest_state) (assets guest_state)
           demo_world).1.1
    (selectedAssetId guest_state)
    (commit (portfolio guest_state)
       (tick (user guest_state) (portfolio guest_state) (assets guest_state)
          demo_world).1.2)
    (user guest_state).

(** An asset whose price is positive and is the price of its newest history
    point, and whose history points all have positive prices. *)
Definition asset_ok (a : Asset.t) : Prop :=
  0 < Asset.current_price a
  ∧ HistoryPoint.price <$> last (Asset.history a) = Some (Asset.current_price a)
  ∧ Forall (λ pt, 0 < HistoryPoint.price pt) (Asset.history a).

(** [const isPositive = asset.change24h >= 0] of the chart and the asset
    list, which colour the asset green or red. *)
Definition isPositive (asset : Asset.t) : bool :=
  bool_decide (0 ≤ Asset.change24h asset).

(** The asset of the examples at 12, and the market sale of 50 units at that
    price after the purchase of the scenario. *)
Definition demo_asset_12 : Asset.t :=
  Asset.mk "TOM" "Tomato" "🍅" (dec 1050 100) (Qc_of_Z 12)
    [HistoryPoint.mk (Qc_of_Z 1699999999000) (Qc_of_Z 12) (Qc_of_Z 500)] 0.

Definition scenario_sold_at_market : Portfolio.t :=
  commit scenario_bought
    (handleTrade (Some demo_user) [demo_asset_12] "TOM" scenario_bought
       SELL (Qc_of_Z 50) MARKET None demo_world).1.

(** The world [w] with the outcome of the remote write set to [ok]. *)
Definition with_store (ok : bool) (w : World) : World :=
  mkWorld (random w) (drawn w) (now w) (toString w) (toFixed w) ok.

(** A list of numbers in strictly increasing order. *)
Fixpoint ascending (l : list Qc) : Prop :=
  match l with
  | a :: (b :: _) as rest => a < b ∧ ascending rest
  | _ => True
  end.

(** Six points with the prices 10, 11, 12, 13, 14 and 15. *)
Definition demo_series : list HistoryPoint.t :=
  (λ i : Z, HistoryPoint.mk (Qc_of_Z (1700000000000 + 1000 * i)) (Qc_of_Z (10 + i))
              (Qc_of_Z 500)) <$> [0; 1; 2; 3; 4; 5]%Z.

(** ** Concrete data on doubles *)




(** The scenario of the design document on doubles: 10 carrots bought at 10,
    10 more at 20, then 5 sold. *)
Definition binary64_bought_10_at_10 : Binary64.Portfolio.t :=
  default Binary64.DEFAULT_PORTFOLIO_DATA
    (Binary64.setPortfolio
       (Binary64.handleTrade (Some demo_user) [Binary64.carrot (Binary64.of_Z 10)]
          "CAR" Binary64.DEFAULT_PORTFOLIO_DATA BUY (Binary64.of_Z 10) MARKET None
          demo_world).1).

Definition binary64_bought_10_at_20 : Binary64.Portfolio.t :=
  default binary64_bought_10_at_10
    (Binary64.setPortfolio
       (Binary64.handleTrade (Some demo_user) [Binary64.carrot (Binary64.of_Z 20)]
          "CAR" binary64_bought_10_at_10 BUY (Binary64.of_Z 10) MARKET None
          demo_world).1).

Definition binary64_sold_5 : Binary64.Portfolio.t :=
  default binary64_bought_10_at_20
    (Binary64.setPortfolio
       (Binary64.handleTrade (Some demo_user) [Binary64.carrot (Binary64.of_Z 20)]
          "CAR" binary64_bought_10_at_20 SELL (Binary64.of_Z 5) MARKET None
          demo_world).1).

(** The default ledger after a market BUY of 3 carrots at their initial
    price of 45.20. *)
Definition binary64_bought_3 : Binary64.Portfolio.t :=
  default Binary64.DEFAULT_PORTFOLIO_DATA
    (Binary64.setPortfolio
       (Binary64.handleTrade (Some demo_user) [Binary64.carrot (Binary64.cents 4520)]
          "CAR" Binary64.DEFAULT_PORTFOLIO_DATA BUY (Binary64.of_Z 3) MARKET None
          demo_world).1).
(** ** Arithmetic *)

Lemma Qc_sub_nonneg (x y : Qc) : ¬ x < y → 0 ≤ x - y.
Proof. intros H%Qcnot_lt_le. qc_lra. Qed.

Lemma Math_max_lb_l (a b : Qc) : a ≤ Math_max a b.
Proof.
  unfold Math_max. case_bool_decide as H.
  - by apply Qclt_le_weak.
  - apply Qcle_refl.
Qed.

(** ** The runtime *)

Lemma Math_random_unit w : unit_random w → unit_random (Math_random w).2.
Proof. done. Qed.

Lemma Math_random_range w :
  unit_random w → 0 ≤ (Math_random w).1 ∧ (Math_random w).1 < 1.
Proof. intros H. apply H. Qed.

Lemma mapW_length {A B} (f : A → World → B * World) l w :
  length (mapW f l w).1 = length l.
Proof.
  revert w. induction l as [|x l IH]; intros w; [done|].
  simpl. destruct (f x w) as [y w1]. specialize (IH w1).
  destruct (mapW f l w1) as [ys w2]. simpl in *. by rewrite IH.
Qed.

(** What holds of a world before a [map] holds after it, and each element is
    related to its image, when the callback guarantees both. *)
Lemma mapW_Forall2 {A B} (I : World → Prop) (R : A → B → Prop)
  (f : A → World → B * World) :
  (∀ x w, I w → R x (f x w).1 ∧ I (f x w).2) →
  ∀ l w, I w → Forall2 R l (mapW f l w).1 ∧ I (mapW f l w).2.
Proof.
  intros Hf l. induction l as [|x l IH]; intros w Hw; [by split; [constructor|]|].
  simpl. destruct (Hf x w Hw) as [HR HI].
  destruct (f x w) as [y w1]. simpl in *.
  destruct (IH w1 HI) as [HF HI2].
  destruct (mapW f l w1) as [ys w2]. simpl in *.
  split; [by constructor|done].
Qed.

(** ** The price engine *)

(** The tick returns the assets the random walk produced, whatever the
    matching does. *)
Lemma tick_assets user p prevAssets w :
  (tick user p prevAssets w).1.1 = (advance prevAssets w).1.
Proof.
  unfold tick. destruct (advance prevAssets w) as [newAssets w1].
  destruct user as [u|]; [|done].
  case_bool_decide; [|done].
  by destruct (portfolioChanged _).
Qed.

Lemma change_range (r : Qc) :
  0 ≤ r → r < 1 →
  - dec 2 100 ≤ r * (dec 2 100 * 2) - dec 2 100
  ∧ r * (dec 2 100 * 2) - dec 2 100 ≤ dec 2 100.
Proof. intros H0 H1. split; qc_lra. Qed.

Lemma advanceAsset_walk asset w :
  unit_random w →
  walk_step asset (advanceAsset asset w).1 ∧ unit_random (advanceAsset asset w).2.
Proof.
  intros Hw. unfold advanceAsset.
  destruct (Math_random_range w Hw) as [H0 H1].
  destruct (Math_random w) as [r w1] eqn:E1. simpl in H0, H1.
  assert (unit_random w1) as Hw1.
  { replace w1 with (Math_random w).2 by by rewrite E1. by apply Math_random_unit. }
  destruct (Math_random w1) as [r2 w2] eqn:E2.
  assert (unit_random w2) as Hw2.
  { replace w2 with (Math_random w1).2 by by rewrite E2. by apply Math_random_unit. }
  simpl. split; [|done]. repeat split.
  - exists (r * (dec 2 100 * 2) - dec 2 100).
    destruct (change_range r H0 H1) as [Hl Hu]. done.
  - apply Math_max_lb_l.
  - cbn [Asset.history Asset.current_price]. by rewrite last_snoc.
Qed.

Lemma demo_world_unit : unit_random demo_world.
Proof. intros n. split; by apply (bool_decide_unpack _). Qed.

(** C8. After a tick every asset's price is [max(0.01, old * (1 + delta))] for
    some [delta] between -0.02 and +0.02, hence at least 0.01, and it equals
    the price of the last point of the asset's history. *)
Theorem tick_random_walk user p prevAssets w :
  unit_random w →
  Forall2 walk_step prevAssets (tick user p prevAssets w).1.1.
Proof.
  intros Hw. rewrite tick_assets.
  by apply (mapW_Forall2 unit_random walk_step advanceAsset advanceAsset_walk).
Qed.

Lemma tick_random_walk_witness :
  unit_random demo_world
  ∧ Forall2 walk_step (initialAssets demo_world).1
      (tick None DEFAULT_PORTFOLIO_DATA (initialAssets demo_world).1 demo_world).1.1.
Proof.
  split; [exact demo_world_unit|].
  apply tick_random_walk. exact demo_world_unit.
Defined.

(** ** The rolling history *)

Lemma advance_history_shift prevAssets w :
  Forall2 history_shift prevAssets (advance prevAssets w).1.
Proof.
  apply (mapW_Forall2 (λ _, True) history_shift advanceAsset); [|done].
  intros asset w1 _. split; [|done]. unfold advanceAsset.
  destruct (Math_random w1) as [r w2]. destruct (Math_random w2) as [r2 w3].
  eexists. reflexivity.
Qed.

Lemma run_ticks_snoc user inputs pw a0 :
  run_ticks user (inputs ++ [pw]) a0
  = (advance (run_ticks user inputs a0) pw.2).1.
Proof. unfold run_ticks. rewrite fold_left_app. simpl. by rewrite tick_assets. Qed.

Lemma history_shift_length old new :
  history_shift old new →
  length (Asset.history old) = HISTORY_POINTS →
  length (Asset.history new) = HISTORY_POINTS.
Proof.
  intros [pt ->] H. rewrite length_app, length_drop, H. done.
Qed.

Lemma run_ticks_history_length user inputs a0 :
  Forall (λ a, length (Asset.history a) = HISTORY_POINTS) a0 →
  Forall (λ a, length (Asset.history a) = HISTORY_POINTS) (run_ticks user inputs a0).
Proof.
  intros H0. induction inputs as [|pw inputs IH] using rev_ind; [done|].
  rewrite run_ticks_snoc.
  pose proof (advance_history_shift (run_ticks user inputs a0) pw.2) as HF.
  revert IH HF. generalize (run_ticks user inputs a0) (advance (run_ticks user inputs a0) pw.2).1.
  intros l l' Hl HF. induction HF as [|x y l l' Hxy HF IH']; [done|].
  inversion Hl; subst. constructor; [by eapply history_shift_length|by apply IH'].
Qed.

(** Point [j] of the history after all ticks was at position [j + k] before
    the last [k] ticks. *)
Lemma run_ticks_history_lookup user a0 k :
  Forall (λ a, length (Asset.history a) = HISTORY_POINTS) a0 →
  ∀ inputs j i asset,
    (j + k < HISTORY_POINTS)%nat → (k ≤ length inputs)%nat →
    run_ticks user inputs a0 !! i = Some asset →
    ∃ a', run_ticks user (take (length inputs - k)%nat inputs) a0 !! i = Some a'
          ∧ Asset.history asset !! j = Asset.history a' !! (j + k)%nat.
Proof.
  intros H0. induction k as [|k IH]; intros inputs j i asset Hj Hk Hi.
  - exists asset. rewrite Nat.sub_0_r, firstn_all, Nat.add_0_r. done.
  - destruct inputs as [|pw inputs _] using rev_ind; [simpl in Hk; lia|].
    rewrite length_app in Hk |- *. simpl in Hk |- *.
    rewrite run_ticks_snoc in Hi.
    pose proof (advance_history_shift (run_ticks user inputs a0) pw.2) as HF.
    destruct (Forall2_lookup_r _ _ _ _ _ HF Hi) as (old & Hold & [pt Hpt]).
    pose proof (run_ticks_history_length user inputs a0 H0) as Hlen.
    rewrite Forall_lookup in Hlen. specialize (Hlen _ _ Hold).
    destruct (IH inputs (S j) i old) as (a' & Ha' & Heq); [lia|lia|done|].
    exists a'. split.
    + replace (length inputs + 1 - S k)%nat with (length inputs - k)%nat by lia.
      rewrite take_app_le by lia. done.
    + rewrite Hpt. rewrite lookup_app_l by (rewrite length_drop; lia).
      rewrite lookup_drop. simpl. rewrite Heq. f_equal. lia.
Qed.

Lemma Forall2_right_Forall {A B} (Q : B → Prop) (l : list A) (k : list B) :
  Forall2 (λ _ y, Q y) l k → Forall Q k.
Proof. induction 1; by constructor. Qed.

Lemma initialAssets_history_length w :
  Forall (λ a, length (Asset.history a) = HISTORY_POINTS) (initialAssets w).1.
Proof.
  unfold initialAssets.
  apply (Forall2_right_Forall (A:=AssetSeed) _ INITIAL_ASSETS).
  apply (mapW_Forall2 (λ _, True)); [|done].
  intros a w1 _. split; [|done].
  pose proof (mapW_length
    (λ (i : nat) w,
       let t := Date_now w
                - (Qc_of_Z (Z.of_nat HISTORY_POINTS) - Qc_of_Z (Z.of_nat i))
                  * Qc_of_Z 1000 in
       let '(r, w) := Math_random w in
       (HistoryPoint.mk t (seed_initial_price a) (Math_floor (r * Qc_of_Z 1000)), w))
    (seq 0 HISTORY_POINTS) w1) as Hl.
  unfold initialHistory.
  destruct (mapW _ (seq 0 HISTORY_POINTS) w1) as [h w2]. simpl in *.
  cbn [Asset.history]. by rewrite Hl.
Qed.

(** C9. From the initial assets, after any number of ticks every asset's
    history holds exactly [HISTORY_POINTS] = 50 points; one more tick drops
    its first point and appends one; and once at least 50 ticks have run,
    point [j] of the history is the point appended by tick number
    [n - 49 + j], so the history is the 50 most recent points, oldest
    first. *)
Theorem history_window user inputs w0 i asset :
  run_ticks user inputs (initialAssets w0).1 !! i = Some asset →
  length (Asset.history asset) = 50%nat
  ∧ (∀ pw, ∃ next,
       run_ticks user (inputs ++ [pw]) (initialAssets w0).1 !! i = Some next
       ∧ history_shift asset next)
  ∧ ((50 ≤ length inputs)%nat → ∀ j, (j < 50)%nat →
     ∃ a', run_ticks user (take (length inputs - 49 + j)%nat inputs) (initialAssets w0).1 !! i
           = Some a'
           ∧ Asset.history asset !! j = last (Asset.history a')).
Proof.
  intros Hi.
  pose proof (initialAssets_history_length w0) as H0.
  pose proof (run_ticks_history_length user inputs _ H0) as Hlen.
  split.
  { rewrite Forall_lookup in Hlen. exact (Hlen _ _ Hi). }
  split.
  { intros pw. rewrite run_ticks_snoc.
    pose proof (advance_history_shift
                  (run_ticks user inputs (initialAssets w0).1) pw.2) as HF.
    destruct (Forall2_lookup_l _ _ _ _ _ HF Hi) as (next & Hnext & Hshift).
    by exists next. }
  intros Hn j Hj.
  destruct (run_ticks_history_lookup user _ (49 - j)%nat H0 inputs j i asset)
    as (a' & Ha' & Heq); [unfold HISTORY_POINTS; lia|lia|done|].
  exists a'. split.
  - replace (length inputs - 49 + j)%nat with (length inputs - (49 - j))%nat by lia. done.
  - rewrite Heq, last_lookup.
    pose proof (run_ticks_history_length user
                  (take (length inputs - (49 - j))%nat inputs) _ H0) as Hlen'.
    rewrite Forall_lookup in Hlen'. rewrite (Hlen' _ _ Ha').
    f_equal. unfold HISTORY_POINTS. simpl. lia.
Qed.

Lemma history_window_witness :
  ∃ asset,
    run_ticks None (replicate 50 (DEFAULT_PORTFOLIO_DATA, demo_world))
      (initialAssets demo_world).1 !! 0%nat = Some asset
    ∧ length (Asset.history asset) = 50%nat
    ∧ (∀ pw, ∃ next,
         run_ticks None (replicate 50 (DEFAULT_PORTFOLIO_DATA, demo_world) ++ [pw])
           (initialAssets demo_world).1 !! 0%nat = Some next
         ∧ history_shift asset next)
    ∧ ((50 ≤ length (replicate 50 (DEFAULT_PORTFOLIO_DATA, demo_world)))%nat →
       ∀ j, (j < 50)%nat →
       ∃ a', run_ticks None
               (take (length (replicate 50 (DEFAULT_PORTFOLIO_DATA, demo_world)) - 49 + j)%nat
                  (replicate 50 (DEFAULT_PORTFOLIO_DATA, demo_world)))
               (initialAssets demo_world).1 !! 0%nat = Some a'
             ∧ Asset.history asset !! j = last (Asset.history a')).
Proof.
  destruct (run_ticks None (replicate 50 (DEFAULT_PORTFOLIO_DATA, demo_world))
              (initialAssets demo_world).1 !! 0%nat) as [asset|] eqn:E.
  - exists asset. split; [reflexivity|].
    exact (history_window None _ demo_world 0%nat asset E).
  - vm_compute in E. discriminate E.
Defined.

(** ** The order matcher *)

Lemma find_asset_Some k l a :
  find_asset k l = Some a → Asset.id a = k ∧ a ∈ l.
Proof.
  unfold find_asset. intros [Hin Hk]%find_some.
  apply bool_decide_eq_true in Hk. by rewrite list_elem_of_In.
Qed.

Section Matcher.

(** The prices of the pass: the assets the tick has just produced. *)
Variable newAssets : list Asset.t.

Lemma executes_iff o asset :
  find_asset (LimitOrder.assetId o) newAssets = Some asset →
  executes newAssets o
  ↔ match LimitOrder.type o with
    | BUY => Asset.current_price asset ≤ LimitOrder.targetPrice o
    | SELL => LimitOrder.targetPrice o ≤ Asset.current_price asset
    end.
Proof.
  intros Ha. unfold executes. rewrite Ha.
  destruct (LimitOrder.type o); apply bool_decide_spec.
Qed.

Lemma filter_none_keeps_all (os : list LimitOrder.t) :
  filter (λ o, executes newAssets o) os = [] →
  filter (λ o, ¬ executes newAssets o) os = os.
Proof.
  induction os as [|o os IH]; [done|].
  destruct (executes newAssets o) eqn:He.
  - rewrite filter_cons_True by (rewrite He; cbn; naive_solver). done.
  - rewrite filter_cons_False by (rewrite He; cbn; naive_solver).
    intros H. rewrite filter_cons_True by (rewrite He; cbn; naive_solver).
    by rewrite IH.
Qed.

Lemma filter_executes_nil (os : list LimitOrder.t) :
  (∀ o, o ∈ os → executes newAssets o = false) →
  filter (λ o, executes newAssets o) os = [].
Proof.
  induction os as [|o os IH]; intros H; [done|].
  rewrite filter_cons_False
    by (rewrite (H o) by apply list_elem_of_here; intros []).
  apply IH. intros o' Ho'. apply H. by apply list_elem_of_further.
Qed.

(** The loop body against the design's matcher and fill: the order is kept
    exactly when it does not execute; when it executes, cash and holdings
    change as [applyFill] says and one LIMIT transaction is appended. *)
Lemma matchOrder_spec st o :
  let st' := matchOrder newAssets st o in
  let np := newPortfolio st in
  let np' := newPortfolio st' in
  Portfolio.openOrders np' = Portfolio.openOrders np
  ∧ if executes newAssets o then
      remainingOrders st' = remainingOrders st
      ∧ portfolioChanged st' = true
      ∧ (Portfolio.cashBalance np', Portfolio.holdings np')
        = applyFill (Portfolio.cashBalance np, Portfolio.holdings np) o
      ∧ ∃ x, Portfolio.transactions np' = Portfolio.transactions np ++ [x]
             ∧ fill_record newAssets o x
    else
      remainingOrders st' = remainingOrders st ++ [o]
      ∧ portfolioChanged st' = portfolioChanged st
      ∧ np' = np ∧ toasts st' = toasts st ∧ world st' = world st.
Proof.
  unfold matchOrder, executes, fill_record.
  destruct (find_asset (LimitOrder.assetId o) newAssets) as [asset|] eqn:Ha;
    [|by cbn].
  destruct (find_asset_Some _ _ _ Ha) as [Hid _].
  destruct (LimitOrder.type o) eqn:Ht; cbn [andb bool_decide decide_rel];
    repeat (case_bool_decide; try done); cbn [andb];
    try (destruct (generateId (world st)) as [id w1];
         destruct (addNotification _ success w1) as [n w2]);
    cbn; rewrite ?Hid, ?Ht; repeat split; try done.
  all: eexists; split; [done|]; cbn; by rewrite ?Hid.
Qed.

(** The whole [forEach]: the orders kept are those that do not execute, in
    their order; the executed ones are settled one after the other by
    [applyFill], each with one transaction. *)
Lemma match_pass os :
  ∀ st,
    let st' := fold_left (matchOrder newAssets) os st in
    let np := newPortfolio st in
    let np' := newPortfolio st' in
    Portfolio.openOrders np' = Portfolio.openOrders np
    ∧ remainingOrders st'
      = remainingOrders st ++ filter (λ o, ¬ executes newAssets o) os
    ∧ portfolioChanged st'
      = portfolioChanged st || bool_decide (filter (λ o, executes newAssets o) os ≠ [])
    ∧ (Portfolio.cashBalance np', Portfolio.holdings np')
      = fold_left applyFill (filter (λ o, executes newAssets o) os)
          (Portfolio.cashBalance np, Portfolio.holdings np)
    ∧ (∃ txs, Portfolio.transactions np' = Portfolio.transactions np ++ txs
              ∧ Forall2 (fill_record newAssets)
                  (filter (λ o, executes newAssets o) os) txs)
    ∧ (filter (λ o, executes newAssets o) os = [] → toasts st' = toasts st).
Proof.
  induction os as [|o os IH]; intros st; cbn zeta.
  { cbn. rewrite app_nil_r, orb_false_r. split_and!; try done.
    exists []. by rewrite app_nil_r. }
  cbn [fold_left].
  destruct (IH (matchOrder newAssets st o))
    as (IH1 & IH2 & IH3 & IH4 & (txs & IH5 & IH6) & IH7).
  clear IH. cbn zeta in *.
  destruct (matchOrder_spec st o) as [H1 H2].
  destruct (executes newAssets o) eqn:He.
  - destruct H2 as (H2 & H3 & H4 & (x & H5 & H6)).
    rewrite filter_cons_False by (rewrite He; cbn; naive_solver).
    rewrite filter_cons_True by (rewrite He; cbn; naive_solver).
    split_and!.
    + congruence.
    + congruence.
    + rewrite IH3, H3. cbn. by rewrite orb_true_r.
    + rewrite IH4. cbn [fold_left]. by rewrite H4.
    + exists (x :: txs). split; [|by constructor].
      rewrite IH5, H5. by rewrite <-app_assoc.
    + done.
  - destruct H2 as (H2 & H3 & H4 & H5 & H6).
    rewrite filter_cons_True by (rewrite He; cbn; naive_solver).
    rewrite filter_cons_False by (rewrite He; cbn; naive_solver).
    split_and!.
    + congruence.
    + rewrite IH2, H2. by rewrite <-app_assoc.
    + by rewrite IH3, H3.
    + rewrite IH4. by rewrite H4.
    + exists txs. split; [|done]. by rewrite IH5, H4.
    + intros Hn. rewrite (IH7 Hn). done.
Qed.

End Matcher.

(** The ledger after a tick of an authenticated session, against the design's
    matcher and fill. *)
Lemma tick_matching u p prevAssets w :
  let r := tick (Some u) p prevAssets w in
  let newAssets := r.1.1 in
  let e := r.1.2 in
  let fills := filter (λ o, executes newAssets o) (Portfolio.openOrders p) in
  let p' := commit p e in
  Portfolio.openOrders p'
  = filter (λ o, ¬ executes newAssets o) (Portfolio.openOrders p)
  ∧ (Portfolio.cashBalance p', Portfolio.holdings p')
    = fold_left applyFill fills (Portfolio.cashBalance p, Portfolio.holdings p)
  ∧ (∃ txs, Portfolio.transactions p' = Portfolio.transactions p ++ txs
            ∧ Forall2 (fill_record newAssets) fills txs)
  ∧ (if bool_decide (fills = [])
     then setPortfolio e = None ∧ writes e = [] ∧ notifications e = []
     else setPortfolio e = Some p' ∧ writes e = [(uid u, p')]).
Proof.
  unfold tick. destruct (advance prevAssets w) as [newAssets w1].
  case_bool_decide as Hlen.
  - unfold JSON_clone.
    destruct (match_pass newAssets (Portfolio.openOrders p) (mkMatch p [] false [] w1))
      as (H1 & H2 & H3 & H4 & (txs & H5 & H6) & H7).
    cbn zeta in *. cbn [newPortfolio remainingOrders portfolioChanged toasts] in *.
    destruct (portfolioChanged _) eqn:Hc; cbn -[filter] in *.
    + symmetry in H3. apply bool_decide_eq_true in H3.
      rewrite bool_decide_eq_false_2 by done.
      split_and!; try done. by exists txs.
    + symmetry in H3. apply bool_decide_eq_false in H3.
      assert (filter (λ o, executes newAssets o) (Portfolio.openOrders p) = [])
        as Hnil by (by destruct (decide (filter (λ o, executes newAssets o)
                                          (Portfolio.openOrders p) = []))).
      rewrite Hnil in *. rewrite bool_decide_eq_true_2 by done.
      rewrite filter_none_keeps_all by done.
      split_and!; try done.
      * exists []. by rewrite app_nil_r.
      * by apply H7.
  - destruct (Portfolio.openOrders p) as [|o os] eqn:Ho; [|simpl in Hlen; lia].
    cbn. rewrite Ho. cbn. split_and!; try done.
    exists []. by rewrite app_nil_r.
Qed.

Lemma left_open_iff u p prevAssets w o :
  o ∈ Portfolio.openOrders p →
  o ∉ Portfolio.openOrders (commit p (tick (Some u) p prevAssets w).1.2)
  ↔ executes (tick (Some u) p prevAssets w).1.1 o.
Proof.
  intros Ho. destruct (tick_matching u p prevAssets w) as (H1 & _).
  cbn zeta in H1. rewrite H1, list_elem_of_filter.
  destruct (executes _ o); cbn; split.
  - done.
  - intros _ [Hn _]. by apply Hn.
  - intros Hn. exfalso. apply Hn. split; [intros []|done].
  - intros [].
Qed.

Lemma stays_open_iff u p prevAssets w o :
  o ∈ Portfolio.openOrders p →
  o ∈ Portfolio.openOrders (commit p (tick (Some u) p prevAssets w).1.2)
  ↔ ¬ executes (tick (Some u) p prevAssets w).1.1 o.
Proof.
  intros Ho. destruct (tick_matching u p prevAssets w) as (H1 & _).
  cbn zeta in H1. rewrite H1, list_elem_of_filter. by split; [intros []|].
Qed.

(** C1. In a matching pass of an authenticated session, for every open order
    and the prices the tick has just produced: a BUY order leaves the open
    set exactly when the asset's price is at most its target price, a SELL
    order exactly when the price is at least its target price; an order whose
    condition fails stays open, and so does an order whose asset is not
    found.  An order that leaves the open set has a LIMIT transaction for its
    full quantity at its target price. *)
Theorem matching_rule u p prevAssets w o :
  o ∈ Portfolio.openOrders p →
  let r := tick (Some u) p prevAssets w in
  let newAssets := r.1.1 in
  let p' := commit p r.1.2 in
  (∀ asset, find_asset (LimitOrder.assetId o) newAssets = Some asset →
     match LimitOrder.type o with
     | BUY =>
         (o ∉ Portfolio.openOrders p'
          ↔ Asset.current_price asset ≤ LimitOrder.targetPrice o)
         ∧ (¬ Asset.current_price asset ≤ LimitOrder.targetPrice o
            → o ∈ Portfolio.openOrders p')
     | SELL =>
         (o ∉ Portfolio.openOrders p'
          ↔ LimitOrder.targetPrice o ≤ Asset.current_price asset)
         ∧ (¬ LimitOrder.targetPrice o ≤ Asset.current_price asset
            → o ∈ Portfolio.openOrders p')
     end)
  ∧ (find_asset (LimitOrder.assetId o) newAssets = None →
     o ∈ Portfolio.openOrders p')
  ∧ (o ∉ Portfolio.openOrders p' →
     ∃ txs x, Portfolio.transactions p' = Portfolio.transactions p ++ txs
              ∧ x ∈ txs
              ∧ Transaction.orderType x = LIMIT
              ∧ Transaction.type x = LimitOrder.type o
              ∧ Transaction.quantity x = LimitOrder.quantity o
              ∧ Transaction.price x = LimitOrder.targetPrice o).
Proof.
  intros Ho r newAssets p'.
  pose proof (left_open_iff u p prevAssets w o Ho) as Hiff.
  fold r in Hiff. fold newAssets in Hiff. fold p' in Hiff.
  pose proof (stays_open_iff u p prevAssets w o Ho) as Hstay.
  fold r in Hstay. fold newAssets in Hstay. fold p' in Hstay.
  split_and!.
  - intros asset Ha. pose proof (executes_iff newAssets o asset Ha) as He.
    destruct (LimitOrder.type o); (split; [by rewrite Hiff|]);
      intros Hn; apply Hstay; by rewrite He.
  - intros Hnone. apply Hstay. unfold executes. rewrite Hnone. intros [].
  - intros Hout. apply Hiff in Hout.
    destruct (tick_matching u p prevAssets w) as (_ & _ & (txs & Htx & HF) & _).
    cbn zeta in Htx, HF. fold r in Htx, HF. fold newAssets in HF. fold p' in Htx.
    assert (o ∈ filter (λ o, executes newAssets o) (Portfolio.openOrders p)) as Hin
      by (by apply list_elem_of_filter).
    apply list_elem_of_lookup in Hin as [i Hi].
    destruct (Forall2_lookup_l _ _ _ _ _ HF Hi) as (x & Hx & Hrec).
    exists txs, x. split; [done|]. split; [by eapply list_elem_of_lookup_2|].
    destruct Hrec as (? & ? & ? & ? & ? & ?). done.
Qed.

Lemma Forall_filter_sub {A} (P : A → Prop) `{!∀ x, Decision (P x)} (Q : A → Prop)
  (l : list A) : Forall Q l → Forall Q (filter P l).
Proof.
  rewrite !Forall_forall. intros HQ x [_ Hx]%list_elem_of_filter. by apply HQ.
Qed.

(** Over non-negative holdings and well-formed orders every average of a
    sequence of fills is a quotient by a positive quantity. *)
Lemma fill_divisors_positive os :
  Forall wf_order os → ∀ c (h : gmap string Holding.t),
  (∀ k x, h !! k = Some x → 0 ≤ Holding.quantity x) →
  Forall (λ d, 0 < d) (fill_divisors (c, h) os).
Proof.
  induction 1 as [|o os [Hq Ht] _ IH]; intros c h Hh; [constructor|].
  cbn [fill_divisors snd].
  assert (0 ≤ Holding.quantity (default (Holding.mk 0 0) (h !! LimitOrder.assetId o)))
    as Hheld.
  { destruct (h !! LimitOrder.assetId o) as [x|] eqn:Hx; cbn; [by eapply Hh|].
    apply Qcle_refl. }
  unfold applyFill. destruct (LimitOrder.type o).
  - apply Forall_app. split.
    + constructor; [|constructor]. by apply Qcplus_nonneg_pos.
    + apply IH. intros k x [[_ <-]|[_ Hk]]%lookup_insert_Some; [|by eapply Hh].
      cbn. apply Qcplus_nonneg_nonneg; [done|by apply Qclt_le_weak].
  - cbn [app]. by apply IH.
Qed.

(** C2. In a matching pass of an authenticated session over a well-formed
    ledger (positive order quantities, non-negative holdings, so that every
    average is a quotient by a positive quantity), an order that executes is
    absent from the open orders of the resulting ledger; the new ledger is
    stored and written once; the transactions appended are exactly one LIMIT
    transaction per executed order, for its quantity at its target price;
    and cash and holdings are those of the design's [applyFill] applied to
    the executed orders in turn: a BUY joins the holding at the target price
    and leaves cash alone, a SELL credits [quantity * targetPrice] and leaves
    the holdings alone.  Every average computed on the way divides by a
    positive quantity. *)
Theorem fill_settlement u p prevAssets w o :
  wf_holdings p →
  Forall wf_order (Portfolio.openOrders p) →
  o ∈ Portfolio.openOrders p →
  let r := tick (Some u) p prevAssets w in
  let newAssets := r.1.1 in
  let fills := filter (λ o, executes newAssets o) (Portfolio.openOrders p) in
  executes newAssets o →
  ∃ p' txs,
    setPortfolio r.1.2 = Some p'
    ∧ writes r.1.2 = [(uid u, p')]
    ∧ (o ∉ Portfolio.openOrders p')
    ∧ Portfolio.openOrders p'
      = filter (λ o, ¬ executes newAssets o) (Portfolio.openOrders p)
    ∧ Portfolio.transactions p' = Portfolio.transactions p ++ txs
    ∧ Forall2 (fill_record newAssets) fills txs
    ∧ (Portfolio.cashBalance p', Portfolio.holdings p')
      = fold_left applyFill fills (Portfolio.cashBalance p, Portfolio.holdings p)
    ∧ Forall (λ d, 0 < d)
        (fill_divisors (Portfolio.cashBalance p, Portfolio.holdings p) fills).
Proof.
  intros Hwf Hos Ho r newAssets fills He.
  assert (Forall (λ d, 0 < d)
            (fill_divisors (Portfolio.cashBalance p, Portfolio.holdings p) fills))
    as Hdiv.
  { apply fill_divisors_positive; [by apply Forall_filter_sub|exact Hwf]. }
  destruct (tick_matching u p prevAssets w) as (H1 & H2 & (txs & H3 & H4) & H5).
  cbn zeta in *. fold r in H1, H2, H3, H4, H5.
  fold newAssets in H1, H2, H4, H5. fold fills in H2, H4, H5.
  assert (o ∈ fills) as Hin by (by apply list_elem_of_filter).
  rewrite bool_decide_eq_false_2 in H5
    by (intros Hnil; rewrite Hnil in Hin; by apply not_elem_of_nil in Hin).
  destruct H5 as [H5 H6].
  exists (commit p r.1.2), txs. split_and!; try done.
  rewrite H1, list_elem_of_filter. intros [Hn _]. by apply Hn.
Qed.

(** C10. A tick in which no open order meets its execution condition (in
    particular when there is no open order) or in which no user is
    authenticated does not call [setPortfolio], issues no persistence write
    and leaves the ledger as it was; the assets it returns are those of the
    random walk. *)
Theorem idle_pass user p prevAssets w :
  let r := tick user p prevAssets w in
  user = None
  ∨ Portfolio.openOrders p = []
  ∨ (∀ o, o ∈ Portfolio.openOrders p → executes r.1.1 o = false) →
  setPortfolio r.1.2 = None
  ∧ writes r.1.2 = []
  ∧ commit p r.1.2 = p
  ∧ r.1.1 = (advance prevAssets w).1.
Proof.
  intros r H.
  assert (r.1.1 = (advance prevAssets w).1) as Ha by apply tick_assets.
  assert (setPortfolio r.1.2 = None ∧ writes r.1.2 = []) as [Hs Hw].
  { destruct user as [u|].
    - assert (filter (λ o, executes r.1.1 o) (Portfolio.openOrders p) = []) as Hnil.
      { destruct H as [H|[H|H]]; [done|by rewrite H|].
        by apply filter_executes_nil. }
      destruct (tick_matching u p prevAssets w) as (_ & _ & _ & H5).
      cbn zeta in H5. fold r in H5. rewrite bool_decide_eq_true_2 in H5 by done.
      by destruct H5 as (? & ? & _).
    - subst r. unfold tick. by destruct (advance prevAssets w). }
  split_and!; try done. unfold commit. by rewrite Hs.
Qed.

(** ** The trade handler *)

Lemma commitTrade_effects u np ot w :
  setPortfolio (commitTrade u np ot w).1 = Some np
  ∧ writes (commitTrade u np ot w).1 = [(uid u, np)].
Proof.
  unfold commitTrade. destruct (store_ok w).
  - by destruct (addNotification _ success w).
  - by destruct (addNotification _ info w).
Qed.

Lemma addNotification_message m t w :
  n_message (addNotification m t w).1 = m.
Proof. unfold addNotification. by destruct (generateId w). Qed.

(** The two guards at the head of [handleTrade]: without a user the request
    ends in an alert, without the selected asset it ends silently; neither
    touches the ledger. *)
Lemma handleTrade_guards assets sel p side q ot lp w u :
  handleTrade None assets sel p side q ot lp w
  = (mkEffects ["Authentication required."] None [] [], w)
  ∧ (find_asset sel assets = None →
     handleTrade (Some u) assets sel p side q ot lp w = (no_effects, w)).
Proof. split; [done|]. intros H. unfold handleTrade. by rewrite H. Qed.

(** What [handleTrade] does with a BUY request of an authenticated session
    for an asset of the list. *)
Lemma handleTrade_BUY u assets sel asset p q ot lp w :
  find_asset sel assets = Some asset →
  let price := trade_price asset ot lp in
  let cost := price * q in
  let h := Portfolio.holding_or_zero sel p in
  let e := (handleTrade (Some u) assets sel p BUY q ot lp w).1 in
  if bool_decide (Portfolio.cashBalance p < cost) then
    setPortfolio e = None ∧ writes e = []
    ∧ messages e = [InsufficientFunds]
  else
    ∃ p', setPortfolio e = Some p' ∧ writes e = [(uid u, p')]
      ∧ Portfolio.cashBalance p' = Portfolio.cashBalance p - cost
      ∧ match ot with
        | MARKET =>
            Portfolio.holdings p'
            = <[sel := Holding.mk (Holding.quantity h + q)
                         ((Holding.quantity h * Holding.avgCost h + cost)
                          / (Holding.quantity h + q))]> (Portfolio.holdings p)
            ∧ Portfolio.openOrders p' = Portfolio.openOrders p
            ∧ Portfolio.transactions p'
              = Portfolio.transactions p
                ++ [Transaction.mk (generateId w).1 BUY sel (Asset.name asset) q price
                      (Date_now (generateId w).2) MARKET]
        | LIMIT =>
            Portfolio.holdings p' = Portfolio.holdings p
            ∧ Portfolio.transactions p' = Portfolio.transactions p
            ∧ Portfolio.openOrders p'
              = Portfolio.openOrders p
                ++ [LimitOrder.mk (generateId w).1 sel BUY q price
                      (Date_now (generateId w).2)]
        end.
Proof.
  intros Ha. cbn zeta. unfold handleTrade, trade_price, JSON_clone. rewrite Ha.
  case_bool_decide as Hc.
  - pose proof (addNotification_message InsufficientFunds info w) as Hm.
    destruct (addNotification InsufficientFunds info w) as [n w1].
    unfold messages. cbn in *. by rewrite Hm.
  - destruct ot.
    + destruct (generateId w) as [id w1]. cbn [fst snd].
      match goal with |- context [commitTrade u ?np MARKET w1] =>
        destruct (commitTrade_effects u np MARKET w1) as [Hs Hw]; exists np end.
      by rewrite Hs, Hw.
    + destruct (generateId w) as [id w1]. cbn [fst snd].
      match goal with |- context [commitTrade u ?np LIMIT w1] =>
        destruct (commitTrade_effects u np LIMIT w1) as [Hs Hw]; exists np end.
      by rewrite Hs, Hw.
Qed.

(** What [handleTrade] does with a SELL request. *)
Lemma handleTrade_SELL u assets sel asset p q ot lp w :
  find_asset sel assets = Some asset →
  let price := trade_price asset ot lp in
  let cost := price * q in
  let h := Portfolio.holding_or_zero sel p in
  let e := (handleTrade (Some u) assets sel p SELL q ot lp w).1 in
  if bool_decide (Holding.quantity h < q) then
    setPortfolio e = None ∧ writes e = []
    ∧ messages e = [InsufficientHoldings]
  else
    ∃ p', setPortfolio e = Some p' ∧ writes e = [(uid u, p')]
      ∧ Portfolio.holdings p'
        = <[sel := Holding.mk (Holding.quantity h - q) (Holding.avgCost h)]>
            (Portfolio.holdings p)
      ∧ match ot with
        | MARKET =>
            Portfolio.cashBalance p' = Portfolio.cashBalance p + cost
            ∧ Portfolio.openOrders p' = Portfolio.openOrders p
            ∧ Portfolio.transactions p'
              = Portfolio.transactions p
                ++ [Transaction.mk (generateId w).1 SELL sel (Asset.name asset) q price
                      (Date_now (generateId w).2) MARKET]
        | LIMIT =>
            Portfolio.cashBalance p' = Portfolio.cashBalance p
            ∧ Portfolio.transactions p' = Portfolio.transactions p
            ∧ Portfolio.openOrders p'
              = Portfolio.openOrders p
                ++ [LimitOrder.mk (generateId w).1 sel SELL q price
                      (Date_now (generateId w).2)]
        end.
Proof.
  intros Ha. cbn zeta. unfold handleTrade, trade_price, JSON_clone. rewrite Ha.
  case_bool_decide as Hc.
  - pose proof (addNotification_message InsufficientHoldings info w) as Hm.
    destruct (addNotification InsufficientHoldings info w) as [n w1].
    unfold messages. cbn in *. by rewrite Hm.
  - destruct ot.
    + destruct (generateId w) as [id w1]. cbn [fst snd].
      match goal with |- context [commitTrade u ?np MARKET w1] =>
        destruct (commitTrade_effects u np MARKET w1) as [Hs Hw]; exists np end.
      by rewrite Hs, Hw.
    + destruct (generateId w) as [id w1]. cbn [fst snd].
      match goal with |- context [commitTrade u ?np LIMIT w1] =>
        destruct (commitTrade_effects u np LIMIT w1) as [Hs Hw]; exists np end.
      by rewrite Hs, Hw.
Qed.

(** C3. For an authenticated session and an asset of the list, whatever the
    ledger, the quantity and the order type: a BUY request is refused with
    "Insufficient funds", without [setPortfolio] and without a persistence
    write, exactly when [cashBalance < quantity * price]; otherwise the
    stored ledger has the cash debited by [quantity * price].  A SELL request
    is refused with "Insufficient holdings" in the same way exactly when the
    held quantity is below the requested one; otherwise the stored ledger has
    the holding's quantity decremented and its average cost kept. *)
Theorem trade_validation u assets sel asset p q ot lp w :
  find_asset sel assets = Some asset →
  let price := trade_price asset ot lp in
  let h := Portfolio.holding_or_zero sel p in
  let buy := (handleTrade (Some u) assets sel p BUY q ot lp w).1 in
  let sell := (handleTrade (Some u) assets sel p SELL q ot lp w).1 in
  (Portfolio.cashBalance p < q * price →
     setPortfolio buy = None ∧ writes buy = []
     ∧ messages buy = [InsufficientFunds] ∧ commit p buy = p)
  ∧ (¬ Portfolio.cashBalance p < q * price →
     ∃ p', setPortfolio buy = Some p' ∧ commit p buy = p'
           ∧ Portfolio.cashBalance p' = Portfolio.cashBalance p - q * price)
  ∧ (setPortfolio buy = None ↔ Portfolio.cashBalance p < q * price)
  ∧ (Holding.quantity h < q →
     setPortfolio sell = None ∧ writes sell = []
     ∧ messages sell = [InsufficientHoldings] ∧ commit p sell = p)
  ∧ (¬ Holding.quantity h < q →
     ∃ p', setPortfolio sell = Some p' ∧ commit p sell = p'
           ∧ Portfolio.holding_or_zero sel p'
             = Holding.mk (Holding.quantity h - q) (Holding.avgCost h))
  ∧ (setPortfolio sell = None ↔ Holding.quantity h < q).
Proof.
  intros Ha price h buy sell.
  pose proof (handleTrade_BUY u assets sel asset p q ot lp w Ha) as HB.
  pose proof (handleTrade_SELL u assets sel asset p q ot lp w Ha) as HS.
  cbn zeta in HB, HS. fold price in HB, HS. fold h in HB, HS.
  fold buy in HB. fold sell in HS.
  rewrite (Qcmult_comm price q) in HB.
  split_and!.
  - intros Hc. rewrite bool_decide_eq_true_2 in HB by done.
    destruct HB as (Hs & Hw & Hm). split_and!; try done.
    unfold commit. by rewrite Hs.
  - intros Hc. rewrite bool_decide_eq_false_2 in HB by done.
    destruct HB as (p' & Hs & _ & Hcash & _). exists p'. split_and!; try done.
    unfold commit. by rewrite Hs.
  - destruct (decide (Portfolio.cashBalance p < q * price)) as [Hc|Hc].
    + rewrite bool_decide_eq_true_2 in HB by done. by destruct HB as (Hs & _).
    + rewrite bool_decide_eq_false_2 in HB by done.
      destruct HB as (p' & Hs & _). rewrite Hs. by split.
  - intros Hc. rewrite bool_decide_eq_true_2 in HS by done.
    destruct HS as (Hs & Hw & Hm). split_and!; try done.
    unfold commit. by rewrite Hs.
  - intros Hc. rewrite bool_decide_eq_false_2 in HS by done.
    destruct HS as (p' & Hs & _ & Hh & _). exists p'. split_and!; try done.
    + unfold commit. by rewrite Hs.
    + unfold Portfolio.holding_or_zero at 1. rewrite Hh.
      by rewrite lookup_insert_eq.
  - destruct (decide (Holding.quantity h < q)) as [Hc|Hc].
    + rewrite bool_decide_eq_true_2 in HS by done. by destruct HS as (Hs & _).
    + rewrite bool_decide_eq_false_2 in HS by done.
      destruct HS as (p' & Hs & _). rewrite Hs. by split.
Qed.

Lemma trade_validation_witness :
  find_asset "TOM" [demo_asset] = Some demo_asset
  ∧ ∃ p', setPortfolio
            (handleTrade (Some demo_user) [demo_asset] "TOM" DEFAULT_PORTFOLIO_DATA
               BUY (Qc_of_Z 100) MARKET None demo_world).1 = Some p'
          ∧ Portfolio.cashBalance p' = INITIAL_CASH - Qc_of_Z 100 * Qc_of_Z 10.
Proof.
  split; [reflexivity|].
  destruct (trade_validation demo_user [demo_asset] "TOM" demo_asset
              DEFAULT_PORTFOLIO_DATA (Qc_of_Z 100) MARKET None demo_world eq_refl)
    as (_ & H & _).
  assert (¬ Portfolio.cashBalance DEFAULT_PORTFOLIO_DATA
            < Qc_of_Z 100 * trade_price demo_asset MARKET None) as Hfunds.
  { refine (bool_decide_unpack _ _). vm_compute. exact I. }
  destruct (H Hfunds) as (p' & Hs & _ & Hc).
  by exists p'.
Defined.


(** ** The trade form *)

Lemma Qc_of_Z_nonpos (n : Z) : (n ≤ 0)%Z ↔ Qc_of_Z n ≤ 0.
Proof. unfold Qcle. change (this 0) with (0#1)%Q. unfold Qle. cbn. lia. Qed.

Lemma Qc_of_Z_pos (n : Z) : (0 < n)%Z ↔ 0 < Qc_of_Z n.
Proof. unfold Qclt. change (this 0) with (0#1)%Q. unfold Qlt. cbn. lia. Qed.

(** [handleTrade] itself checks neither the quantity nor the price: the
    checks of C7 are the form's.  Called directly with quantity 0 it stores a
    ledger with a transaction for 0 units. *)
Remark handleTrade_does_not_validate :
  ∃ p', setPortfolio
          (handleTrade (Some demo_user) [demo_asset] "TOM" DEFAULT_PORTFOLIO_DATA
             SELL 0 MARKET None demo_world).1 = Some p'
        ∧ length (Portfolio.transactions p') = 1%nat.
Proof. eexists. split; [vm_compute; reflexivity|reflexivity]. Qed.

(** C7. Whatever the ledger, the asset and the trade callback: a submitted
    form whose quantity is not positive (or does not parse) is refused with
    "Enter a valid quantity"; a LIMIT form with a positive quantity whose
    price is not positive (or does not parse) is refused with "Enter a valid
    price"; in both cases the trade callback is not called, so nothing is
    stored or written and the ledger is the one before. *)
Theorem form_validation asset p
  (trade : Side → Qc → OrderType → option Qc → World → Effects * World) f w :
  let numericQty := default 0%Z (quantity f) in
  let numericLimitPrice := default 0 (limitPrice f) in
  let r := handleSubmit asset p trade f w in
  ((numericQty ≤ 0)%Z → r = (Some InvalidQuantity, no_effects, w))
  ∧ ((0 < numericQty)%Z → orderType f = LIMIT → numericLimitPrice ≤ 0 →
     r = (Some InvalidPrice, no_effects, w))
  ∧ ((numericQty ≤ 0)%Z ∨ (orderType f = LIMIT ∧ numericLimitPrice ≤ 0) →
     (r.1.1 = Some InvalidQuantity ∨ r.1.1 = Some InvalidPrice)
     ∧ r.1.2 = no_effects ∧ r.2 = w ∧ commit p r.1.2 = p).
Proof.
  intros numericQty numericLimitPrice r.
  assert ((numericQty ≤ 0)%Z → r = (Some InvalidQuantity, no_effects, w)) as HQ.
  { intros Hq%Qc_of_Z_nonpos. subst r. unfold handleSubmit.
    fold numericQty. by rewrite bool_decide_eq_true_2. }
  assert ((0 < numericQty)%Z → orderType f = LIMIT → numericLimitPrice ≤ 0 →
          r = (Some InvalidPrice, no_effects, w)) as HP.
  { intros Hq Ht Hp. subst r. unfold handleSubmit. fold numericQty numericLimitPrice.
    rewrite bool_decide_eq_false_2
      by (intros Hn%Qc_of_Z_nonpos; lia).
    rewrite Ht. rewrite (bool_decide_eq_true_2 (LIMIT = LIMIT)) by done.
    by rewrite (bool_decide_eq_true_2 (numericLimitPrice ≤ 0)) by done. }
  split_and!; [done|done|].
  intros H. destruct (decide (numericQty ≤ 0)%Z) as [Hq|Hq].
  - rewrite (HQ Hq). cbn. split_and!; try done. by left.
  - destruct H as [H|[Ht Hp]]; [done|].
    rewrite (HP ltac:(lia) Ht Hp). cbn. split_and!; try done. by right.
Qed.

Lemma form_validation_witness :
  (0 < default 0%Z (quantity form_price_zero))%Z
  ∧ orderType form_price_zero = LIMIT
  ∧ default 0 (limitPrice form_price_zero) ≤ 0
  ∧ handleSubmit demo_asset DEFAULT_PORTFOLIO_DATA
      (handleTrade (Some demo_user) [demo_asset] "TOM" DEFAULT_PORTFOLIO_DATA)
      form_price_zero demo_world
    = (Some InvalidPrice, no_effects, demo_world).
Proof.
  assert ((0 < default 0%Z (quantity form_price_zero))%Z) as Hq by (cbn; lia).
  assert (default 0 (limitPrice form_price_zero) ≤ 0) as Hp by qc_eval.
  split; [exact Hq|]. split; [reflexivity|]. split; [exact Hp|].
  exact (proj1 (proj2 (form_validation demo_asset DEFAULT_PORTFOLIO_DATA
                         (handleTrade (Some demo_user) [demo_asset] "TOM"
                            DEFAULT_PORTFOLIO_DATA)
                         form_price_zero demo_world))
           Hq eq_refl Hp).
Defined.

(** ** Cash never goes negative *)

Lemma floor_positive : 0 < dec 1 100.
Proof. qc_eval. Qed.

Lemma advance_wf prevAssets w : wf_assets (advance prevAssets w).1.
Proof.
  apply (Forall2_right_Forall (A:=Asset.t) _ prevAssets).
  apply (mapW_Forall2 (λ _, True)); [|done].
  intros asset w1 _. split; [|done]. unfold advanceAsset.
  destruct (Math_random w1) as [r w2]. destruct (Math_random w2) as [r2 w3].
  cbn. eapply Qclt_le_trans; [apply floor_positive|apply Math_max_lb_l].
Qed.

Lemma wf_order_escrow o : wf_order o → 0 ≤ LimitOrder.quantity o * LimitOrder.targetPrice o.
Proof. intros [Hq Ht]. apply Qcmult_nonneg_nonneg; by apply Qclt_le_weak. Qed.

Lemma applyFill_cash os :
  Forall wf_order os → ∀ c h,
  0 ≤ c → 0 ≤ (fold_left applyFill os (c, h)).1.
Proof.
  induction 1 as [|o os Ho _ IH]; intros c h Hc; [done|].
  cbn [fold_left]. unfold applyFill at 2.
  destruct (LimitOrder.type o); apply IH; [done|].
  apply Qcplus_nonneg_nonneg; [done|by apply wf_order_escrow].
Qed.

Lemma tick_inv s w :
  ledger_ok s →
  ledger_ok
    (mkApp (tick (user s) (portfolio s) (assets s) w).1.1 (selectedAssetId s)
       (commit (portfolio s) (tick (user s) (portfolio s) (assets s) w).1.2)
       (user s)).
Proof.
  intros (Hc & Ho & Ha). unfold ledger_ok. cbn [portfolio assets].
  rewrite tick_assets. split_and!; [| |apply advance_wf].
  - destruct (user s) as [u|].
    + destruct (tick_matching u (portfolio s) (assets s) w) as (_ & H2 & _).
      cbn zeta in H2. apply (f_equal fst) in H2. cbn [fst] in H2. rewrite H2.
      apply applyFill_cash; [by apply Forall_filter_sub|done].
    + unfold tick. by destruct (advance (assets s) w).
  - destruct (user s) as [u|].
    + destruct (tick_matching u (portfolio s) (assets s) w) as (H1 & _).
      cbn zeta in H1. rewrite H1. by apply Forall_filter_sub.
    + unfold tick. by destruct (advance (assets s) w).
Qed.

Lemma handleTrade_inv user assets sel p side q ot lp w :
  0 ≤ Portfolio.cashBalance p →
  Forall wf_order (Portfolio.openOrders p) →
  wf_assets assets →
  0 < q → (ot = LIMIT → 0 < default 0 lp) →
  let p' := commit p (handleTrade user assets sel p side q ot lp w).1 in
  0 ≤ Portfolio.cashBalance p' ∧ Forall wf_order (Portfolio.openOrders p').
Proof.
  intros Hc Ho Ha Hq Hlp. cbn zeta.
  destruct user as [u|]; [|done].
  destruct (find_asset sel assets) as [asset|] eqn:Hf;
    [|unfold handleTrade; by rewrite Hf].
  assert (0 ≤ trade_price asset ot lp) as Hprice.
  { destruct ot; cbn.
    - apply Qclt_le_weak. destruct (find_asset_Some _ _ _ Hf) as [_ Hin].
      unfold wf_assets in Ha. rewrite Forall_forall in Ha. by apply Ha.
    - apply Qclt_le_weak. by apply Hlp. }
  destruct side.
  - pose proof (handleTrade_BUY u assets sel asset p q ot lp w Hf) as HB.
    cbn zeta in HB. case_bool_decide as Hcost.
    + destruct HB as (Hs & _). unfold commit. by rewrite Hs.
    + destruct HB as (p' & Hs & _ & Hcash & Hrest). unfold commit. rewrite Hs. cbn.
      split; [rewrite Hcash; by apply Qc_sub_nonneg|].
      destruct ot.
      * destruct Hrest as (_ & -> & _). done.
      * destruct Hrest as (_ & _ & ->). apply Forall_app. split; [done|].
        constructor; [|done]. split; cbn; [done|by apply Hlp].
  - pose proof (handleTrade_SELL u assets sel asset p q ot lp w Hf) as HS.
    cbn zeta in HS. case_bool_decide as Hcost.
    + destruct HS as (Hs & _). unfold commit. by rewrite Hs.
    + destruct HS as (p' & Hs & _ & _ & Hrest). unfold commit. rewrite Hs. cbn.
      destruct ot.
      * destruct Hrest as (-> & -> & _). split; [|done].
        apply Qcplus_nonneg_nonneg; [done|].
        apply Qcmult_nonneg_nonneg; [done|by apply Qclt_le_weak].
      * destruct Hrest as (-> & _ & ->). split; [done|].
        apply Forall_app. split; [done|].
        constructor; [|done]. split; cbn; [done|by apply Hlp].
Qed.

Lemma handleSubmit_inv s asset f w :
  ledger_ok s →
  let p' := commit (portfolio s)
              (handleSubmit asset (portfolio s) (onTrade s) f w).1.2 in
  0 ≤ Portfolio.cashBalance p' ∧ Forall wf_order (Portfolio.openOrders p').
Proof.
  intros (Hc & Ho & Ha). cbn zeta. unfold handleSubmit.
  case_bool_decide as Hq; [done|].
  destruct (bool_decide (orderType f = LIMIT)
            && bool_decide (default 0 (limitPrice f) ≤ 0)) eqn:Hp; [done|].
  destruct (bool_decide (mode f = BUY) && _); [done|].
  destruct (bool_decide (mode f = SELL) && _); [done|].
  pose proof (handleTrade_inv (user s) (assets s) (selectedAssetId s) (portfolio s)
                (mode f) (Qc_of_Z (default 0%Z (quantity f))) (orderType f)
                (match orderType f with
                 | MARKET => None
                 | LIMIT => Some (default 0 (limitPrice f))
                 end) w Hc Ho Ha) as Hinv.
  cbn zeta in Hinv. unfold onTrade.
  destruct (handleTrade _ _ _ _ _ _ _ _ w) as [e w1]. cbn [fst snd] in *.
  apply Hinv.
  - by apply Qcnot_le_lt.
  - intros Ht. rewrite Ht in *. cbn.
    rewrite bool_decide_eq_true_2 in Hp by done. cbn in Hp.
    apply bool_decide_eq_false in Hp. by apply Qcnot_le_lt.
Qed.

Lemma handleCancelOrder_inv user p orderId w :
  0 ≤ Portfolio.cashBalance p →
  Forall wf_order (Portfolio.openOrders p) →
  let p' := commit p (handleCancelOrder user p orderId w).1 in
  0 ≤ Portfolio.cashBalance p' ∧ Forall wf_order (Portfolio.openOrders p').
Proof.
  intros Hc Ho. cbn zeta. unfold handleCancelOrder, JSON_clone.
  destruct user as [u|]; [|done].
  destruct (list_find _ _) as [[i o]|] eqn:Hfind; [|done].
  apply list_find_Some in Hfind as (Hi & _ & _).
  assert (wf_order o) as Hwf.
  { rewrite Forall_forall in Ho. apply Ho. by eapply list_elem_of_lookup_2. }
  assert (Forall wf_order (delete i (Portfolio.openOrders p))) as Hdel.
  { by apply Forall_delete. }
  assert (0 ≤ Portfolio.cashBalance p
              + LimitOrder.quantity o * LimitOrder.targetPrice o) as Hcash.
  { apply Qcplus_nonneg_nonneg; [done|by apply wf_order_escrow]. }
  destruct (LimitOrder.type o); destruct (store_ok w); cbn; done.
Qed.

Lemma step_inv s s' : ledger_ok s → step s s' → ledger_ok s'.
Proof.
  intros Hok Hstep. destruct Hstep as [s w|s asset f w Hsel|s orderId w|s a Ha].
  - by apply tick_inv.
  - destruct (handleSubmit_inv s asset f w Hok) as [H1 H2].
    destruct Hok as (_ & _ & Hassets). by split_and!.
  - destruct Hok as (Hc & Ho & Hassets).
    destruct (handleCancelOrder_inv (user s) (portfolio s) orderId w Hc Ho) as [H1 H2].
    by split_and!.
  - done.
Qed.

(** C6. From a state whose cash balance is not negative, whose open orders
    have positive quantities and target prices and whose assets have positive
    prices (the data model of the design), every sequence of ticks (with
    their limit-order fills), submitted trade forms (market trades and
    limit-order placements), order cancellations and asset selections ends in
    a state whose cash balance is not negative. *)
Theorem cash_never_negative s s' :
  0 ≤ Portfolio.cashBalance (portfolio s) →
  Forall wf_order (Portfolio.openOrders (portfolio s)) →
  wf_assets (assets s) →
  rtc step s s' →
  0 ≤ Portfolio.cashBalance (portfolio s').
Proof.
  intros Hc Ho Ha Hsteps.
  assert (ledger_ok s') as (H & _); [|done].
  induction Hsteps as [s|s s1 s' Hstep _ IH]; [by split_and!|].
  destruct (step_inv s s1 (conj Hc (conj Ho Ha)) Hstep) as (Hc1 & Ho1 & Ha1).
  by apply IH.
Qed.

Lemma cash_never_negative_witness :
  0 ≤ Portfolio.cashBalance (portfolio demo_state)
  ∧ Forall wf_order (Portfolio.openOrders (portfolio demo_state))
  ∧ wf_assets (assets demo_state)
  ∧ rtc step demo_state demo_state_after_buy
  ∧ 0 ≤ Portfolio.cashBalance (portfolio demo_state_after_buy).
Proof.
  assert (0 ≤ Portfolio.cashBalance (portfolio demo_state)) as Hc by qc_eval.
  assert (Forall wf_order (Portfolio.openOrders (portfolio demo_state))) as Ho
    by constructor.
  assert (wf_assets (assets demo_state)) as Ha.
  { constructor; [qc_eval|constructor]. }
  assert (rtc step demo_state demo_state_after_buy) as Hsteps.
  { apply rtc_once. exact (step_submit demo_state demo_asset form_buy_3 demo_world eq_refl). }
  split; [exact Hc|]. split; [exact Ho|]. split; [exact Ha|]. split; [exact Hsteps|].
  exact (cash_never_negative demo_state demo_state_after_buy Hc Ho Ha Hsteps).
Defined.

Example demo_state_after_buy_cash :
  Portfolio.cashBalance (portfolio demo_state_after_buy) = Qc_of_Z 9970.
Proof. qc_same. Qed.

(** ** The matcher on a concrete ledger *)

Lemma matching_rule_witness :
  buy_order ∈ Portfolio.openOrders demo_ledger
  ∧ (buy_order
     ∉ Portfolio.openOrders
         (commit demo_ledger
            (tick (Some demo_user) demo_ledger [demo_asset] demo_world).1.2))
  ∧ sell_order
    ∈ Portfolio.openOrders
        (commit demo_ledger
           (tick (Some demo_user) demo_ledger [demo_asset] demo_world).1.2).
Proof.
  assert (buy_order ∈ Portfolio.openOrders demo_ledger) as Hb
    by apply list_elem_of_here.
  assert (sell_order ∈ Portfolio.openOrders demo_ledger) as Hs
    by (apply list_elem_of_further, list_elem_of_here).
  split; [exact Hb|].
  destruct (find_asset "TOM"
              (tick (Some demo_user) demo_ledger [demo_asset] demo_world).1.1)
    as [asset|] eqn:E; [|vm_compute in E; discriminate E].
  split.
  - destruct (matching_rule demo_user demo_ledger [demo_asset] demo_world
                buy_order Hb) as (H1 & _).
    destruct (H1 asset E) as [[_ Hfill] _]. apply Hfill.
    vm_compute in E. injection E as <-. qc_eval.
  - destruct (matching_rule demo_user demo_ledger [demo_asset] demo_world
                sell_order Hs) as (H1 & _).
    destruct (H1 asset E) as [_ Hstay]. apply Hstay.
    vm_compute in E. injection E as <-. qc_eval.
Defined.

Lemma demo_ledger_holdings : wf_holdings demo_ledger.
Proof.
  intros k h Hk. unfold demo_ledger in Hk. cbn [Portfolio.holdings] in Hk.
  apply lookup_singleton_Some in Hk as [_ <-]. qc_eval.
Qed.

Lemma demo_ledger_orders : Forall wf_order (Portfolio.openOrders demo_ledger).
Proof. repeat constructor; qc_eval. Qed.

Lemma fill_settlement_witness :
  wf_holdings demo_ledger
  ∧ Forall wf_order (Portfolio.openOrders demo_ledger)
  ∧ buy_order ∈ Portfolio.openOrders demo_ledger
  ∧ executes (tick (Some demo_user) demo_ledger [demo_asset] demo_world).1.1 buy_order
  ∧ ∃ p' txs,
      setPortfolio (tick (Some demo_user) demo_ledger [demo_asset] demo_world).1.2
      = Some p'
      ∧ (buy_order ∉ Portfolio.openOrders p')
      ∧ Portfolio.transactions p' = Portfolio.transactions demo_ledger ++ txs
      ∧ length txs = 1%nat
      ∧ Portfolio.cashBalance p' = Qc_of_Z 1000
      ∧ Portfolio.holding_or_zero "TOM" p' = Holding.mk (Qc_of_Z 15) (Qc_of_Z 10).
Proof.
  assert (buy_order ∈ Portfolio.openOrders demo_ledger) as Hb
    by apply list_elem_of_here.
  assert (Is_true (executes (tick (Some demo_user) demo_ledger [demo_asset]
                               demo_world).1.1 buy_order)) as He
    by (vm_compute; exact I).
  split; [exact demo_ledger_holdings|]. split; [exact demo_ledger_orders|].
  split; [exact Hb|]. split; [exact He|].
  destruct (fill_settlement demo_user demo_ledger [demo_asset] demo_world buy_order
              demo_ledger_holdings demo_ledger_orders Hb He)
    as (p' & txs & Hs & _ & Hout & _ & Htx & HF & Hfold & _).
  exists p', txs. split; [exact Hs|]. split; [exact Hout|]. split; [exact Htx|].
  assert (filter (λ o, executes (tick (Some demo_user) demo_ledger [demo_asset]
                                   demo_world).1.1 o)
            (Portfolio.openOrders demo_ledger) = [buy_order]) as Hfills
    by (vm_compute; reflexivity).
  rewrite Hfills in HF, Hfold. split.
  { apply Forall2_length in HF. by rewrite <-HF. }
  cbn in Hfold. injection Hfold as Hcash Hhold.
  split; [exact Hcash|].
  unfold Portfolio.holding_or_zero. rewrite Hhold, lookup_insert_eq. cbn.
  f_equal; qc_same.
Defined.

Lemma idle_pass_witness :
  (∀ o, o ∈ Portfolio.openOrders quiet_ledger →
        executes (tick (Some demo_user) quiet_ledger [demo_asset] demo_world).1.1 o
        = false)
  ∧ setPortfolio (tick (Some demo_user) quiet_ledger [demo_asset] demo_world).1.2 = None
  ∧ writes (tick (Some demo_user) quiet_ledger [demo_asset] demo_world).1.2 = []
  ∧ commit quiet_ledger
      (tick (Some demo_user) quiet_ledger [demo_asset] demo_world).1.2
    = quiet_ledger.
Proof.
  assert (∀ o, o ∈ Portfolio.openOrders quiet_ledger →
               executes (tick (Some demo_user) quiet_ledger [demo_asset]
                           demo_world).1.1 o = false) as Hnone.
  { intros o Ho. apply list_elem_of_singleton in Ho. subst o.
    vm_compute. reflexivity. }
  split; [exact Hnone|].
  destruct (idle_pass (Some demo_user) quiet_ledger [demo_asset] demo_world
              (or_intror (or_intror Hnone))) as (H1 & H2 & H3 & _).
  split; [exact H1|]. split; [exact H2|exact H3].
Defined.

(** ** The session *)

(** Without an authenticated user no transition changes the ledger: a guest
    session never holds an open order it did not start with. *)
Lemma guest_ledger_frozen s s' :
  user s = None → step s s' → portfolio s' = portfolio s ∧ user s' = None.
Proof.
  intros Hu Hstep. destruct Hstep as [s w|s asset f w Hsel|s orderId w|s a Ha];
    cbn [portfolio user]; (split; [|done]).
  - rewrite Hu. unfold tick. by destruct (advance (assets s) w).
  - unfold handleSubmit, onTrade, handleTrade. rewrite Hu.
    repeat (match goal with |- context [if ?b then _ else _] => destruct b end;
            try done).
  - by rewrite Hu.
  - done.
Qed.

Lemma Forall2_transfer {A B} (R : A → B → Prop) (P : A → Prop) (Q : B → Prop)
  (l : list A) (k : list B) :
  (∀ a b, R a b → P a → Q b) → Forall2 R l k → Forall P l → Forall Q k.
Proof.
  intros HR HF. induction HF as [|a b l k Hab _ IH]; intros HP; [constructor|].
  inversion HP; subst. constructor; [by eapply HR|by apply IH].
Qed.

Lemma INITIAL_ASSETS_positive :
  Forall (λ a, 0 < seed_initial_price a) INITIAL_ASSETS.
Proof. repeat constructor; qc_eval. Qed.

Lemma initialAssets_wf w : wf_assets (initialAssets w).1.
Proof.
  unfold initialAssets, wf_assets.
  apply (Forall2_transfer
           (λ (a : AssetSeed) (x : Asset.t), Asset.current_price x = seed_initial_price a)
           (λ a, 0 < seed_initial_price a) _ INITIAL_ASSETS);
    [by intros a b ->| |exact INITIAL_ASSETS_positive].
  apply (mapW_Forall2 (λ _, True)); [|done].
  intros a w1 _. split; [|done]. by destruct (initialHistory a w1).
Qed.

(** From the state the application starts in, authenticated or not, cash is
    never negative. *)
Corollary cash_never_negative_from_start w u s' :
  rtc step (mkApp (initialAssets w).1 "TOM" DEFAULT_PORTFOLIO_DATA u) s' →
  0 ≤ Portfolio.cashBalance (portfolio s').
Proof.
  intros Hsteps.
  assert (ledger_ok s') as (H & _); [|done].
  remember (mkApp (initialAssets w).1 "TOM" DEFAULT_PORTFOLIO_DATA u) as s0 eqn:E.
  assert (ledger_ok s0) as H0.
  { subst s0. split_and!; [qc_eval|constructor|apply initialAssets_wf]. }
  clear E. induction Hsteps as [s|s s1 s' Hstep _ IH]; [done|].
  apply IH. by eapply step_inv.
Qed.

(** The scenario of §8 of the design document, evaluated. *)
Example spec_scenario :
  Portfolio.cashBalance scenario_bought = Qc_of_Z 9000
  ∧ Portfolio.holding_or_zero "TOM" scenario_bought
    = Holding.mk (Qc_of_Z 100) (Qc_of_Z 10)
  ∧ Portfolio.holding_or_zero "TOM" scenario_resting
    = Holding.mk (Qc_of_Z 50) (Qc_of_Z 10)
  ∧ length (Portfolio.openOrders scenario_resting) = 1%nat
  ∧ Portfolio.cashBalance scenario_filled = Qc_of_Z 9600
  ∧ Portfolio.openOrders scenario_filled = []
  ∧ (Transaction.orderType <$> Portfolio.transactions scenario_filled)
    = [MARKET; LIMIT]
  ∧ (Transaction.price <$> last (Portfolio.transactions scenario_filled))
    = Some (Qc_of_Z 12).
Proof.
  split_and!.
  - qc_same.
  - vm_compute. f_equal; qc_same.
  - vm_compute. f_equal; qc_same.
  - vm_compute. reflexivity.
  - qc_same.
  - vm_compute. reflexivity.
  - vm_compute. reflexivity.
  - vm_compute. reflexivity.
Qed.

(** * The handlers on doubles

    Two statements of the design document are about amounts that are taken
    and given back, or multiplied and divided again.  They are settled on
    the binary64 embedding of the handlers. *)

Lemma binary64_commitTrade_effects u np ot w :
  Binary64.setPortfolio (Binary64.commitTrade u np ot w).1 = Some np.
Proof.
  unfold Binary64.commitTrade. destruct (store_ok w).
  - by destruct (addNotification _ success w).
  - by destruct (addNotification _ info w).
Qed.

(** What [handleTrade] stores for a BUY request on a ledger that survives
    the JSON copy unchanged. *)
Lemma binary64_handleTrade_BUY u assets sel asset p q ot lp w p' :
  Binary64.find_asset sel assets = Some asset →
  Binary64.Portfolio.JSON_clone p = p →
  Binary64.setPortfolio (Binary64.handleTrade (Some u) assets sel p BUY q ot lp w).1
  = Some p' →
  let price :=
    match ot with
    | LIMIT => Binary64.or_zero lp
    | MARKET => Binary64.Asset.current_price asset
    end in
  let cost := Binary64.mul price q in
  let h := Binary64.Portfolio.holding_or_zero sel p in
  Binary64.Portfolio.cashBalance p'
  = Binary64.sub (Binary64.Portfolio.cashBalance p) cost
  ∧ match ot with
    | MARKET =>
        Binary64.Portfolio.holdings p'
        = <[sel := Binary64.Holding.mk
                     (Binary64.add (Binary64.Holding.quantity h) q)
                     (Binary64.div
                        (Binary64.add
                           (Binary64.mul (Binary64.Holding.quantity h)
                              (Binary64.Holding.avgCost h)) cost)
                        (Binary64.add (Binary64.Holding.quantity h) q))]>
            (Binary64.Portfolio.holdings p)
        ∧ Binary64.Portfolio.openOrders p' = Binary64.Portfolio.openOrders p
    | LIMIT =>
        Binary64.Portfolio.holdings p' = Binary64.Portfolio.holdings p
        ∧ Binary64.Portfolio.transactions p' = Binary64.Portfolio.transactions p
        ∧ Binary64.Portfolio.openOrders p'
          = Binary64.Portfolio.openOrders p
            ++ [Binary64.LimitOrder.mk (generateId w).1 sel BUY q price
                  (Date_now (generateId w).2)]
    end.
Proof.
  intros Ha Hp. cbn zeta. unfold Binary64.handleTrade. rewrite Ha, Hp.
  destruct (Binary64.ltb _ _).
  - destruct (addNotification InsufficientFunds info w) as [n w1]. by cbn.
  - destruct ot.
    + destruct (generateId w) as [id w1]. cbn [fst snd].
      rewrite binary64_commitTrade_effects. by intros [= <-].
    + destruct (generateId w) as [id w1]. cbn [fst snd].
      rewrite binary64_commitTrade_effects. by intros [= <-].
Qed.

Lemma binary64_handleTrade_SELL u assets sel asset p q ot lp w p' :
  Binary64.find_asset sel assets = Some asset →
  Binary64.Portfolio.JSON_clone p = p →
  Binary64.setPortfolio (Binary64.handleTrade (Some u) assets sel p SELL q ot lp w).1
  = Some p' →
  let price :=
    match ot with
    | LIMIT => Binary64.or_zero lp
    | MARKET => Binary64.Asset.current_price asset
    end in
  let h := Binary64.Portfolio.holding_or_zero sel p in
  Binary64.Portfolio.holdings p'
  = <[sel := Binary64.Holding.mk (Binary64.sub (Binary64.Holding.quantity h) q)
               (Binary64.Holding.avgCost h)]> (Binary64.Portfolio.holdings p)
  ∧ match ot with
    | MARKET =>
        Binary64.Portfolio.cashBalance p'
        = Binary64.add (Binary64.Portfolio.cashBalance p) (Binary64.mul price q)
        ∧ Binary64.Portfolio.openOrders p' = Binary64.Portfolio.openOrders p
    | LIMIT =>
        Binary64.Portfolio.cashBalance p' = Binary64.Portfolio.cashBalance p
        ∧ Binary64.Portfolio.transactions p' = Binary64.Portfolio.transactions p
        ∧ Binary64.Portfolio.openOrders p'
          = Binary64.Portfolio.openOrders p
            ++ [Binary64.LimitOrder.mk (generateId w).1 sel SELL q price
                  (Date_now (generateId w).2)]
    end.
Proof.
  intros Ha Hp. cbn zeta. unfold Binary64.handleTrade. rewrite Ha, Hp.
  destruct (Binary64.ltb _ _).
  - destruct (addNotification InsufficientHoldings info w) as [n w1]. by cbn.
  - destruct ot.
    + destruct (generateId w) as [id w1]. cbn [fst snd].
      rewrite binary64_commitTrade_effects. by intros [= <-].
    + destruct (generateId w) as [id w1]. cbn [fst snd].
      rewrite binary64_commitTrade_effects. by intros [= <-].
Qed.





(** ** The average cost *)

Lemma binary64_add_zero_l s c :
  c ≠ SpecFloat.S754_zero true → Binary64.add (SpecFloat.S754_zero s) c = c.
Proof. intros Hc. destruct c as [[]| | |]; destruct s; done. Qed.

Lemma binary64_positive q :
  Binary64.ltb Binary64.zero q = true →
  q = SpecFloat.S754_infinity false ∨ ∃ m e, q = SpecFloat.S754_finite false m e.
Proof.
  destruct q as [s|s| |s m e]; try done.
  - destruct s; [done|by left].
  - destruct s; [done|]. right. by eexists _, _.
Qed.

Lemma binary64_round_sign m e l :
  SpecFloat.binary_round_aux Binary64.prec Binary64.emax false m e l
  ≠ SpecFloat.S754_zero true.
Proof.
  unfold SpecFloat.binary_round_aux.
  destruct (SpecFloat.shr_fexp _ _ m e l) as [mrs1 e1].
  destruct (SpecFloat.shr_fexp _ _ _ e1 _) as [mrs2 e2].
  destruct (SpecFloat.shr_m mrs2); [done| |done].
  by destruct (_ <=? _)%Z.
Qed.

Lemma binary64_mul_positive a b :
  Binary64.ltb Binary64.zero a = true → Binary64.ltb Binary64.zero b = true →
  Binary64.mul a b ≠ SpecFloat.S754_zero true.
Proof.
  intros [->|(ma & ea & ->)]%binary64_positive [->|(mb & eb & ->)]%binary64_positive;
    try done.
  apply binary64_round_sign.
Qed.

Lemma binary64_JSON_number_fixed x :
  Binary64.JSON_number x = x →
  x = Binary64.zero ∨ ∃ s m e, x = SpecFloat.S754_finite s m e.
Proof.
  destruct x as [s|s| |s m e]; try done.
  - destruct s; [done|by left].
  - intros _. right. by eexists _, _, _.
Qed.

(** The holdings of a ledger that survives the JSON copy are finite. *)
Lemma binary64_holding_fixed sel p :
  Binary64.Portfolio.JSON_clone p = p →
  Binary64.JSON_number
    (Binary64.Holding.avgCost (Binary64.Portfolio.holding_or_zero sel p))
  = Binary64.Holding.avgCost (Binary64.Portfolio.holding_or_zero sel p).
Proof.
  intros Hp. unfold Binary64.Portfolio.holding_or_zero.
  destruct (Binary64.Portfolio.holdings p !! sel) as [h|] eqn:Hh; [|done].
  apply (f_equal Binary64.Portfolio.holdings) in Hp. cbn in Hp.
  apply (f_equal (λ m, m !! sel)) in Hp. rewrite lookup_fmap, Hh in Hp.
  cbn in Hp. injection Hp as Hp. cbn. by rewrite <-Hp at 2.
Qed.

(** C5 (amended). For an authenticated session, an asset of the list and a
    ledger of finite numbers: a market BUY that is accepted sets the holding
    to the old quantity plus the bought one, with average cost
    [(oldQty * oldAvgCost + price * qty) / (oldQty + qty)] in the arithmetic
    of doubles.  When nothing was held (quantity 0) and the price and the
    quantity are positive, the holding becomes [qty] units at
    [(price * qty) / qty], whatever average cost the empty holding carried:
    that is the purchase price up to the rounding of the product and the
    quotient, not always the price itself: 3 units at 45.20 are stored at
    45.20000000000001.  A market SELL that is accepted decrements the
    quantity and keeps the average cost. *)
Theorem average_cost u assets sel asset p q w p' :
  Binary64.find_asset sel assets = Some asset →
  Binary64.Portfolio.JSON_clone p = p →
  let price := Binary64.Asset.current_price asset in
  let h := Binary64.Portfolio.holding_or_zero sel p in
  (Binary64.setPortfolio
     (Binary64.handleTrade (Some u) assets sel p BUY q MARKET None w).1 = Some p' →
   Binary64.Portfolio.holding_or_zero sel p'
   = Binary64.Holding.mk (Binary64.add (Binary64.Holding.quantity h) q)
       (Binary64.div
          (Binary64.add
             (Binary64.mul (Binary64.Holding.quantity h) (Binary64.Holding.avgCost h))
             (Binary64.mul price q))
          (Binary64.add (Binary64.Holding.quantity h) q))
   ∧ (Binary64.Holding.quantity h = Binary64.zero →
      Binary64.ltb Binary64.zero q = true →
      Binary64.ltb Binary64.zero price = true →
      Binary64.Portfolio.holding_or_zero sel p'
      = Binary64.Holding.mk q (Binary64.div (Binary64.mul price q) q)))
  ∧ (Binary64.setPortfolio
       (Binary64.handleTrade (Some u) assets sel p SELL q MARKET None w).1 = Some p' →
     Binary64.Portfolio.holding_or_zero sel p'
     = Binary64.Holding.mk (Binary64.sub (Binary64.Holding.quantity h) q)
         (Binary64.Holding.avgCost h)).
Proof.
  intros Ha Hp price h. split.
  - intros Hs.
    destruct (binary64_handleTrade_BUY u assets sel asset p q MARKET None w p'
                Ha Hp Hs) as (_ & Hh & _).
    cbn zeta in Hh. fold price in Hh. fold h in Hh.
    assert (Binary64.Portfolio.holding_or_zero sel p'
            = Binary64.Holding.mk (Binary64.add (Binary64.Holding.quantity h) q)
                (Binary64.div
                   (Binary64.add
                      (Binary64.mul (Binary64.Holding.quantity h)
                         (Binary64.Holding.avgCost h))
                      (Binary64.mul price q))
                   (Binary64.add (Binary64.Holding.quantity h) q))) as Hnew.
    { unfold Binary64.Portfolio.holding_or_zero at 1. by rewrite Hh, lookup_insert_eq. }
    split; [exact Hnew|]. intros H0 Hq Hprice. rewrite Hnew, H0.
    assert (q ≠ SpecFloat.S754_zero true) as Hq'.
    { by destruct (binary64_positive q Hq) as [->|(m & e & ->)]. }
    assert (∃ s, Binary64.mul Binary64.zero (Binary64.Holding.avgCost h)
                 = SpecFloat.S754_zero s) as [s ->].
    { pose proof (binary64_JSON_number_fixed _ (binary64_holding_fixed sel p Hp))
        as Hfin.
      fold h in Hfin. destruct Hfin as [->|(s & m & e & ->)]; by eexists. }
    rewrite (binary64_add_zero_l s) by by apply binary64_mul_positive.
    unfold Binary64.zero. by rewrite (binary64_add_zero_l false q).
  - intros Hs.
    destruct (binary64_handleTrade_SELL u assets sel asset p q MARKET None w p'
                Ha Hp Hs) as (Hh & _).
    cbn zeta in Hh. fold h in Hh.
    unfold Binary64.Portfolio.holding_or_zero at 1. by rewrite Hh, lookup_insert_eq.
Qed.

(** The scenario of the design document is exact on doubles: 10 units at 10
    and 10 units at 20 average to 15, and selling 5 units leaves 15 units at
    an average cost of 15. *)
Lemma average_cost_witness :
  Binary64.find_asset "CAR" [Binary64.carrot (Binary64.of_Z 20)]
  = Some (Binary64.carrot (Binary64.of_Z 20))
  ∧ Binary64.Portfolio.JSON_clone binary64_bought_10_at_10 = binary64_bought_10_at_10
  ∧ Binary64.Portfolio.JSON_clone binary64_bought_10_at_20 = binary64_bought_10_at_20
  ∧ Binary64.Portfolio.holding_or_zero "CAR" binary64_bought_10_at_10
    = Binary64.Holding.mk (Binary64.of_Z 10) (Binary64.of_Z 10)
  ∧ Binary64.Portfolio.holding_or_zero "CAR" binary64_bought_10_at_20
    = Binary64.Holding.mk (Binary64.of_Z 20) (Binary64.of_Z 15)
  ∧ Binary64.Portfolio.holding_or_zero "CAR" binary64_sold_5
    = Binary64.Holding.mk (Binary64.of_Z 15) (Binary64.of_Z 15).
Proof.
  assert (Binary64.Portfolio.JSON_clone binary64_bought_10_at_10
          = binary64_bought_10_at_10) as Hp1 by (vm_compute; reflexivity).
  assert (Binary64.Portfolio.JSON_clone binary64_bought_10_at_20
          = binary64_bought_10_at_20) as Hp2 by (vm_compute; reflexivity).
  assert (Binary64.setPortfolio
            (Binary64.handleTrade (Some demo_user) [Binary64.carrot (Binary64.of_Z 20)]
               "CAR" binary64_bought_10_at_10 BUY (Binary64.of_Z 10) MARKET None
               demo_world).1 = Some binary64_bought_10_at_20) as Hbuy
    by (vm_compute; reflexivity).
  assert (Binary64.setPortfolio
            (Binary64.handleTrade (Some demo_user) [Binary64.carrot (Binary64.of_Z 20)]
               "CAR" binary64_bought_10_at_20 SELL (Binary64.of_Z 5) MARKET None
               demo_world).1 = Some binary64_sold_5) as Hsell
    by (vm_compute; reflexivity).
  destruct (average_cost demo_user [Binary64.carrot (Binary64.of_Z 20)] "CAR"
              (Binary64.carrot (Binary64.of_Z 20)) binary64_bought_10_at_10
              (Binary64.of_Z 10) demo_world binary64_bought_10_at_20 eq_refl Hp1)
    as [HB _].
  destruct (average_cost demo_user [Binary64.carrot (Binary64.of_Z 20)] "CAR"
              (Binary64.carrot (Binary64.of_Z 20)) binary64_bought_10_at_20
              (Binary64.of_Z 5) demo_world binary64_sold_5 eq_refl Hp2)
    as [_ HS].
  assert (Binary64.setPortfolio
            (Binary64.handleTrade (Some demo_user) [Binary64.carrot (Binary64.of_Z 10)]
               "CAR" Binary64.DEFAULT_PORTFOLIO_DATA BUY (Binary64.of_Z 10) MARKET None
               demo_world).1 = Some binary64_bought_10_at_10) as Hfirst
    by (vm_compute; reflexivity).
  destruct (average_cost demo_user [Binary64.carrot (Binary64.of_Z 10)] "CAR"
              (Binary64.carrot (Binary64.of_Z 10)) Binary64.DEFAULT_PORTFOLIO_DATA
              (Binary64.of_Z 10) demo_world binary64_bought_10_at_10 eq_refl
              ltac:(vm_compute; reflexivity))
    as [HF _].
  split; [reflexivity|]. split; [exact Hp1|]. split; [exact Hp2|]. split; [|split].
  - rewrite (proj2 (HF Hfirst) eq_refl eq_refl eq_refl). vm_compute. reflexivity.
  - rewrite (proj1 (HB Hbuy)). vm_compute. reflexivity.
  - rewrite (HS Hsell). vm_compute. reflexivity.
Defined.

(** The first purchase at exactly the purchase price, as the design document
    states it, fails on doubles.  Buying 3 carrots at their initial price of
    45.20 into the empty holding of the default ledger stores
    45.20000000000001 as average cost, the double just above the price. *)
Lemma average_cost_rounds :
  Binary64.setPortfolio
    (Binary64.handleTrade (Some demo_user) [Binary64.carrot (Binary64.cents 4520)]
       "CAR" Binary64.DEFAULT_PORTFOLIO_DATA BUY (Binary64.of_Z 3) MARKET None
       demo_world).1 = Some binary64_bought_3
  ∧ Binary64.Holding.quantity
      (Binary64.Portfolio.holding_or_zero "CAR" Binary64.DEFAULT_PORTFOLIO_DATA)
    = Binary64.zero
  ∧ Binary64.Asset.current_price (Binary64.carrot (Binary64.cents 4520))
    = SpecFloat.S754_finite false 6361334473660826 (-47)
  ∧ Binary64.Holding.avgCost (Binary64.Portfolio.holding_or_zero "CAR" binary64_bought_3)
    = SpecFloat.S754_finite false 6361334473660827 (-47)
  ∧ Binary64.Holding.avgCost (Binary64.Portfolio.holding_or_zero "CAR" binary64_bought_3)
    ≠ Binary64.Asset.current_price (Binary64.carrot (Binary64.cents 4520)).
Proof.
  assert (Binary64.Asset.current_price (Binary64.carrot (Binary64.cents 4520))
          = SpecFloat.S754_finite false 6361334473660826 (-47)) as H0
    by (vm_compute; reflexivity).
  assert (Binary64.Holding.avgCost
            (Binary64.Portfolio.holding_or_zero "CAR" binary64_bought_3)
          = SpecFloat.S754_finite false 6361334473660827 (-47)) as H1
    by (vm_compute; reflexivity).
  split; [vm_compute; reflexivity|]. split; [vm_compute; reflexivity|].
  split; [exact H0|]. split; [exact H1|]. rewrite H0, H1. discriminate.
Qed.

(** * Further properties of the code *)

(** ** Sessions *)

(** X1. In a session without an authenticated user no sequence of ticks,
    submitted forms, cancellations and selections changes the ledger: the
    tick skips the matching, [handleTrade] stops at its alert and
    [handleCancelOrder] returns at once. *)
Theorem guest_session_frozen s s' :
  user s = None → rtc step s s' →
  portfolio s' = portfolio s ∧ user s' = None.
Proof.
  intros Hu Hsteps. induction Hsteps as [s|s s1 s' Hstep _ IH]; [done|].
  destruct (guest_ledger_frozen s s1 Hu Hstep) as [Hp Hu1].
  destruct (IH Hu1) as [Hp' Hu']. split; [congruence|done].
Qed.

Lemma guest_session_frozen_witness :
  user guest_state = None
  ∧ rtc step guest_state guest_state_after_tick
  ∧ portfolio guest_state_after_tick = DEFAULT_PORTFOLIO_DATA.
Proof.
  assert (rtc step guest_state guest_state_after_tick) as Hsteps.
  { apply rtc_once. exact (step_tick guest_state demo_world). }
  split; [reflexivity|]. split; [exact Hsteps|].
  exact (proj1 (guest_session_frozen guest_state guest_state_after_tick eq_refl Hsteps)).
Defined.

(** ** The transaction log *)

Lemma handleTrade_transactions user assets sel p side q ot lp w :
  Portfolio.transactions p
  `prefix_of` Portfolio.transactions
                (commit p (handleTrade user assets sel p side q ot lp w).1).
Proof.
  destruct user as [u|]; [|done].
  destruct (find_asset sel assets) as [asset|] eqn:Hf;
    [|unfold handleTrade; by rewrite Hf].
  destruct side.
  - pose proof (handleTrade_BUY u assets sel asset p q ot lp w Hf) as HB.
    cbn zeta in HB. case_bool_decide.
    + destruct HB as (Hs & _). unfold commit. by rewrite Hs.
    + destruct HB as (p' & Hs & _ & _ & Hrest). unfold commit. rewrite Hs. cbn.
      destruct ot.
      * destruct Hrest as (_ & _ & ->). by apply prefix_app_r.
      * destruct Hrest as (_ & -> & _). done.
  - pose proof (handleTrade_SELL u assets sel asset p q ot lp w Hf) as HS.
    cbn zeta in HS. case_bool_decide.
    + destruct HS as (Hs & _). unfold commit. by rewrite Hs.
    + destruct HS as (p' & Hs & _ & _ & Hrest). unfold commit. rewrite Hs. cbn.
      destruct ot.
      * destruct Hrest as (_ & _ & ->). by apply prefix_app_r.
      * destruct Hrest as (_ & -> & _). done.
Qed.

Lemma handleSubmit_call asset p
  (trade : Side → Qc → OrderType → option Qc → World → Effects * World) f w :
  (handleSubmit asset p trade f w).1.2 = no_effects
  ∨ (handleSubmit asset p trade f w).1.2
    = (trade (mode f) (Qc_of_Z (default 0%Z (quantity f))) (orderType f)
         (match orderType f with
          | LIMIT => Some (default 0 (limitPrice f))
          | MARKET => None
          end) w).1.
Proof.
  unfold handleSubmit.
  destruct (bool_decide (Qc_of_Z (default 0%Z (quantity f)) ≤ 0)); [by left|].
  destruct (bool_decide (orderType f = LIMIT) && _); [by left|].
  destruct (bool_decide (mode f = BUY) && _); [by left|].
  destruct (bool_decide (mode f = SELL) && _); [by left|].
  right. by destruct (trade _ _ _ _ w).
Qed.

Lemma handleCancelOrder_transactions user p orderId w :
  Portfolio.transactions (commit p (handleCancelOrder user p orderId w).1)
  = Portfolio.transactions p.
Proof.
  unfold handleCancelOrder, JSON_clone. destruct user as [u|]; [|done].
  destruct (list_find _ _) as [[i o]|]; [|done].
  by destruct (LimitOrder.type o), (store_ok w).
Qed.

Lemma tick_transactions user p prevAssets w :
  Portfolio.transactions p
  `prefix_of` Portfolio.transactions (commit p (tick user p prevAssets w).1.2).
Proof.
  destruct user as [u|].
  - destruct (tick_matching u p prevAssets w) as (_ & _ & (txs & -> & _) & _).
    by apply prefix_app_r.
  - unfold tick. by destruct (advance prevAssets w).
Qed.

Lemma step_transactions s s' :
  step s s' →
  Portfolio.transactions (portfolio s) `prefix_of` Portfolio.transactions (portfolio s').
Proof.
  intros Hstep. destruct Hstep as [s w|s asset f w Hsel|s orderId w|s a Ha];
    cbn [portfolio].
  - apply tick_transactions.
  - destruct (handleSubmit_call asset (portfolio s) (onTrade s) f w) as [->| ->];
      [done|]. apply handleTrade_transactions.
  - by rewrite handleCancelOrder_transactions.
  - done.
Qed.

(** X2. The transaction log is append-only: after any sequence of ticks,
    submitted forms, cancellations and selections the log begins with the log
    it had before; no handler removes or rewrites a transaction. *)
Theorem transactions_append_only s s' :
  rtc step s s' →
  Portfolio.transactions (portfolio s) `prefix_of` Portfolio.transactions (portfolio s').
Proof.
  induction 1 as [s|s s1 s' Hstep _ IH]; [done|].
  etrans; [by apply step_transactions|done].
Qed.

Lemma transactions_append_only_witness :
  rtc step demo_state demo_state_after_buy
  ∧ Portfolio.transactions (portfolio demo_state)
    `prefix_of` Portfolio.transactions (portfolio demo_state_after_buy)
  ∧ length (Portfolio.transactions (portfolio demo_state_after_buy)) = 1%nat.
Proof.
  assert (rtc step demo_state demo_state_after_buy) as Hsteps.
  { apply rtc_once.
    exact (step_submit demo_state demo_asset form_buy_3 demo_world eq_refl). }
  split; [exact Hsteps|]. split; [|reflexivity].
  exact (transactions_append_only demo_state demo_state_after_buy Hsteps).
Defined.

(** ** Holdings and resting orders stay well formed *)

Lemma holding_or_zero_nonneg sel p :
  wf_holdings p → 0 ≤ Holding.quantity (Portfolio.holding_or_zero sel p).
Proof.
  intros Hwf. unfold Portfolio.holding_or_zero.
  destruct (Portfolio.holdings p !! sel) as [h|] eqn:Hh; cbn; [by eapply Hwf|].
  apply Qcle_refl.
Qed.

Lemma insert_nonneg (h : gmap string Holding.t) k x :
  (∀ j y, h !! j = Some y → 0 ≤ Holding.quantity y) →
  0 ≤ Holding.quantity x →
  ∀ j y, <[k := x]> h !! j = Some y → 0 ≤ Holding.quantity y.
Proof.
  intros Hh Hx j y [[_ <-]|[_ Hj]]%lookup_insert_Some; [done|by eapply Hh].
Qed.

Lemma handleTrade_wf user assets sel p side q ot lp w :
  wf_holdings p →
  Forall wf_order (Portfolio.openOrders p) →
  0 < q → (ot = LIMIT → 0 < default 0 lp) →
  let p' := commit p (handleTrade user assets sel p side q ot lp w).1 in
  wf_holdings p' ∧ Forall wf_order (Portfolio.openOrders p').
Proof.
  intros Hwf Ho Hq Hlp. cbn zeta.
  destruct user as [u|]; [|done].
  destruct (find_asset sel assets) as [asset|] eqn:Hf;
    [|unfold handleTrade; by rewrite Hf].
  pose proof (holding_or_zero_nonneg sel p Hwf) as Hheld.
  assert (ot = LIMIT → ∀ side', Forall wf_order
            (Portfolio.openOrders p
             ++ [LimitOrder.mk (generateId w).1 sel side' q (trade_price asset LIMIT lp)
                   (Date_now (generateId w).2)])) as Hnew.
  { intros Hot side'. apply Forall_app. split; [done|].
    constructor; [|done]. split; cbn; [done|by apply Hlp]. }
  destruct side.
  - pose proof (handleTrade_BUY u assets sel asset p q ot lp w Hf) as HB.
    cbn zeta in HB. case_bool_decide.
    + destruct HB as (Hs & _). unfold commit. by rewrite Hs.
    + destruct HB as (p' & Hs & _ & _ & Hrest). unfold commit. rewrite Hs. cbn.
      unfold wf_holdings. destruct ot.
      * destruct Hrest as (-> & -> & _). split; [|done].
        apply insert_nonneg; [exact Hwf|]. cbn.
        apply Qcplus_nonneg_nonneg; [done|by apply Qclt_le_weak].
      * destruct Hrest as (-> & _ & ->). split; [exact Hwf|by apply Hnew].
  - pose proof (handleTrade_SELL u assets sel asset p q ot lp w Hf) as HS.
    cbn zeta in HS. case_bool_decide as Hc.
    + destruct HS as (Hs & _). unfold commit. by rewrite Hs.
    + destruct HS as (p' & Hs & _ & Hh & Hrest). unfold commit. rewrite Hs. cbn.
      assert (wf_holdings p') as Hwf'.
      { unfold wf_holdings. rewrite Hh. apply insert_nonneg; [exact Hwf|]. cbn.
        by apply Qc_sub_nonneg. }
      split; [done|]. destruct ot.
      * by destruct Hrest as (_ & -> & _).
      * destruct Hrest as (_ & _ & ->). by apply Hnew.
Qed.

Lemma handleSubmit_wf s asset f w :
  wf_holdings (portfolio s) →
  Forall wf_order (Portfolio.openOrders (portfolio s)) →
  let p' := commit (portfolio s)
              (handleSubmit asset (portfolio s) (onTrade s) f w).1.2 in
  wf_holdings p' ∧ Forall wf_order (Portfolio.openOrders p').
Proof.
  intros Hwf Ho. cbn zeta. unfold handleSubmit.
  case_bool_decide as Hq; [done|].
  destruct (bool_decide (orderType f = LIMIT)
            && bool_decide (default 0 (limitPrice f) ≤ 0)) eqn:Hp; [done|].
  destruct (bool_decide (mode f = BUY) && _); [done|].
  destruct (bool_decide (mode f = SELL) && _); [done|].
  pose proof (handleTrade_wf (user s) (assets s) (selectedAssetId s) (portfolio s)
                (mode f) (Qc_of_Z (default 0%Z (quantity f))) (orderType f)
                (match orderType f with
                 | MARKET => None
                 | LIMIT => Some (default 0 (limitPrice f))
                 end) w Hwf Ho) as Hinv.
  cbn zeta in Hinv. unfold onTrade.
  destruct (handleTrade _ _ _ _ _ _ _ _ w) as [e w1]. cbn [fst snd] in *.
  apply Hinv.
  - by apply Qcnot_le_lt.
  - intros Ht. rewrite Ht in *. cbn.
    rewrite bool_decide_eq_true_2 in Hp by done. cbn in Hp.
    apply bool_decide_eq_false in Hp. by apply Qcnot_le_lt.
Qed.

Lemma handleCancelOrder_wf user p orderId w :
  wf_holdings p →
  Forall wf_order (Portfolio.openOrders p) →
  let p' := commit p (handleCancelOrder user p orderId w).1 in
  wf_holdings p' ∧ Forall wf_order (Portfolio.openOrders p').
Proof.
  intros Hwf Ho. cbn zeta. unfold handleCancelOrder, JSON_clone.
  destruct user as [u|]; [|done].
  destruct (list_find _ _) as [[i o]|] eqn:Hfind; [|done].
  apply list_find_Some in Hfind as (Hi & _ & _).
  assert (wf_order o) as [Hq _].
  { rewrite Forall_forall in Ho. apply Ho. by eapply list_elem_of_lookup_2. }
  assert (Forall wf_order (delete i (Portfolio.openOrders p))) as Hdel
    by (by apply Forall_delete).
  assert (∀ j y,
            <[LimitOrder.assetId o :=
                Holding.mk
                  (Holding.quantity (Portfolio.holding_or_zero (LimitOrder.assetId o) p)
                   + LimitOrder.quantity o)
                  (Holding.avgCost (Portfolio.holding_or_zero (LimitOrder.assetId o) p))]>
              (Portfolio.holdings p) !! j = Some y → 0 ≤ Holding.quantity y) as Hins.
  { apply insert_nonneg; [exact Hwf|]. cbn.
    apply Qcplus_nonneg_nonneg; [by apply holding_or_zero_nonneg|by apply Qclt_le_weak]. }
  destruct (LimitOrder.type o); destruct (store_ok w); cbn; done.
Qed.

Lemma applyFill_holdings os :
  Forall wf_order os → ∀ c (h : gmap string Holding.t),
  (∀ k x, h !! k = Some x → 0 ≤ Holding.quantity x) →
  ∀ k x, (fold_left applyFill os (c, h)).2 !! k = Some x → 0 ≤ Holding.quantity x.
Proof.
  induction 1 as [|o os [Hq Ht] _ IH]; intros c h Hh; [done|].
  cbn [fold_left]. unfold applyFill at 2.
  destruct (LimitOrder.type o); apply IH; [|done].
  apply insert_nonneg; [done|]. cbn.
  apply Qcplus_nonneg_nonneg; [|by apply Qclt_le_weak].
  destruct (h !! LimitOrder.assetId o) as [x|] eqn:Hx; cbn; [by eapply Hh|].
  apply Qcle_refl.
Qed.

Lemma tick_wf user p prevAssets w :
  wf_holdings p →
  Forall wf_order (Portfolio.openOrders p) →
  let p' := commit p (tick user p prevAssets w).1.2 in
  wf_holdings p' ∧ Forall wf_order (Portfolio.openOrders p').
Proof.
  intros Hwf Ho. cbn zeta. destruct user as [u|].
  - destruct (tick_matching u p prevAssets w) as (H1 & H2 & _).
    cbn zeta in H1, H2. split.
    + apply (f_equal snd) in H2. cbn [snd] in H2.
      unfold wf_holdings. rewrite H2.
      apply applyFill_holdings; [by apply Forall_filter_sub|exact Hwf].
    + rewrite H1. by apply Forall_filter_sub.
  - unfold tick. by destruct (advance prevAssets w).
Qed.

Lemma step_wf s s' :
  wf_holdings (portfolio s) ∧ Forall wf_order (Portfolio.openOrders (portfolio s)) →
  step s s' →
  wf_holdings (portfolio s') ∧ Forall wf_order (Portfolio.openOrders (portfolio s')).
Proof.
  intros [Hwf Ho] Hstep.
  destruct Hstep as [s w|s asset f w Hsel|s orderId w|s a Ha]; cbn [portfolio].
  - by apply tick_wf.
  - by apply handleSubmit_wf.
  - by apply handleCancelOrder_wf.
  - done.
Qed.

(** X3. From a ledger whose holdings are not negative and whose resting
    orders have positive quantities and target prices, every sequence of
    ticks, submitted forms, cancellations and selections ends in such a
    ledger: no holding is ever driven below zero (a sale or a SELL escrow
    never exceeds the units held) and no order with a non-positive quantity
    or price ever rests. *)
Theorem holdings_never_negative s s' :
  wf_holdings (portfolio s) →
  Forall wf_order (Portfolio.openOrders (portfolio s)) →
  rtc step s s' →
  wf_holdings (portfolio s') ∧ Forall wf_order (Portfolio.openOrders (portfolio s')).
Proof.
  intros Hwf Ho Hsteps.
  induction Hsteps as [s|s s1 s' Hstep _ IH]; [done|].
  destruct (step_wf s s1 (conj Hwf Ho) Hstep) as [Hwf1 Ho1]. by apply IH.
Qed.

Lemma default_ledger_holdings : wf_holdings DEFAULT_PORTFOLIO_DATA.
Proof.
  unfold wf_holdings, DEFAULT_PORTFOLIO_DATA. cbn [Portfolio.holdings].
  repeat (apply insert_nonneg; [|apply Qcle_refl]).
  intros j y Hj. by rewrite lookup_empty in Hj.
Qed.

Lemma holdings_never_negative_witness :
  wf_holdings (portfolio demo_state)
  ∧ Forall wf_order (Portfolio.openOrders (portfolio demo_state))
  ∧ rtc step demo_state demo_state_after_buy
  ∧ wf_holdings (portfolio demo_state_after_buy).
Proof.
  assert (Forall wf_order (Portfolio.openOrders (portfolio demo_state))) as Ho
    by constructor.
  assert (rtc step demo_state demo_state_after_buy) as Hsteps.
  { apply rtc_once.
    exact (step_submit demo_state demo_asset form_buy_3 demo_world eq_refl). }
  split; [exact default_ledger_holdings|]. split; [exact Ho|]. split; [exact Hsteps|].
  exact (proj1 (holdings_never_negative demo_state demo_state_after_buy
                  default_ledger_holdings Ho Hsteps)).
Defined.

(** ** The assets across ticks *)

(** What a tick keeps of an asset. *)
Lemma advanceAsset_identity asset w :
  let a' := (advanceAsset asset w).1 in
  Asset.id a' = Asset.id asset ∧ Asset.name a' = Asset.name asset
  ∧ Asset.icon a' = Asset.icon asset
  ∧ Asset.initial_price a' = Asset.initial_price asset.
Proof.
  cbn zeta. unfold advanceAsset.
  destruct (Math_random w) as [r w1]. by destruct (Math_random w1) as [r2 w2].
Qed.

Lemma find_asset_Forall2 k (l l' : list Asset.t) :
  Forall2 (λ old new, Asset.id new = Asset.id old) l l' →
  match find_asset k l, find_asset k l' with
  | Some old, Some new => Asset.id new = Asset.id old
  | None, None => True
  | _, _ => False
  end.
Proof.
  induction 1 as [|old new l l' Hid _ IH]; [done|].
  unfold find_asset in *. cbn. rewrite Hid.
  by destruct (bool_decide (Asset.id old = k)).
Qed.

(** X4. A tick keeps the list of assets as it is apart from prices and
    histories: the same number of assets, in the same order, each with its
    id, name, icon and initial price; so an id is found among the new assets
    exactly when it was found among the old ones, and an order placed on a
    listed asset never loses its asset. *)
Theorem tick_keeps_assets user p prevAssets w :
  let newAssets := (tick user p prevAssets w).1.1 in
  Forall2 (λ old new,
             Asset.id new = Asset.id old ∧ Asset.name new = Asset.name old
             ∧ Asset.icon new = Asset.icon old
             ∧ Asset.initial_price new = Asset.initial_price old)
    prevAssets newAssets
  ∧ ∀ k, is_Some (find_asset k newAssets) ↔ is_Some (find_asset k prevAssets).
Proof.
  cbn zeta. rewrite tick_assets.
  assert (Forall2 (λ old new,
             Asset.id new = Asset.id old ∧ Asset.name new = Asset.name old
             ∧ Asset.icon new = Asset.icon old
             ∧ Asset.initial_price new = Asset.initial_price old)
            prevAssets (advance prevAssets w).1) as HF.
  { apply (mapW_Forall2 (λ _, True)); [|done].
    intros asset w1 _. split; [|done]. apply advanceAsset_identity. }
  split; [exact HF|]. intros k.
  assert (Forall2 (λ old new, Asset.id new = Asset.id old)
            prevAssets (advance prevAssets w).1) as Hid.
  { eapply Forall2_impl; [exact HF|]. by intros old new (? & _). }
  pose proof (find_asset_Forall2 k _ _ Hid) as Hk.
  destruct (find_asset k prevAssets), (find_asset k (advance prevAssets w).1);
    try done; split; intros [? ?]; done.
Qed.

Lemma advanceAsset_ok asset w : asset_ok asset → asset_ok (advanceAsset asset w).1.
Proof.
  intros (_ & _ & Hh). unfold advanceAsset.
  destruct (Math_random w) as [r w1]. destruct (Math_random w1) as [r2 w2].
  assert (0 < Math_max (dec 1 100)
                (Asset.current_price asset
                 * (1 + (r * (dec 2 100 * 2) - dec 2 100)))) as Hpos.
  { eapply Qclt_le_trans; [apply floor_positive|apply Math_max_lb_l]. }
  unfold asset_ok. cbn [fst Asset.current_price Asset.history]. split_and!.
  - exact Hpos.
  - by rewrite last_snoc.
  - apply Forall_app. split; [by apply Forall_drop|]. by constructor.
Qed.

Lemma advance_ok prevAssets w :
  Forall asset_ok prevAssets → Forall asset_ok (advance prevAssets w).1.
Proof.
  intros Hok.
  apply (Forall2_transfer (λ old new, asset_ok old → asset_ok new) asset_ok asset_ok
           prevAssets); [by intros a b Hab Ha; apply Hab| |exact Hok].
  apply (mapW_Forall2 (λ _, True)); [|done].
  intros asset w1 _. split; [|done]. apply advanceAsset_ok.
Qed.

Lemma initialHistory_prices a w :
  Forall (λ pt, HistoryPoint.price pt = seed_initial_price a) (initialHistory a w).1
  ∧ length (initialHistory a w).1 = HISTORY_POINTS.
Proof.
  unfold initialHistory. split.
  - apply (Forall2_right_Forall (A:=nat) _ (seq 0 HISTORY_POINTS)).
    apply (mapW_Forall2 (λ _, True)); [|done].
    intros i w1 _. split; [|done]. by destruct (Math_random w1).
  - by rewrite mapW_length, length_seq.
Qed.

Lemma initialAssets_ok w : Forall asset_ok (initialAssets w).1.
Proof.
  unfold initialAssets.
  apply (Forall2_transfer
           (λ (a : AssetSeed) (x : Asset.t),
              Asset.current_price x = seed_initial_price a
              ∧ Forall (λ pt, HistoryPoint.price pt = seed_initial_price a)
                  (Asset.history x)
              ∧ length (Asset.history x) = HISTORY_POINTS)
           (λ a, 0 < seed_initial_price a) _ INITIAL_ASSETS);
    [| |exact INITIAL_ASSETS_positive].
  - intros a x (Hp & Hh & Hlen) Ha. unfold asset_ok. rewrite Hp. split_and!.
    + done.
    + rewrite last_lookup, Hlen. rewrite Forall_lookup in Hh.
      destruct (Asset.history x !! pred HISTORY_POINTS) as [pt|] eqn:Hpt.
      * cbn. by rewrite (Hh _ _ Hpt).
      * apply lookup_ge_None in Hpt. rewrite Hlen in Hpt.
        unfold HISTORY_POINTS in Hpt. cbn in Hpt. lia.
    + eapply Forall_impl; [exact Hh|]. by intros pt ->.
  - apply (mapW_Forall2 (λ _, True)); [|done].
    intros a w1 _. split; [|done].
    destruct (initialHistory_prices a w1) as [Hh Hlen].
    by destruct (initialHistory a w1).
Qed.

(** X5. From the initial assets, after any number of ticks every asset has a
    positive price, that price is the price of the newest point of its
    history, and every point of its history has a positive price (so the
    percentage change never divides by zero). *)
Theorem assets_stay_ok user inputs w0 :
  Forall asset_ok (run_ticks user inputs (initialAssets w0).1).
Proof.
  induction inputs as [|pw inputs IH] using rev_ind; [apply initialAssets_ok|].
  rewrite run_ticks_snoc. by apply advance_ok.
Qed.

Lemma percent_sign (x s : Qc) :
  0 < s → 0 ≤ (x - s) / s * Qc_of_Z 100 ↔ s ≤ x.
Proof.
  intros Hs.
  assert (0 < / s * Qc_of_Z 100) as Hc.
  { apply Qcmult_pos_pos; [by apply Qcinv_pos|qc_eval]. }
  replace ((x - s) / s * Qc_of_Z 100) with ((x - s) * (/ s * Qc_of_Z 100))
    by (unfold Qcdiv; ring).
  rewrite <-(Qcmult_0_l (/ s * Qc_of_Z 100)) at 1.
  rewrite <-(Qcmult_le_mono_pos_r 0 (x - s) _ Hc).
  split; intros H; qc_lra.
Qed.

(** X6. After a tick the displayed change of an asset is the percentage
    change from the oldest point its history retains (the first point of the
    new history) to the new price; when that oldest price is positive the
    asset is shown as positive exactly when the new price is at least the
    oldest retained price. *)
Theorem change24h_window user p prevAssets w :
  Forall
    (λ new,
       ∃ oldest,
         head (Asset.history new) = Some oldest
         ∧ Asset.change24h new
           = (Asset.current_price new - HistoryPoint.price oldest)
             / HistoryPoint.price oldest * Qc_of_Z 100
         ∧ (0 < HistoryPoint.price oldest →
            (isPositive new ↔ HistoryPoint.price oldest ≤ Asset.current_price new)))
    (tick user p prevAssets w).1.1.
Proof.
  rewrite tick_assets.
  apply (Forall2_right_Forall (A:=Asset.t) _ prevAssets).
  apply (mapW_Forall2 (λ _, True)); [|done].
  intros asset w1 _. split; [|done]. unfold advanceAsset.
  destruct (Math_random w1) as [r w2]. destruct (Math_random w2) as [r2 w3].
  cbn [fst]. unfold isPositive.
  cbn [Asset.history Asset.change24h Asset.current_price].
  set (pt := HistoryPoint.mk _ _ _).
  destruct (drop 1 (Asset.history asset) ++ [pt]) as [|oldest rest] eqn:Hh.
  { by destruct (drop 1 (Asset.history asset)). }
  exists oldest. cbn [head hd]. split_and!; [done|done|].
  intros Hpos. rewrite bool_decide_spec. by apply percent_sign.
Qed.

Lemma change24h_window_witness :
  Forall
    (λ new,
       ∃ oldest,
         head (Asset.history new) = Some oldest
         ∧ Asset.change24h new
           = (Asset.current_price new - HistoryPoint.price oldest)
             / HistoryPoint.price oldest * Qc_of_Z 100
         ∧ (0 < HistoryPoint.price oldest →
            (isPositive new ↔ HistoryPoint.price oldest ≤ Asset.current_price new)))
    (tick None DEFAULT_PORTFOLIO_DATA [demo_asset] demo_world).1.1.
Proof.
  exact (change24h_window None DEFAULT_PORTFOLIO_DATA [demo_asset] demo_world).
Defined.

(** ** Cancelling, in general *)

(** X7. [handleCancelOrder] of an authenticated session stores a ledger
    exactly when some open order carries the given id; when none does (or
    when no user is authenticated) it does nothing at all: no stored ledger,
    no persistence write, no toast, no random draw. *)
Theorem cancel_unknown_order user p orderId w :
  (∀ u, user = Some u →
     (is_Some (setPortfolio (handleCancelOrder user p orderId w).1)
      ↔ ∃ o, o ∈ Portfolio.openOrders p ∧ LimitOrder.id o = orderId))
  ∧ (user = None ∨ (∀ o, o ∈ Portfolio.openOrders p → LimitOrder.id o ≠ orderId) →
     handleCancelOrder user p orderId w = (no_effects, w)).
Proof.
  split.
  - intros u ->. unfold handleCancelOrder, JSON_clone.
    destruct (list_find _ _) as [[i o]|] eqn:Hfind.
    + apply list_find_Some in Hfind as (Hi & Hid & _). split.
      * intros _. exists o. split; [by eapply list_elem_of_lookup_2|done].
      * intros _. by destruct (LimitOrder.type o), (store_ok w).
    + split; [by intros [? ?]|].
      intros (o & Ho & Hid). apply list_find_None in Hfind.
      rewrite Forall_forall in Hfind. by destruct (Hfind o Ho).
  - intros [->|Hnone]; [done|]. unfold handleCancelOrder, JSON_clone.
    destruct user as [u|]; [|done].
    rewrite (proj2 (list_find_None (λ o, LimitOrder.id o = orderId)
                      (Portfolio.openOrders p))); [done|].
    apply Forall_forall. intros o Ho. by apply Hnone.
Qed.

Lemma cancel_unknown_order_witness :
  (∀ o, o ∈ Portfolio.openOrders demo_ledger → LimitOrder.id o ≠ "o9")
  ∧ handleCancelOrder (Some demo_user) demo_ledger "o9" demo_world
    = (no_effects, demo_world).
Proof.
  assert (∀ o, o ∈ Portfolio.openOrders demo_ledger → LimitOrder.id o ≠ "o9") as Hnone.
  { intros o Ho. cbn in Ho.
    apply elem_of_cons in Ho as [->|Ho]; [done|].
    apply list_elem_of_singleton in Ho as ->. done. }
  split; [exact Hnone|].
  exact (proj2 (cancel_unknown_order (Some demo_user) demo_ledger "o9" demo_world)
           (or_intror Hnone)).
Defined.

(** X8. When an open order carries the id, the ledger [handleCancelOrder]
    stores lacks exactly the first such order: the other orders are kept in
    their order, the transactions are untouched, and only the escrow moves:
    a BUY order's [quantity * targetPrice] goes back to cash (holdings
    untouched), a SELL order's [quantity] goes back to the holding of its
    asset, whose average cost is kept (cash untouched). *)
Theorem cancel_effect u p orderId w o :
  o ∈ Portfolio.openOrders p → LimitOrder.id o = orderId →
  ∃ p' i first,
    setPortfolio (handleCancelOrder (Some u) p orderId w).1 = Some p'
    ∧ writes (handleCancelOrder (Some u) p orderId w).1 = [(uid u, p')]
    ∧ Portfolio.openOrders p !! i = Some first
    ∧ LimitOrder.id first = orderId
    ∧ (∀ j other, Portfolio.openOrders p !! j = Some other → (j < i)%nat →
                  LimitOrder.id other ≠ orderId)
    ∧ Portfolio.openOrders p' = delete i (Portfolio.openOrders p)
    ∧ S (length (Portfolio.openOrders p')) = length (Portfolio.openOrders p)
    ∧ Portfolio.transactions p' = Portfolio.transactions p
    ∧ match LimitOrder.type first with
      | BUY =>
          Portfolio.cashBalance p'
          = Portfolio.cashBalance p
            + LimitOrder.quantity first * LimitOrder.targetPrice first
          ∧ Portfolio.holdings p' = Portfolio.holdings p
      | SELL =>
          Portfolio.cashBalance p' = Portfolio.cashBalance p
          ∧ Portfolio.holdings p'
            = <[LimitOrder.assetId first :=
                  Holding.mk
                    (Holding.quantity
                       (Portfolio.holding_or_zero (LimitOrder.assetId first) p)
                     + LimitOrder.quantity first)
                    (Holding.avgCost
                       (Portfolio.holding_or_zero (LimitOrder.assetId first) p))]>
                (Portfolio.holdings p)
      end.
Proof.
  intros Ho Hid. unfold handleCancelOrder, JSON_clone.
  destruct (list_find (λ o, LimitOrder.id o = orderId) (Portfolio.openOrders p))
    as [[i first]|] eqn:Hfind.
  2:{ apply list_find_None in Hfind. rewrite Forall_forall in Hfind.
      by destruct (Hfind o Ho). }
  apply list_find_Some in Hfind as (Hi & Hfirst & Hleast).
  assert (S (length (delete i (Portfolio.openOrders p)))
          = length (Portfolio.openOrders p)) as Hlen.
  { rewrite length_delete by (by eexists).
    apply lookup_lt_Some in Hi. lia. }
  destruct (LimitOrder.type first) eqn:Ht; destruct (store_ok w); cbn;
    eexists _, i, first; rewrite Ht; split_and!; try done.
Qed.

Lemma cancel_effect_witness :
  sell_order ∈ Portfolio.openOrders demo_ledger
  ∧ LimitOrder.id sell_order = "o2"
  ∧ ∃ p', setPortfolio (handleCancelOrder (Some demo_user) demo_ledger "o2" demo_world).1
          = Some p'
          ∧ Portfolio.openOrders p' = [buy_order]
          ∧ Portfolio.holding_or_zero "TOM" p' = Holding.mk (Qc_of_Z 10) (Qc_of_Z 8).
Proof.
  assert (sell_order ∈ Portfolio.openOrders demo_ledger) as Hs
    by (apply list_elem_of_further, list_elem_of_here).
  split; [exact Hs|]. split; [reflexivity|].
  destruct (cancel_effect demo_user demo_ledger "o2" demo_world sell_order Hs eq_refl)
    as (p' & i & first & Hset & _ & Hi & Hid & _ & Hdel & _ & _ & Hesc).
  assert (i = 1%nat ∧ first = sell_order) as [-> ->].
  { destruct i as [|[|i]]; cbn in Hi.
    - injection Hi as <-. discriminate Hid.
    - injection Hi as <-. done.
    - destruct i; discriminate Hi. }
  cbn in Hesc. destruct Hesc as [_ Hh].
  exists p'. split; [exact Hset|]. split; [exact Hdel|].
  unfold Portfolio.holding_or_zero at 1. rewrite Hh, lookup_insert_eq. cbn.
  f_equal. qc_same.
Defined.

(** ** Escrow and settlement agree *)

(** X9. Placing a limit order and having it filled by a later tick (in which
    no other open order executes) leaves the cash balance, the holdings and
    the open orders that a market trade of the same side and quantity at the
    target price would have left, and one more transaction in both cases:
    what is escrowed at placement and what is settled at the fill add up to
    the market trade. *)
Theorem limit_fill_equals_market_trade u assets assets_t sel asset asset_t
  p side q t w wm wt prevAssets p1 :
  find_asset sel assets = Some asset →
  find_asset sel assets_t = Some asset_t →
  Asset.current_price asset_t = t →
  setPortfolio (handleTrade (Some u) assets sel p side q LIMIT (Some t) w).1 = Some p1 →
  let r := tick (Some u) p1 prevAssets wt in
  (∀ o, o ∈ Portfolio.openOrders p → executes r.1.1 o = false) →
  executes r.1.1
    (LimitOrder.mk (generateId w).1 sel side q t (Date_now (generateId w).2)) →
  let filled := commit p1 r.1.2 in
  let traded := commit p (handleTrade (Some u) assets_t sel p side q MARKET None wm).1 in
  Portfolio.cashBalance filled = Portfolio.cashBalance traded
  ∧ Portfolio.holdings filled = Portfolio.holdings traded
  ∧ Portfolio.openOrders filled = Portfolio.openOrders traded
  ∧ length (Portfolio.transactions filled) = length (Portfolio.transactions traded).
Proof.
  intros Ha Hat Ht Hplaced r Hnone Hexec filled traded.
  destruct (tick_matching u p1 prevAssets wt) as (H1 & H2 & (txs & H3 & H4) & _).
  cbn zeta in H1, H2, H3, H4. fold r in H1, H2, H3, H4. fold filled in H1, H2, H3.
  set (o := LimitOrder.mk _ _ _ _ _ _) in Hexec.
  assert (∀ os, os = Portfolio.openOrders p →
            filter (λ o, executes r.1.1 o) (os ++ [o]) = [o]
            ∧ filter (λ o, ¬ executes r.1.1 o) (os ++ [o]) = os) as Hfilter.
  { intros os ->. rewrite !filter_app.
    rewrite (filter_executes_nil r.1.1 _ Hnone).
    rewrite (filter_none_keeps_all r.1.1 _ (filter_executes_nil r.1.1 _ Hnone)).
    rewrite filter_cons_True by done.
    rewrite filter_cons_False by (intros Hn; by apply Hn).
    by rewrite !filter_nil, app_nil_r. }
  destruct side.
  - pose proof (handleTrade_BUY u assets sel asset p q LIMIT (Some t) w Ha) as HL.
    pose proof (handleTrade_BUY u assets_t sel asset_t p q MARKET None wm Hat) as HM.
    cbn zeta in HL, HM. unfold trade_price in HL, HM.
    change (default 0 (Some t)) with t in HL. rewrite Ht in HM.
    destruct (decide (Portfolio.cashBalance p < t * q)) as [Hc|Hc];
      [rewrite bool_decide_eq_true_2 in HL by done; destruct HL as [HL _];
       congruence|].
    rewrite bool_decide_eq_false_2 in HL by done.
    rewrite bool_decide_eq_false_2 in HM by done.
    destruct HL as (p' & Hs & _ & Hcash & Hh & Htx & Ho).
    destruct HM as (pm & Hsm & _ & Hcashm & Hhm & Hom & Htxm).
    assert (p' = p1) as -> by congruence.
    assert (traded = pm) as -> by (subst traded; unfold commit; by rewrite Hsm).
    fold o in Ho. destruct (Hfilter _ eq_refl) as [Hf1 Hf2].
    rewrite Ho in H1, H2, H4. rewrite Hf1 in H2, H4. rewrite Hf2 in H1.
    cbn [fold_left] in H2. unfold applyFill in H2. cbn in H2.
    injection H2 as Hc2 Hh2.
    apply Forall2_length in H4. cbn in H4.
    split_and!.
    + congruence.
    + rewrite Hh2, Hhm, Hh. unfold Portfolio.holding_or_zero.
      by rewrite (Qcmult_comm t q).
    + congruence.
    + rewrite H3, Htxm, Htx, !length_app, <-H4. done.
  - pose proof (handleTrade_SELL u assets sel asset p q LIMIT (Some t) w Ha) as HL.
    pose proof (handleTrade_SELL u assets_t sel asset_t p q MARKET None wm Hat) as HM.
    cbn zeta in HL, HM. unfold trade_price in HL, HM.
    change (default 0 (Some t)) with t in HL. rewrite Ht in HM.
    destruct (decide (Holding.quantity (Portfolio.holding_or_zero sel p) < q))
      as [Hc|Hc];
      [rewrite bool_decide_eq_true_2 in HL by done; destruct HL as [HL _];
       congruence|].
    rewrite bool_decide_eq_false_2 in HL by done.
    rewrite bool_decide_eq_false_2 in HM by done.
    destruct HL as (p' & Hs & _ & Hh & Hcash & Htx & Ho).
    destruct HM as (pm & Hsm & _ & Hhm & Hcashm & Hom & Htxm).
    assert (p' = p1) as -> by congruence.
    assert (traded = pm) as -> by (subst traded; unfold commit; by rewrite Hsm).
    fold o in Ho. destruct (Hfilter _ eq_refl) as [Hf1 Hf2].
    rewrite Ho in H1, H2, H4. rewrite Hf1 in H2, H4. rewrite Hf2 in H1.
    cbn [fold_left] in H2. unfold applyFill in H2. cbn in H2.
    injection H2 as Hc2 Hh2.
    apply Forall2_length in H4. cbn in H4.
    split_and!.
    + rewrite Hc2, Hcashm, Hcash. by rewrite (Qcmult_comm t q).
    + congruence.
    + congruence.
    + rewrite H3, Htxm, Htx, !length_app, <-H4. done.
Qed.

Lemma limit_fill_equals_market_trade_witness :
  setPortfolio
    (handleTrade (Some demo_user) [demo_asset] "TOM" scenario_bought
       SELL (Qc_of_Z 50) LIMIT (Some (Qc_of_Z 12)) demo_world).1
  = Some scenario_resting
  ∧ Portfolio.cashBalance scenario_filled = Portfolio.cashBalance scenario_sold_at_market
  ∧ Portfolio.holdings scenario_filled = Portfolio.holdings scenario_sold_at_market
  ∧ Portfolio.openOrders scenario_filled = Portfolio.openOrders scenario_sold_at_market.
Proof.
  assert (setPortfolio
            (handleTrade (Some demo_user) [demo_asset] "TOM" scenario_bought
               SELL (Qc_of_Z 50) LIMIT (Some (Qc_of_Z 12)) demo_world).1
          = Some scenario_resting) as Hplaced by (vm_compute; reflexivity).
  split; [exact Hplaced|].
  assert (∀ o, o ∈ Portfolio.openOrders scenario_bought →
               executes (tick (Some demo_user) scenario_resting [demo_asset_1250]
                           demo_world).1.1 o = false) as Hnone.
  { assert (Portfolio.openOrders scenario_bought = []) as -> by (vm_compute; reflexivity).
    intros o Ho. by apply not_elem_of_nil in Ho. }
  assert (Is_true
            (executes (tick (Some demo_user) scenario_resting [demo_asset_1250]
                         demo_world).1.1
               (LimitOrder.mk (generateId demo_world).1 "TOM" SELL (Qc_of_Z 50)
                  (Qc_of_Z 12) (Date_now (generateId demo_world).2)))) as Hexec
    by (vm_compute; exact I).
  destruct (limit_fill_equals_market_trade demo_user [demo_asset] [demo_asset_12]
              "TOM" demo_asset demo_asset_12 scenario_bought SELL (Qc_of_Z 50)
              (Qc_of_Z 12) demo_world demo_world demo_world [demo_asset_1250]
              scenario_resting eq_refl eq_refl eq_refl Hplaced Hnone Hexec)
    as (Hc & Hh & Ho & _).
  split; [exact Hc|]. split; [exact Hh|exact Ho].
Defined.

(** ** The form and the handler together *)

Lemma commitTrade_messages u np ot w :
  messages (commitTrade u np ot w).1
  = [if store_ok w
     then (match ot with MARKET => "Trade executed" | LIMIT => "Order placed" end)
          +:+ " successfully"
     else "Trade failed"].
Proof.
  unfold commitTrade, messages. destruct (store_ok w).
  - pose proof (addNotification_message
                  ((match ot with MARKET => "Trade executed" | LIMIT => "Order placed" end)
                   +:+ " successfully") success w) as Hm.
    destruct (addNotification _ success w). cbn in *. by rewrite Hm.
  - pose proof (addNotification_message "Trade failed" info w) as Hm.
    destruct (addNotification _ info w). cbn in *. by rewrite Hm.
Qed.

(** The toast of a request that [handleTrade] accepts. *)
Lemma handleTrade_accepted_messages u assets sel p side q ot lp w p' :
  setPortfolio (handleTrade (Some u) assets sel p side q ot lp w).1 = Some p' →
  messages (handleTrade (Some u) assets sel p side q ot lp w).1
  = [if store_ok w
     then (match ot with MARKET => "Trade executed" | LIMIT => "Order placed" end)
          +:+ " successfully"
     else "Trade failed"].
Proof.
  unfold handleTrade, JSON_clone.
  destruct (find_asset sel assets) as [asset|]; [|done].
  assert (store_ok (generateId w).2 = store_ok w) as Hok by done.
  destruct side; case_bool_decide;
    try (destruct (addNotification _ info w); done);
    destruct ot; destruct (generateId w) as [id w1]; intros _;
    cbn -[commitTrade messages]; rewrite commitTrade_messages;
    cbn [snd] in Hok; by rewrite Hok.
Qed.

(** X10. The form's checks cover the handler's: for an authenticated session
    whose selected asset is in the list, a submitted form ends without an
    error message exactly when [handleTrade] stores a ledger; a form that is
    refused has no effect at all; and the handler's own refusals
    ("Insufficient funds", "Insufficient holdings" as toasts) are never
    reached through the form. *)
Theorem form_accepts_then_stored u assets sel asset p f w :
  find_asset sel assets = Some asset →
  let r := handleSubmit asset p (handleTrade (Some u) assets sel p) f w in
  (r.1.1 = None ↔ is_Some (setPortfolio r.1.2))
  ∧ (r.1.1 ≠ None → r.1.2 = no_effects ∧ r.2 = w)
  ∧ messages r.1.2 ≠ [InsufficientFunds]
  ∧ messages r.1.2 ≠ [InsufficientHoldings].
Proof.
  intros Ha. destruct (find_asset_Some _ _ _ Ha) as [Hid _]. cbn zeta.
  unfold handleSubmit. rewrite Hid.
  set (n := Qc_of_Z (default 0%Z (quantity f))).
  set (lp := default 0 (limitPrice f)).
  case_bool_decide as Hq; [by split_and!; [split; [|intros [? ?]]|..]|].
  destruct (bool_decide (orderType f = LIMIT) && bool_decide (lp ≤ 0)) eqn:Hp;
    [by split_and!; [split; [|intros [? ?]]|..]|].
  destruct (bool_decide (mode f = BUY) && _) eqn:Hb;
    [by split_and!; [split; [|intros [? ?]]|..]|].
  destruct (bool_decide (mode f = SELL) && _) eqn:Hs;
    [by split_and!; [split; [|intros [? ?]]|..]|].
  assert (trade_price asset (orderType f)
            (match orderType f with LIMIT => Some lp | MARKET => None end)
          = match orderType f with
            | MARKET => Asset.current_price asset
            | LIMIT => lp
            end) as Hprice by (by destruct (orderType f)).
  assert (∃ p', setPortfolio
                  (handleTrade (Some u) assets sel p (mode f) n (orderType f)
                     (match orderType f with LIMIT => Some lp | MARKET => None end)
                     w).1 = Some p') as [p' Hp'].
  { destruct (mode f) eqn:Hm.
    - pose proof (handleTrade_BUY u assets sel asset p n (orderType f)
                    (match orderType f with LIMIT => Some lp | MARKET => None end)
                    w Ha) as HB.
      cbn zeta in HB. rewrite Hprice in HB.
      rewrite bool_decide_eq_true_2 in Hb by done. cbn in Hb.
      apply negb_false_iff, bool_decide_eq_true in Hb.
      rewrite bool_decide_eq_false_2 in HB
        by (rewrite Qcmult_comm; by apply Qcle_not_lt).
      destruct HB as (p' & Hs' & _). by exists p'.
    - pose proof (handleTrade_SELL u assets sel asset p n (orderType f)
                    (match orderType f with LIMIT => Some lp | MARKET => None end)
                    w Ha) as HS.
      cbn zeta in HS.
      rewrite bool_decide_eq_true_2 in Hs by done. cbn in Hs.
      apply negb_false_iff, bool_decide_eq_true in Hs.
      rewrite bool_decide_eq_false_2 in HS by (by apply Qcle_not_lt).
      destruct HS as (p' & Hs' & _). by exists p'. }
  pose proof (handleTrade_accepted_messages _ _ _ _ _ _ _ _ _ _ Hp') as Hmsg.
  destruct (handleTrade (Some u) assets sel p (mode f) n (orderType f) _ w)
    as [e w1].
  cbn [fst snd] in *. split_and!.
  - split; [intros _; by rewrite Hp'|done].
  - done.
  - rewrite Hmsg. by destruct (store_ok w), (orderType f).
  - rewrite Hmsg. by destruct (store_ok w), (orderType f).
Qed.

Lemma form_accepts_then_stored_witness :
  find_asset "TOM" [demo_asset] = Some demo_asset
  ∧ (handleSubmit demo_asset DEFAULT_PORTFOLIO_DATA
       (handleTrade (Some demo_user) [demo_asset] "TOM" DEFAULT_PORTFOLIO_DATA)
       form_buy_3 demo_world).1.1 = None
  ∧ is_Some
      (setPortfolio
         (handleSubmit demo_asset DEFAULT_PORTFOLIO_DATA
            (handleTrade (Some demo_user) [demo_asset] "TOM" DEFAULT_PORTFOLIO_DATA)
            form_buy_3 demo_world).1.2).
Proof.
  assert ((handleSubmit demo_asset DEFAULT_PORTFOLIO_DATA
             (handleTrade (Some demo_user) [demo_asset] "TOM" DEFAULT_PORTFOLIO_DATA)
             form_buy_3 demo_world).1.1 = None) as Hnone by (vm_compute; reflexivity).
  split; [reflexivity|]. split; [exact Hnone|].
  exact (proj1 (proj1 (form_accepts_then_stored demo_user [demo_asset] "TOM" demo_asset
                         DEFAULT_PORTFOLIO_DATA form_buy_3 demo_world eq_refl))
           Hnone).
Defined.

(** ** Persistence failures *)

(** X11. The ledger [handleTrade] and [handleCancelOrder] store, and the
    write they issue, do not depend on whether the remote write succeeds:
    both call [setPortfolio] before the write and never roll back.  A failed
    write only changes the toast: "Trade failed" after an accepted trade,
    none after a cancellation. *)
Theorem store_failure_keeps_ledger user assets sel p side q ot lp orderId w :
  let ok := with_store true w in
  let ko := with_store false w in
  (setPortfolio (handleTrade user assets sel p side q ot lp ko).1
   = setPortfolio (handleTrade user assets sel p side q ot lp ok).1
   ∧ writes (handleTrade user assets sel p side q ot lp ko).1
     = writes (handleTrade user assets sel p side q ot lp ok).1)
  ∧ (∀ u p', user = Some u →
       setPortfolio (handleTrade user assets sel p side q ot lp ko).1 = Some p' →
       messages (handleTrade user assets sel p side q ot lp ko).1 = ["Trade failed"])
  ∧ (setPortfolio (handleCancelOrder user p orderId ko).1
     = setPortfolio (handleCancelOrder user p orderId ok).1
     ∧ writes (handleCancelOrder user p orderId ko).1
       = writes (handleCancelOrder user p orderId ok).1
     ∧ notifications (handleCancelOrder user p orderId ko).1 = []).
Proof.
  cbn zeta. split; [|split].
  - unfold handleTrade, JSON_clone. destruct user as [u|]; [|done].
    destruct (find_asset sel assets) as [asset|]; [|done].
    destruct side; case_bool_decide; try done; by destruct ot.
  - intros u p' -> Hs.
    by rewrite (handleTrade_accepted_messages _ _ _ _ _ _ _ _ _ _ Hs).
  - unfold handleCancelOrder, JSON_clone. destruct user as [u|]; [|done].
    destruct (list_find _ _) as [[i o]|]; [|done]. by destruct (LimitOrder.type o).
Qed.

Lemma store_failure_keeps_ledger_witness :
  ∃ p', setPortfolio
          (handleTrade (Some demo_user) [demo_asset] "TOM" DEFAULT_PORTFOLIO_DATA
             BUY (Qc_of_Z 3) MARKET None (with_store false demo_world)).1 = Some p'
        ∧ messages
            (handleTrade (Some demo_user) [demo_asset] "TOM" DEFAULT_PORTFOLIO_DATA
               BUY (Qc_of_Z 3) MARKET None (with_store false demo_world)).1
          = ["Trade failed"].
Proof.
  destruct (setPortfolio
              (handleTrade (Some demo_user) [demo_asset] "TOM" DEFAULT_PORTFOLIO_DATA
                 BUY (Qc_of_Z 3) MARKET None (with_store false demo_world)).1)
    as [p'|] eqn:E; [|vm_compute in E; discriminate E].
  exists p'. split; [reflexivity|].
  exact (proj1 (proj2 (store_failure_keeps_ledger (Some demo_user) [demo_asset] "TOM"
                         DEFAULT_PORTFOLIO_DATA BUY (Qc_of_Z 3) MARKET None "o1"
                         demo_world))
           demo_user p' eq_refl E).
Defined.

(** ** The portfolio panel *)

Lemma gain_sign (x y : Qc) : 0 ≤ x - y ↔ y ≤ x.
Proof. split; intros H; qc_lra. Qed.

(** X14. A row of the holdings tab is shown for a holding with a non-zero
    quantity of a listed asset, and for no other.  The row is marked as a
    gain exactly when its cost basis [quantity * avgCost] is at most its
    current value [quantity * price]; so for a positive quantity a price
    that is at least the average cost always gives a gain, and a row marked
    as a loss has an average cost above the price. *)
Theorem holding_row assets id holding :
  (holdingRow assets id holding = None
   ↔ Holding.quantity holding = 0 ∨ find_asset id assets = None)
  ∧ ∀ asset row,
      find_asset id assets = Some asset →
      holdingRow assets id holding = Some row →
      (isGain row
       ↔ Holding.quantity holding * Holding.avgCost holding
         ≤ Holding.quantity holding * Asset.current_price asset)
      ∧ (0 < Holding.quantity holding →
         (Holding.avgCost holding ≤ Asset.current_price asset → isGain row)
         ∧ (¬ isGain row → Asset.current_price asset < Holding.avgCost holding)).
Proof.
  unfold holdingRow. split.
  - case_bool_decide as Hq; [by split; [left|]|].
    destruct (find_asset id assets); split; try done.
    + by intros [?|?].
    + by right.
  - intros asset row Ha. rewrite Ha. case_bool_decide as Hq; [done|].
    intros [= <-]. cbn.
    assert (bool_decide
              (0 ≤ Holding.quantity holding * Asset.current_price asset
                   - Holding.quantity holding * Holding.avgCost holding)
            ↔ Holding.quantity holding * Holding.avgCost holding
              ≤ Holding.quantity holding * Asset.current_price asset) as Hgain.
    { rewrite bool_decide_spec. apply gain_sign. }
    split; [exact Hgain|]. intros Hpos. split.
    + intros Hle. apply Hgain. by apply Qcmult_le_mono_pos_l.
    + intros Hloss. apply Qcnot_le_lt. intros Hle. apply Hloss, Hgain.
      by apply Qcmult_le_mono_pos_l.
Qed.

Lemma holding_row_witness :
  ∃ row,
    find_asset "TOM" [demo_asset] = Some demo_asset
    ∧ holdingRow [demo_asset] "TOM" (Holding.mk (Qc_of_Z 5) (Qc_of_Z 8)) = Some row
    ∧ 0 < Holding.quantity (Holding.mk (Qc_of_Z 5) (Qc_of_Z 8))
    ∧ isGain row.
Proof.
  destruct (holdingRow [demo_asset] "TOM" (Holding.mk (Qc_of_Z 5) (Qc_of_Z 8)))
    as [row|] eqn:E; [|vm_compute in E; discriminate E].
  assert (0 < Holding.quantity (Holding.mk (Qc_of_Z 5) (Qc_of_Z 8))) as Hq by qc_eval.
  destruct (proj2 (holding_row [demo_asset] "TOM" (Holding.mk (Qc_of_Z 5) (Qc_of_Z 8)))
              demo_asset row eq_refl E) as [_ Hgain].
  exists row. split; [reflexivity|]. split; [reflexivity|]. split; [exact Hq|].
  apply (Hgain Hq). qc_eval.
Defined.

(** ** Floors *)

Lemma floor_scale_range (r : Qc) (n : Z) :
  0 ≤ r → r < 1 → (0 < n)%Z →
  ∃ z : Z, Math_floor (r * Qc_of_Z n) = Qc_of_Z z ∧ (0 ≤ z < n)%Z.
Proof.
  intros H0 H1 Hn. exists (Qfloor (this (r * Qc_of_Z n)%Qc)). split; [reflexivity|].
  assert (0 ≤ r * Qc_of_Z n) as Hlo.
  { apply Qcmult_nonneg_nonneg; [done|]. apply Qclt_le_weak.
    by apply (proj1 (Qc_of_Z_pos n)). }
  assert (r * Qc_of_Z n < Qc_of_Z n) as Hhi.
  { rewrite <-(Qcmult_1_l (Qc_of_Z n)) at 2.
    apply Qcmult_lt_mono_pos_r; [by apply (proj1 (Qc_of_Z_pos n))|done]. }
  split.
  - change 0%Z with (Qfloor 0). apply Qfloor_resp_le. exact Hlo.
  - rewrite Zlt_Qlt. eapply Qle_lt_trans; [apply Qfloor_le|].
    unfold Qclt in Hhi. exact Hhi.
Qed.

(** ** The trade panel's hints and order book *)

Lemma scale_up (price c : Qc) : 0 < price → 1 < c → price < price * c.
Proof.
  intros Hp Hc. rewrite <-(Qcmult_1_r price) at 1.
  by apply Qcmult_lt_mono_pos_l.
Qed.

Lemma scale_down (price c : Qc) : 0 < price → c < 1 → price * c < price.
Proof.
  intros Hp Hc. rewrite <-(Qcmult_1_r price) at 2.
  by apply Qcmult_lt_mono_pos_l.
Qed.

Lemma book_size_range w :
  unit_random w →
  ∃ z : Z, Math_floor ((Math_random w).1 * Qc_of_Z 100) + Qc_of_Z 10 = Qc_of_Z z
           ∧ (10 ≤ z ≤ 109)%Z.
Proof.
  intros Hw. destruct (Math_random_range w Hw) as [H0 H1].
  destruct (floor_scale_range _ 100 H0 H1 ltac:(lia)) as (z & -> & Hz).
  exists (z + 10)%Z. split; [|lia].
  apply Qc_is_canon. unfold Qcplus. cbn [this Q2Qc Qc_of_Z]. rewrite Qred_correct.
  by rewrite inject_Z_plus.
Qed.

(** X16. For a positive price the simulated order book never crosses: it has
    five asks and five bids; the asks, listed from the best (lowest) upwards,
    are strictly increasing and all above the price; the bids, listed from
    the best (highest) downwards, are strictly decreasing and all below the
    price, so every bid is below every ask.  With [Math.random()] in the
    unit interval every size is a whole number from 10 to 109. *)
Theorem order_book_never_crosses price w :
  0 < price →
  let asks := (OrderBook_asks price w).1 in
  let bids := (OrderBook_bids price (OrderBook_asks price w).2).1 in
  length asks = 5%nat ∧ length bids = 5%nat
  ∧ Forall (λ l, price < level_price l) asks
  ∧ Forall (λ l, level_price l < price) bids
  ∧ ascending (level_price <$> asks)
  ∧ ascending (reverse (level_price <$> bids))
  ∧ (∀ a b, a ∈ asks → b ∈ bids → level_price b < level_price a)
  ∧ (unit_random w →
     Forall (λ l, ∃ z : Z, level_size l = Qc_of_Z z ∧ (10 ≤ z ≤ 109)%Z)
       (asks ++ bids)).
Proof.
  intros Hp. cbn zeta. unfold OrderBook_asks, OrderBook_bids. cbn [seq mapW].
  destruct (Math_random w) as [r1 w1] eqn:E1.
  destruct (Math_random w1) as [r2 w2] eqn:E2.
  destruct (Math_random w2) as [r3 w3] eqn:E3.
  destruct (Math_random w3) as [r4 w4] eqn:E4.
  destruct (Math_random w4) as [r5 w5] eqn:E5.
  cbn [fst snd].
  destruct (Math_random w5) as [r6 w6] eqn:E6.
  destruct (Math_random w6) as [r7 w7] eqn:E7.
  destruct (Math_random w7) as [r8 w8] eqn:E8.
  destruct (Math_random w8) as [r9 w9] eqn:E9.
  destruct (Math_random w9) as [r10 w10] eqn:E10.
  cbn [fst snd]. unfold reverse. cbn [rev_append fmap list_fmap level_price].
  assert (∀ r w' wn, unit_random w' → Math_random w' = (r, wn) →
            unit_random wn
            ∧ ∃ z : Z, Math_floor (r * Qc_of_Z 100) + Qc_of_Z 10 = Qc_of_Z z
                       ∧ (10 ≤ z ≤ 109)%Z) as Hsize.
  { intros r w' wn Hw E. split.
    - replace wn with (Math_random w').2 by by rewrite E.
      by apply Math_random_unit.
    - replace r with (Math_random w').1 by by rewrite E.
      by apply book_size_range. }
  match goal with |- _ ∧ _ ∧ Forall ?P ?asks ∧ Forall ?Q ?bids ∧ _ =>
    assert (Forall P asks) as Hasks
      by (repeat constructor; cbn [level_price]; (apply scale_up; [done|qc_eval]));
    assert (Forall Q bids) as Hbids
      by (repeat constructor; cbn [level_price]; (apply scale_down; [done|qc_eval]))
  end.
  split; [done|]. split; [done|]. split; [exact Hasks|]. split; [exact Hbids|].
  split.
  { cbn [ascending].
    repeat split; (apply Qcmult_lt_mono_pos_l; [done|qc_eval]). }
  split.
  { cbn [ascending rev rev_append app].
    repeat split; (apply Qcmult_lt_mono_pos_l; [done|qc_eval]). }
  split.
  { intros a b Ha Hb. apply Qclt_trans with price.
    - by apply (proj1 (Forall_forall _ _) Hbids).
    - by apply (proj1 (Forall_forall _ _) Hasks). }
  intros Hw.
  destruct (Hsize _ _ _ Hw E1) as [Hw1 ?].
  destruct (Hsize _ _ _ Hw1 E2) as [Hw2 ?].
  destruct (Hsize _ _ _ Hw2 E3) as [Hw3 ?].
  destruct (Hsize _ _ _ Hw3 E4) as [Hw4 ?].
  destruct (Hsize _ _ _ Hw4 E5) as [Hw5 ?].
  destruct (Hsize _ _ _ Hw5 E6) as [Hw6 ?].
  destruct (Hsize _ _ _ Hw6 E7) as [Hw7 ?].
  destruct (Hsize _ _ _ Hw7 E8) as [Hw8 ?].
  destruct (Hsize _ _ _ Hw8 E9) as [Hw9 ?].
  destruct (Hsize _ _ _ Hw9 E10) as [_ ?].
  cbn [app]. by repeat constructor.
Qed.



Lemma order_book_never_crosses_witness :
  0 < Qc_of_Z 120
  ∧ Forall (λ l, Qc_of_Z 120 < level_price l) (OrderBook_asks (Qc_of_Z 120) demo_world).1
  ∧ Forall (λ l, level_price l < Qc_of_Z 120)
      (OrderBook_bids (Qc_of_Z 120) (OrderBook_asks (Qc_of_Z 120) demo_world).2).1.
Proof.
  assert (0 < Qc_of_Z 120) as Hp by qc_eval.
  destruct (order_book_never_crosses (Qc_of_Z 120) demo_world Hp)
    as (_ & _ & Hasks & Hbids & _).
  split; [exact Hp|]. split; [exact Hasks|exact Hbids].
Defined.

(** ** The point a tick appends *)

Lemma advanceAsset_point w0 asset w :
  unit_random w ∧ now w = now w0 →
  (∃ pt z,
     last (Asset.history (advanceAsset asset w).1) = Some pt
     ∧ HistoryPoint.time pt = Date_now w0
     ∧ HistoryPoint.price pt = Asset.current_price (advanceAsset asset w).1
     ∧ HistoryPoint.volume pt = Qc_of_Z z ∧ (100 ≤ z ≤ 2099)%Z)
  ∧ (unit_random (advanceAsset asset w).2 ∧ now (advanceAsset asset w).2 = now w0).
Proof.
  intros [Hw Hnow]. unfold advanceAsset.
  destruct (Math_random w) as [r w1] eqn:E1.
  assert (unit_random w1 ∧ now w1 = now w0) as [Hw1 Hnow1].
  { replace w1 with (Math_random w).2 by by rewrite E1. done. }
  destruct (Math_random_range w1 Hw1) as [H0 H1].
  destruct (Math_random w1) as [r2 w2] eqn:E2. cbn [fst] in H0, H1.
  assert (unit_random w2 ∧ now w2 = now w0) as [Hw2 Hnow2].
  { replace w2 with (Math_random w1).2 by by rewrite E2. done. }
  cbn [fst snd Asset.history Asset.current_price]. split; [|done].
  destruct (floor_scale_range r2 2000 H0 H1 ltac:(lia)) as (z & Hz & Hr).
  eexists _, (z + 100)%Z. rewrite last_snoc. split; [reflexivity|].
  cbn [HistoryPoint.time HistoryPoint.price HistoryPoint.volume].
  split; [by unfold Date_now|]. split; [done|]. split; [|lia].
  rewrite Hz. apply Qc_is_canon. unfold Qcplus. cbn [this Q2Qc Qc_of_Z].
  rewrite Qred_correct. by rewrite inject_Z_plus.
Qed.

(** X17. Whenever the random numbers lie in [0, 1), the point a tick appends
    to each asset's history carries the time of the tick, the asset's new
    price, and a volume that is a whole number from 100 to 2099. *)
Theorem tick_new_point user p prevAssets w :
  unit_random w →
  Forall (λ new,
            ∃ pt z,
              last (Asset.history new) = Some pt
              ∧ HistoryPoint.time pt = Date_now w
              ∧ HistoryPoint.price pt = Asset.current_price new
              ∧ HistoryPoint.volume pt = Qc_of_Z z ∧ (100 ≤ z ≤ 2099)%Z)
    (tick user p prevAssets w).1.1.
Proof.
  intros Hw. rewrite tick_assets.
  apply (Forall2_right_Forall (A:=Asset.t) _ prevAssets).
  apply (mapW_Forall2 (λ w', unit_random w' ∧ now w' = now w)); [|done].
  intros asset w1 H1. by apply advanceAsset_point.
Qed.

Lemma tick_new_point_witness :
  unit_random demo_world
  ∧ Forall (λ new,
              ∃ pt z,
                last (Asset.history new) = Some pt
                ∧ HistoryPoint.time pt = Date_now demo_world
                ∧ HistoryPoint.price pt = Asset.current_price new
                ∧ HistoryPoint.volume pt = Qc_of_Z z ∧ (100 ≤ z ≤ 2099)%Z)
      (tick None DEFAULT_PORTFOLIO_DATA [demo_asset] demo_world).1.1.
Proof.
  split; [exact demo_world_unit|].
  exact (tick_new_point None DEFAULT_PORTFOLIO_DATA [demo_asset] demo_world
           demo_world_unit).
Defined.

(** ** The chart *)

Lemma sum_nonneg (l : list HistoryPoint.t) (acc : Qc) :
  Forall (λ e, 0 ≤ HistoryPoint.price e) l → 0 ≤ acc →
  0 ≤ fold_left (λ acc curr, acc + HistoryPoint.price curr) l acc.
Proof.
  intros Hl. revert acc. induction Hl as [|e l He _ IH]; intros acc Hacc; [done|].
  cbn [fold_left]. apply IH. by apply Qcplus_nonneg_nonneg.
Qed.

Lemma slice_window {A} (data : list A) (window index : nat) :
  (window - 1 ≤ index)%nat → (0 < window)%nat → (index < length data)%nat →
  slice (index + 1 - window) (index + 1) data
  = take window (drop (index + 1 - window) data)
  ∧ length (take window (drop (index + 1 - window) data)) = window.
Proof.
  intros H1 H2 H3. unfold slice. split; [f_equal; lia|].
  rewrite length_take, length_drop. lia.
Qed.

(** X18. The moving average of the chart keeps the points and their order;
    for a positive window it is missing at exactly the first [window - 1]
    points, and elsewhere it is the sum of the [window] prices that end at
    the point, added from the oldest on, divided by [window]; it is not
    negative when no price is. *)
Theorem sma_window data window :
  (0 < window)%nat →
  sma_entry <$> calculateSMA data window = data
  ∧ ∀ index pt,
      calculateSMA data window !! index = Some pt →
      (sma pt = None ↔ (index < window - 1)%nat)
      ∧ ((window - 1 ≤ index)%nat →
         let points := take window (drop (index + 1 - window) data) in
         length points = window
         ∧ sma pt
           = Some (fold_left (λ acc curr, acc + HistoryPoint.price curr) points 0
                   / Qc_of_Z (Z.of_nat window))
         ∧ (Forall (λ e, 0 ≤ HistoryPoint.price e) data →
            ∀ avg, sma pt = Some avg → 0 ≤ avg)).
Proof.
  intros Hw. unfold calculateSMA. split.
  - apply list_eq. intros i. rewrite list_lookup_fmap, list_lookup_imap.
    destruct (data !! i) as [e|]; [|done]. cbn. by case_bool_decide.
  - intros index pt. rewrite list_lookup_imap.
    destruct (data !! index) as [e|] eqn:E; [|done]. cbn. intros [= <-].
    apply lookup_lt_Some in E. split.
    + case_bool_decide as Hi; [done|]. split; [done|]. intros Hlt. lia.
    + intros Hi. rewrite bool_decide_eq_false_2 by lia.
      destruct (slice_window data window index Hi Hw E) as [-> Hlen].
      cbn [sma]. split; [exact Hlen|]. split; [done|].
      intros Hdata avg [= <-]. unfold Qcdiv. apply Qcmult_nonneg_nonneg.
      * apply sum_nonneg; [|done]. by apply Forall_take, Forall_drop.
      * apply Qclt_le_weak, Qcinv_pos, (proj1 (Qc_of_Z_pos _)). lia.
Qed.

Lemma sma_window_witness :
  (0 < 5)%nat
  ∧ sma_entry <$> calculateSMA demo_series 5 = demo_series
  ∧ sma <$> calculateSMA demo_series 5
    = [None; None; None; None; Some (Qc_of_Z 12); Some (Qc_of_Z 13)].
Proof.
  assert (0 < 5)%nat as H5 by lia.
  split; [exact H5|]. split; [exact (proj1 (sma_window demo_series 5 H5))|].
  qc_eval.
Defined.

Lemma Math_min_spec (a b : Qc) :
  (Math_min a b = a ∨ Math_min a b = b) ∧ Math_min a b ≤ a ∧ Math_min a b ≤ b.
Proof.
  unfold Math_min. case_bool_decide as H.
  - split; [by right|]. split; [by apply Qclt_le_weak|apply Qcle_refl].
  - split; [by left|]. split; [apply Qcle_refl|by apply Qcnot_lt_le].
Qed.

Lemma Math_max_spec (a b : Qc) :
  (Math_max a b = a ∨ Math_max a b = b) ∧ a ≤ Math_max a b ∧ b ≤ Math_max a b.
Proof.
  unfold Math_max. case_bool_decide as H.
  - split; [by right|]. split; [by apply Qclt_le_weak|apply Qcle_refl].
  - split; [by left|]. split; [apply Qcle_refl|by apply Qcnot_lt_le].
Qed.

Lemma fold_min_spec (l : list Qc) (x : Qc) :
  fold_left Math_min l x ∈ x :: l
  ∧ Forall (λ y, fold_left Math_min l x ≤ y) (x :: l).
Proof.
  revert x. induction l as [|y l IH]; intros x.
  - cbn. split; [by left|]. repeat constructor. apply Qcle_refl.
  - cbn [fold_left]. destruct (IH (Math_min x y)) as [Hin Hall].
    destruct (Math_min_spec x y) as (Hor & Hx & Hy).
    inversion Hall as [|? ? Hm Hl]; subst. split.
    + apply elem_of_cons in Hin as [->|Hin].
      * destruct Hor as [->| ->]; [by left|by right; left].
      * by right; right.
    + constructor; [by eapply Qcle_trans|].
      constructor; [by eapply Qcle_trans|done].
Qed.

Lemma fold_max_spec (l : list Qc) (x : Qc) :
  fold_left Math_max l x ∈ x :: l
  ∧ Forall (λ y, y ≤ fold_left Math_max l x) (x :: l).
Proof.
  revert x. induction l as [|y l IH]; intros x.
  - cbn. split; [by left|]. repeat constructor. apply Qcle_refl.
  - cbn [fold_left]. destruct (IH (Math_max x y)) as [Hin Hall].
    destruct (Math_max_spec x y) as (Hor & Hx & Hy).
    inversion Hall as [|? ? Hm Hl]; subst. split.
    + apply elem_of_cons in Hin as [->|Hin].
      * destruct Hor as [->| ->]; [by left|by right; left].
      * by right; right.
    + constructor; [by eapply Qcle_trans|].
      constructor; [by eapply Qcle_trans|done].
Qed.

(** X19. For a non-empty history of positive prices the chart's vertical
    domain is defined, starts above 0 at 0.99 times the lowest price of the
    history and ends at 1.01 times the highest one, and every price of the
    history lies strictly inside it. *)
Theorem chart_domain_contains asset :
  Asset.history asset ≠ [] →
  Forall (λ pt, 0 < HistoryPoint.price pt) (Asset.history asset) →
  ∃ lo hi,
    chartDomain asset = Some (lo * dec 99 100, hi * dec 101 100)
    ∧ lo ∈ HistoryPoint.price <$> Asset.history asset
    ∧ hi ∈ HistoryPoint.price <$> Asset.history asset
    ∧ 0 < lo * dec 99 100
    ∧ Forall (λ pt, lo * dec 99 100 < HistoryPoint.price pt
                    ∧ HistoryPoint.price pt < hi * dec 101 100)
        (Asset.history asset).
Proof.
  intros Hne Hpos. unfold chartDomain.
  assert (Forall (λ x, 0 < x) (HistoryPoint.price <$> Asset.history asset)) as Hpos'.
  { by apply Forall_fmap. }
  destruct (Asset.history asset) as [|pt0 h] eqn:E; [done|].
  cbn [fmap list_fmap Math_min_list Math_max_list]. cbn [fmap list_fmap] in Hpos'.
  destruct (fold_min_spec (HistoryPoint.price <$> h) (HistoryPoint.price pt0))
    as [Hmin_in Hmin].
  destruct (fold_max_spec (HistoryPoint.price <$> h) (HistoryPoint.price pt0))
    as [Hmax_in Hmax].
  set (lo := fold_left Math_min _ _) in *. set (hi := fold_left Math_max _ _) in *.
  assert (0 < lo) as Hlo by (by apply (proj1 (Forall_forall _ _) Hpos')).
  assert (0 < hi) as Hhi by (by apply (proj1 (Forall_forall _ _) Hpos')).
  exists lo, hi. split; [done|]. split; [done|]. split; [done|].
  assert (lo * dec 99 100 < lo) as Hlo' by (apply scale_down; [done|qc_eval]).
  assert (hi < hi * dec 101 100) as Hhi' by (apply scale_up; [done|qc_eval]).
  split; [apply Qcmult_pos_pos; [done|qc_eval]|].
  apply Forall_forall. intros pt Hpt.
  assert (HistoryPoint.price pt ∈ HistoryPoint.price pt0 :: (HistoryPoint.price <$> h))
    as Hin.
  { change (HistoryPoint.price pt ∈ HistoryPoint.price <$> pt0 :: h).
    by apply list_elem_of_fmap_2. }
  split.
  - eapply Qclt_le_trans; [exact Hlo'|]. by apply (proj1 (Forall_forall _ _) Hmin).
  - eapply Qcle_lt_trans; [|exact Hhi']. by apply (proj1 (Forall_forall _ _) Hmax).
Qed.

Lemma chart_domain_contains_witness :
  Asset.history demo_asset ≠ []
  ∧ Forall (λ pt, 0 < HistoryPoint.price pt) (Asset.history demo_asset)
  ∧ ∃ lo hi, chartDomain demo_asset = Some (lo * dec 99 100, hi * dec 101 100)
             ∧ 0 < lo * dec 99 100.
Proof.
  assert (Asset.history demo_asset ≠ []) as Hne by discriminate.
  assert (Forall (λ pt, 0 < HistoryPoint.price pt) (Asset.history demo_asset)) as Hpos.
  { repeat constructor. }
  destruct (chart_domain_contains demo_asset Hne Hpos) as (lo & hi & Hd & _ & _ & Hlo & _).
  split; [exact Hne|]. split; [exact Hpos|]. exists lo, hi. split; [exact Hd|exact Hlo].
Defined.

(** ** The selected asset *)

Lemma find_asset_elem a (l : list Asset.t) :
  a ∈ l → is_Some (find_asset (Asset.id a) l).
Proof.
  induction l as [|b l IH]; [by intros ?%elem_of_nil|].
  intros Hin. unfold find_asset in *. cbn.
  destruct (decide (Asset.id b = Asset.id a)) as [Hb|Hb].
  - by rewrite bool_decide_eq_true_2.
  - rewrite bool_decide_eq_false_2 by done.
    apply elem_of_cons in Hin as [->|Hin]; [done|by apply IH].
Qed.

Lemma advance_find k prevAssets w :
  is_Some (find_asset k prevAssets) → is_Some (find_asset k (advance prevAssets w).1).
Proof.
  assert (Forall2 (λ old new, Asset.id new = Asset.id old)
            prevAssets (advance prevAssets w).1) as HF.
  { apply (mapW_Forall2 (λ _, True)); [|done].
    intros asset w1 _. split; [|done]. apply advanceAsset_identity. }
  pose proof (find_asset_Forall2 k _ _ HF) as H.
  destruct (find_asset k prevAssets), (find_asset k (advance prevAssets w).1);
    try done.
Qed.

Lemma step_selection s s' :
  step s s' →
  is_Some (find_asset (selectedAssetId s) (assets s)) →
  is_Some (find_asset (selectedAssetId s') (assets s')).
Proof.
  intros Hstep Hsel. destruct Hstep as [s w|s asset f w _|s orderId w|s a Ha];
    cbn [assets selectedAssetId].
  - rewrite tick_assets. by apply advance_find.
  - done.
  - done.
  - by apply find_asset_elem.
Qed.

(** X21. The selection always names a listed asset: if the selected id is
    found among the assets (as it is at the start, where it is the id of the
    first asset), it is found after any sequence of ticks, submitted forms,
    cancellations and selections; so the panel and the chart show the asset
    with the selected id, never the fallback to the first asset, and
    [handleTrade] finds its asset. *)
Theorem selection_stays_listed s s' :
  is_Some (find_asset (selectedAssetId s) (assets s)) →
  rtc step s s' →
  ∃ a, find_asset (selectedAssetId s') (assets s') = Some a
       ∧ selectedAsset s' = Some a
       ∧ Asset.id a = selectedAssetId s'
       ∧ a ∈ assets s'.
Proof.
  intros Hsel Hsteps.
  assert (is_Some (find_asset (selectedAssetId s') (assets s'))) as [a Ha].
  { induction Hsteps as [|x y z Hxy _ IH]; [done|].
    apply IH. by eapply step_selection. }
  exists a. destruct (find_asset_Some _ _ _ Ha) as [Hid Hin].
  split; [done|]. split; [|done]. unfold selectedAsset. by rewrite Ha.
Qed.

Lemma selection_stays_listed_witness :
  is_Some (find_asset (selectedAssetId guest_state) (assets guest_state))
  ∧ rtc step guest_state guest_state_after_tick
  ∧ ∃ a, selectedAsset guest_state_after_tick = Some a ∧ Asset.id a = "TOM".
Proof.
  assert (is_Some (find_asset (selectedAssetId guest_state) (assets guest_state)))
    as Hsel by (by eexists).
  assert (rtc step guest_state guest_state_after_tick) as Hsteps.
  { apply rtc_once. exact (step_tick guest_state demo_world). }
  destruct (selection_stays_listed guest_state guest_state_after_tick Hsel Hsteps)
    as (a & _ & Ha & Hid & _).
  split; [exact Hsel|]. split; [exact Hsteps|]. exists a. split; [exact Ha|exact Hid].
Defined.
